(** * Weekly pull-request report: a shallow embedding of
      [.github/scripts/weekly-pr-report.py] and the properties of its
      window resolver, paginated collection, aggregation, ranking and
      start-up sequence.

    Conventions.
    - Python [str] values are [string]s holding the UTF-8 bytes of the text;
      byte-wise lexicographic order on UTF-8 coincides with Python's
      code-point order, so [String.leb] is Python's [<=] on [str].
    - Python [int] is [Z].
    - A [dict] whose iteration order is observable (the four counters) is an
      association list in insertion order with unique keys.
    - An uncaught exception or [sys.exit(1)] ends the process with status 1. *)

From Stdlib Require Import ZArith List String Ascii Bool Lia Permutation Sorted.
From Stdlib Require Import DecimalString.
Import ListNotations.

Local Open Scope string_scope.
Local Open Scope Z_scope.

(** ** Text helpers *)

(** [str(n)] for a Python [int]. *)
Definition str_of_int (n : Z) : string := NilZero.string_of_int (Z.to_int n).

(** [sep.join(parts)]. *)
Fixpoint join (sep : string) (parts : list string) : string :=
  match parts with
  | [] => ""
  | [p] => p
  | p :: rest => p ++ sep ++ join sep rest
  end.

(** Zero-padded decimal field of a [strftime] directive: the [width] lowest
    decimal digits of a non-negative number ([%m], [%d], [%H], [%M], [%S]
    with width 2, [%Y] with width 4). *)
Fixpoint zero_padded (width : nat) (n : Z) : string :=
  match width with
  | O => ""
  | S w => zero_padded w (n / 10) ++ String (ascii_of_nat (48 + Z.to_nat (n mod 10))) ""
  end.

Definition newline : string := String (ascii_of_nat 10) "".

(** ** The [datetime] fragment the script relies on

    Fixed-offset aware datetimes, with CPython's proleptic Gregorian ordinal
    arithmetic ([_ymd2ord], [_ord2ymd]); [OverflowError] is [None]. *)
Module Datetime.

Definition MINYEAR : Z := 1.
Definition MAXYEAR : Z := 9999.
Definition _MAXORDINAL : Z := 3652059.

Definition _DAYS_IN_MONTH : list Z := [-1; 31; 28; 31; 30; 31; 30; 31; 31; 30; 31; 30; 31].
Definition _DAYS_BEFORE_MONTH : list Z := [-1; 0; 31; 59; 90; 120; 151; 181; 212; 243; 273; 304; 334].

Definition _is_leap (year : Z) : bool :=
  (year mod 4 =? 0) && (negb (year mod 100 =? 0) || (year mod 400 =? 0)).

Definition _days_before_year (year : Z) : Z :=
  let y := year - 1 in y * 365 + y / 4 - y / 100 + y / 400.

Definition _days_in_month (year month : Z) : Z :=
  if (month =? 2) && _is_leap year then 29
  else nth (Z.to_nat month) _DAYS_IN_MONTH 0.

Definition _days_before_month (year month : Z) : Z :=
  nth (Z.to_nat month) _DAYS_BEFORE_MONTH 0
  + (if (2 <? month) && _is_leap year then 1 else 0).

Definition _ymd2ord (year month day : Z) : Z :=
  _days_before_year year + _days_before_month year month + day.

Definition _DI400Y : Z := 146097.
Definition _DI100Y : Z := 36524.
Definition _DI4Y : Z := 1461.

Definition _ord2ymd (n0 : Z) : Z * Z * Z :=
  let n := n0 - 1 in
  let n400 := n / _DI400Y in
  let n := n mod _DI400Y in
  let year := n400 * 400 + 1 in
  let n100 := n / _DI100Y in
  let n := n mod _DI100Y in
  let n4 := n / _DI4Y in
  let n := n mod _DI4Y in
  let n1 := n / 365 in
  let n := n mod 365 in
  let year := year + n100 * 100 + n4 * 4 + n1 in
  if (n1 =? 4) || (n100 =? 4) then (year - 1, 12, 31)
  else
    let leapyear := (n1 =? 3) && (negb (n4 =? 24) || (n100 =? 3)) in
    let month := Z.shiftr (n + 50) 5 in
    let preceding :=
      nth (Z.to_nat month) _DAYS_BEFORE_MONTH 0
      + (if (2 <? month) && leapyear then 1 else 0) in
    if n <? preceding then
      let month := month - 1 in
      let preceding :=
        preceding - (nth (Z.to_nat month) _DAYS_IN_MONTH 0
                     + (if (month =? 2) && leapyear then 1 else 0)) in
      (year, month, n - preceding + 1)
    else (year, month, n - preceding + 1).

(** [timedelta], normalised as the constructor does:
    [0 <= seconds < 86400], [0 <= microseconds < 1000000]. The bound
    [|days| <= 999999999] is never approached by the script's arithmetic. *)
Record timedelta : Type := mk_timedelta {
  td_days : Z;
  td_seconds : Z;
  td_microseconds : Z
}.

Definition timedelta_of (days seconds microseconds : Z) : timedelta :=
  let s := seconds + microseconds / 1000000 in
  mk_timedelta (days + s / 86400) (s mod 86400) (microseconds mod 1000000).

Definition td_add (a b : timedelta) : timedelta :=
  timedelta_of (td_days a + td_days b) (td_seconds a + td_seconds b)
               (td_microseconds a + td_microseconds b).

Definition td_neg (a : timedelta) : timedelta :=
  timedelta_of (- td_days a) (- td_seconds a) (- td_microseconds a).

(** An aware [datetime] whose [tzinfo] is a fixed-offset [timezone];
    the zone is identified with its UTC offset in seconds. *)
Record datetime : Type := mk_datetime {
  year : Z;
  month : Z;
  day : Z;
  hour : Z;
  minute : Z;
  second : Z;
  microsecond : Z;
  utcoffset : Z
}.

Definition valid_datetime (d : datetime) : Prop :=
  MINYEAR <= year d <= MAXYEAR /\
  1 <= month d <= 12 /\
  1 <= day d <= _days_in_month (year d) (month d) /\
  0 <= hour d <= 23 /\ 0 <= minute d <= 59 /\ 0 <= second d <= 59 /\
  0 <= microsecond d <= 999999 /\
  -86400 < utcoffset d < 86400.

Definition toordinal (d : datetime) : Z := _ymd2ord (year d) (month d) (day d).

(** [d.weekday()]: Monday is 0, Friday is 4. *)
Definition weekday (d : datetime) : Z := (toordinal d + 6) mod 7.

(** [d.replace(hour=h, minute=mi, second=s, microsecond=us)]. *)
Definition replace_time (d : datetime) (h mi s us : Z) : datetime :=
  mk_datetime (year d) (month d) (day d) h mi s us (utcoffset d).

(** [d.replace(tzinfo=tz)]. *)
Definition replace_tzinfo (d : datetime) (off : Z) : datetime :=
  mk_datetime (year d) (month d) (day d) (hour d) (minute d) (second d)
              (microsecond d) off.

(** [datetime.__add__]: wall-clock arithmetic that keeps [tzinfo] and raises
    [OverflowError] outside years 1..9999. *)
Definition dt_add (d : datetime) (t : timedelta) : option datetime :=
  let delta :=
    td_add (timedelta_of (toordinal d)
                         (hour d * 3600 + minute d * 60 + second d)
                         (microsecond d)) t in
  let h := td_seconds delta / 3600 in
  let rem := td_seconds delta mod 3600 in
  if (0 <? td_days delta) && (td_days delta <=? _MAXORDINAL) then
    let '(y, m, dd) := _ord2ymd (td_days delta) in
    Some (mk_datetime y m dd h (rem / 60) (rem mod 60)
                      (td_microseconds delta) (utcoffset d))
  else None.

(** [d - t] for a [timedelta] [t]. *)
Definition dt_sub_td (d : datetime) (t : timedelta) : option datetime :=
  dt_add d (td_neg t).

(** [a - b] for two aware datetimes. *)
Definition dt_sub (a b : datetime) : timedelta :=
  let base :=
    timedelta_of (toordinal a - toordinal b)
                 ((second a + minute a * 60 + hour a * 3600)
                  - (second b + minute b * 60 + hour b * 3600))
                 (microsecond a - microsecond b) in
  if utcoffset a =? utcoffset b then base
  else td_add (td_add base (timedelta_of 0 (utcoffset b) 0))
              (td_neg (timedelta_of 0 (utcoffset a) 0)).

(** [d.astimezone(tz)] for a fixed-offset target zone. *)
Definition astimezone (d : datetime) (off : Z) : option datetime :=
  if utcoffset d =? off then Some d
  else
    match dt_sub_td d (timedelta_of 0 (utcoffset d) 0) with
    | None => None
    | Some utc => dt_add (replace_tzinfo utc off) (timedelta_of 0 off 0)
    end.

End Datetime.
Import Datetime.

(** ** The script's constants and date helpers *)

(** [KST = timezone(timedelta(hours=9))]. *)
Definition KST : Z := 9 * 3600.
Definition UTC : Z := 0.
Definition REPORT_HOUR : Z := 16.

(** [get_report_range], with [datetime.now(KST)] passed in as [now_kst]. *)
Definition days_until_friday (now_kst : datetime) : Z := (4 - weekday now_kst) mod 7.

Definition get_report_range (now_kst : datetime) : option (datetime * datetime) :=
  match dt_add (replace_time now_kst REPORT_HOUR 0 0 0)
               (timedelta_of (days_until_friday now_kst) 0 0) with
  | None => None
  | Some this_friday =>
      match dt_sub_td this_friday (timedelta_of 7 0 0) with
      | None => None
      | Some last_friday => Some (last_friday, this_friday)
      end
  end.

(** [dt.strftime("%Y-%m-%dT%H:%M:%SZ")]. *)
Definition strftime_github (d : datetime) : string :=
  zero_padded 4 (year d) ++ "-" ++ zero_padded 2 (month d) ++ "-"
  ++ zero_padded 2 (day d) ++ "T" ++ zero_padded 2 (hour d) ++ ":"
  ++ zero_padded 2 (minute d) ++ ":" ++ zero_padded 2 (second d) ++ "Z".

Definition to_github_date (dt : datetime) : option string :=
  option_map strftime_github (astimezone dt UTC).

(** ** Records returned by the search queries

    The fields are those selected by the two GraphQL documents of
    [search_prs_created] and [search_prs_with_reviews]. A field the script
    reads with [.get] may be missing ([None]); a field it subscripts is
    always there. *)

Record Actor : Type := mk_actor { login : string }.

Record Repository : Type := mk_repository { name : string }.

(** A node of the "created in window" query. *)
Record CreatedPR : Type := mk_created_pr {
  cpr_number : Z;
  cpr_author : option Actor;
  cpr_repository : Repository
}.

(** A review nested under a node of the "updated in window" query;
    [rv_comments] is [comments.totalCount]. *)
Record Review : Type := mk_review {
  rv_author : option Actor;
  rv_createdAt : option string;
  rv_comments : Z
}.

Record ReviewConnection : Type := mk_review_connection {
  rc_nodes : option (list Review)
}.

Record UpdatedPR : Type := mk_updated_pr {
  upr_number : Z;
  upr_repository : Repository;
  upr_reviews : option ReviewConnection
}.

(** ** Counters: [defaultdict(int)] in insertion order *)

Definition counter : Type := list (string * Z).

(** [d[k] += c] on a [defaultdict(int)]: an existing key keeps its position,
    a new key is appended with [0 + c]. *)
Fixpoint incr (d : counter) (k : string) (c : Z) : counter :=
  match d with
  | [] => [(k, 0 + c)]
  | (k', v) :: rest =>
      if (k' =? k)%string then (k', v + c) :: rest
      else (k', v) :: incr rest k c
  end.

(** [d.get(k, 0)]. *)
Fixpoint get_count (d : counter) (k : string) : Z :=
  match d with
  | [] => 0
  | (k', v) :: rest => if (k' =? k)%string then v else get_count rest k
  end.

(** [sum(d.values())]. *)
Definition sum_values (d : counter) : Z :=
  fold_left (fun acc kv => acc + snd kv) d 0.

(** [d[k] = v] on a plain [dict]. *)
Fixpoint dict_set (d : counter) (k : string) (v : Z) : counter :=
  match d with
  | [] => [(k, v)]
  | (k', v') :: rest =>
      if (k' =? k)%string then (k', v) :: rest
      else (k', v') :: dict_set rest k v
  end.

(** [dict(items)]. *)
Definition dict_of_items (items : list (string * Z)) : counter :=
  fold_left (fun d kv => dict_set d (fst kv) (snd kv)) items [].

(** [sorted(items, key=lambda x: -x[1])]: the stable sort by descending
    count. An item is placed in front of the first already-sorted item whose
    key is not smaller, so items with equal keys keep their input order. *)
Definition sort_key (x : string * Z) : Z := - snd x.

Fixpoint insert_sorted (x : string * Z) (l : list (string * Z)) : list (string * Z) :=
  match l with
  | [] => [x]
  | y :: l' =>
      if sort_key x <=? sort_key y then x :: y :: l'
      else y :: insert_sorted x l'
  end.

Fixpoint sorted (items : list (string * Z)) : list (string * Z) :=
  match items with
  | [] => []
  | x :: rest => insert_sorted x (sorted rest)
  end.

(** [desc = lambda d: dict(sorted(d.items(), key=lambda x: -x[1]))]. *)
Definition desc (d : counter) : counter := dict_of_items (sorted d).

(** ** [aggregate] *)

Record AggregateStats : Type := mk_stats {
  total_prs : Z;
  total_comments : Z;
  pr_by_repo : counter;
  pr_by_person : counter;
  comments_by_repo : counter;
  comments_by_person : counter
}.

Definition ghost : string := "ghost".

(** [x["login"] if x else "ghost"] for an optional actor. *)
Definition login_or_ghost (a : option Actor) : string :=
  match a with
  | Some actor => login actor
  | None => ghost
  end.

(** [pr.get("reviews", {}).get("nodes", [])]. *)
Definition review_nodes (pr : UpdatedPR) : list Review :=
  match upr_reviews pr with
  | None => []
  | Some conn =>
      match rc_nodes conn with
      | None => []
      | Some l => l
      end
  end.

(** [review.get("createdAt", "")]. *)
Definition created_at (review : Review) : string :=
  match rv_createdAt review with
  | Some s => s
  | None => ""
  end.

(** The test [since_str <= created_at <= until_str] of the review loop. *)
Definition in_window (since_str until_str : string) (review : Review) : bool :=
  String.leb since_str (created_at review) && String.leb (created_at review) until_str.

(** Body of the first loop. *)
Definition count_created (acc : counter * counter) (pr : CreatedPR) : counter * counter :=
  let repo := name (cpr_repository pr) in
  let author := login_or_ghost (cpr_author pr) in
  (incr (fst acc) repo 1, incr (snd acc) author 1).

(** Body of the inner review loop. *)
Definition count_review (since_str until_str repo : string)
    (acc : counter * counter) (review : Review) : counter * counter :=
  if negb (in_window since_str until_str review) then acc
  else
    let reviewer := login_or_ghost (rv_author review) in
    let count := rv_comments review in
    (incr (fst acc) repo count, incr (snd acc) reviewer count).

(** Body of the outer review loop. *)
Definition count_updated (since_str until_str : string)
    (acc : counter * counter) (pr : UpdatedPR) : counter * counter :=
  let repo := name (upr_repository pr) in
  fold_left (count_review since_str until_str repo) (review_nodes pr) acc.

Definition aggregate (created_prs : list CreatedPR) (updated_prs : list UpdatedPR)
    (since until : datetime) : option AggregateStats :=
  let created := fold_left count_created created_prs ([], []) in
  match to_github_date since with
  | None => None
  | Some since_str =>
      match to_github_date until with
      | None => None
      | Some until_str =>
          let reviewed :=
            fold_left (count_updated since_str until_str) updated_prs ([], []) in
          Some (mk_stats (sum_values (fst created))
                         (sum_values (fst reviewed))
                         (desc (fst created))
                         (desc (snd created))
                         (desc (fst reviewed))
                         (desc (snd reviewed)))
      end
  end.

(** ** [ranking] *)

(** [items[:limit]]. *)
Definition slice_to {A : Type} (limit : Z) (items : list A) : list A :=
  if 0 <=? limit then firstn (Z.to_nat limit) items
  else firstn (List.length items - Z.to_nat (- limit))%nat items.

(** One line [f"{i}. {name}: {count}{unit}"]. *)
Definition ranking_line (unit : string) (i : Z) (item : string * Z) : string :=
  str_of_int i ++ ". " ++ fst item ++ ": " ++ str_of_int (snd item) ++ unit.

(** The lines over [enumerate(items, start)]. *)
Fixpoint ranking_lines (unit : string) (start : Z) (items : list (string * Z)) : list string :=
  match items with
  | [] => []
  | item :: rest => ranking_line unit start item :: ranking_lines unit (start + 1) rest
  end.

Definition no_activity : string := "활동 없음".
Definition default_unit : string := "건".

Definition ranking (data : counter) (unit : string) (limit : Z) : string :=
  let items := slice_to limit data in
  match items with
  | [] => no_activity
  | _ => join newline (ranking_lines unit 1 items)
  end.

(** ** The process and the remote services

    A run of the script is a state transformer over a [World]: the process
    environment, the clock, the log of HTTP requests sent so far, and the two
    output streams. It ends by returning, by [sys.exit], or with an uncaught
    exception; [None] means that the given number of loop iterations did not
    suffice. *)

Inductive Block : Type :=
| HeaderBlock (text : string)
| FieldsBlock (fields : list string)
| DividerBlock
| SectionBlock (text : string)
| ContextBlock (elements : list string).

Inductive Request : Type :=
| GraphqlRequest (token query q : string) (cursor : option string)
| SlackRequest (token channel : string) (blocks : list Block).

(** What [urllib.request.urlopen] followed by [json.loads] gives: a decoded
    body, or an exception of the transport. *)
Inductive http_result (A : Type) : Type :=
| HttpOk (body : A)
| HttpFailure (exn : string).
Arguments HttpOk {A} body.
Arguments HttpFailure {A} exn.

Record SearchPage (Node : Type) : Type := mk_page {
  sp_nodes : list (option Node);
  sp_hasNextPage : bool;
  sp_endCursor : option string
}.
Arguments mk_page {Node} _ _ _.
Arguments sp_nodes {Node} _.
Arguments sp_hasNextPage {Node} _.
Arguments sp_endCursor {Node} _.

(** The decoded GraphQL body: it has an ["errors"] member (rendered here as
    [json.dumps(..., indent=2)] prints it), or its ["data"]["search"]. *)
Inductive graphql_body (Node : Type) : Type :=
| GraphqlErrors (detail : string)
| GraphqlData (search : SearchPage Node).
Arguments GraphqlErrors {Node} detail.
Arguments GraphqlData {Node} search.

Record SlackResult : Type := mk_slack_result {
  sl_ok : bool;
  sl_error : option string
}.

Record World : Type := mk_world {
  environ : string -> option string;
  clock : datetime;
  network : list Request;
  stdout : list string;
  stderr : list string
}.

Inductive outcome (A : Type) : Type :=
| Returned (a : A)
| SysExit (code : Z)
| Raised (exn : string).
Arguments Returned {A} a.
Arguments SysExit {A} code.
Arguments Raised {A} exn.

Definition M (A : Type) : Type := World -> option (outcome A * World).

Definition ret {A : Type} (a : A) : M A := fun w => Some (Returned a, w).

Definition bind {A B : Type} (m : M A) (k : A -> M B) : M B :=
  fun w =>
    match m w with
    | None => None
    | Some (Returned a, w') => k a w'
    | Some (SysExit code, w') => Some (SysExit code, w')
    | Some (Raised exn, w') => Some (Raised exn, w')
    end.

Notation "x <- m ;; k" := (bind m (fun x => k))
  (at level 61, m at next level, right associativity).
Notation "m ;;; k" := (bind m (fun _ => k))
  (at level 61, right associativity).

Definition sys_exit {A : Type} (code : Z) : M A := fun w => Some (SysExit code, w).
Definition raise {A : Type} (exn : string) : M A := fun w => Some (Raised exn, w).

Definition print (line : string) : M unit :=
  fun w => Some (Returned tt,
                 mk_world (environ w) (clock w) (network w) (stdout w ++ [line]) (stderr w)).

Definition print_stderr (line : string) : M unit :=
  fun w => Some (Returned tt,
                 mk_world (environ w) (clock w) (network w) (stdout w) (stderr w ++ [line])).

(** [os.environ[key]]. *)
Definition environ_subscript (key : string) : M string :=
  fun w =>
    match environ w key with
    | Some v => Some (Returned v, w)
    | None => Some (Raised "KeyError", w)
    end.

(** [os.environ.get(key)]. *)
Definition environ_get (key : string) : M (option string) :=
  fun w => Some (Returned (environ w key), w).

(** A value computed by datetime arithmetic, or [OverflowError]. *)
Definition or_overflow {A : Type} (o : option A) : M A :=
  match o with
  | Some a => ret a
  | None => raise "OverflowError"
  end.

(** [urlopen(req)] and [json.loads(resp.read())] against a remote service:
    the request goes on the wire, and the service answers from the requests
    it has seen before and this one. *)
Definition urlopen {A : Type} (service : list Request -> Request -> http_result A)
    (req : Request) : M A :=
  fun w =>
    let w' := mk_world (environ w) (clock w) (network w ++ [req]) (stdout w) (stderr w) in
    match service (network w) req with
    | HttpOk body => Some (Returned body, w')
    | HttpFailure exn => Some (Raised exn, w')
    end.

Definition truncation_warning : string :=
  "Warning: 검색 결과 1000개 초과, 일부 누락 가능".

(** [[n for n in nodes if n]]. *)
Fixpoint truthy_nodes {Node : Type} (nodes : list (option Node)) : list Node :=
  match nodes with
  | [] => []
  | Some n :: rest => n :: truthy_nodes rest
  | None :: rest => truthy_nodes rest
  end.

Section Search.

Context {Node : Type}.
Variable github : list Request -> Request -> http_result (graphql_body Node).

(** [graphql(query, {"q": search_q, "cursor": cursor})["search"]]. *)
Definition graphql (query search_q : string) (cursor : option string) : M (SearchPage Node) :=
  token <- environ_subscript "GH_TOKEN" ;;
  body <- urlopen github (GraphqlRequest token query search_q cursor) ;;
  match body with
  | GraphqlErrors detail =>
      print_stderr ("GraphQL errors: " ++ detail) ;;; sys_exit 1
  | GraphqlData search => ret search
  end.

(** The [while True] loop of [_paginate_search], one iteration per unit of
    [fuel]. *)
Fixpoint paginate_loop (fuel : nat) (query search_q : string)
    (cursor : option string) (results : list Node) : M (list Node) :=
  match fuel with
  | O => fun _ => None
  | S fuel' =>
      search <- graphql query search_q cursor ;;
      let results := (results ++ truthy_nodes (sp_nodes search))%list in
      if negb (sp_hasNextPage search) then ret results
      else
        let cursor := sp_endCursor search in
        if (1000 <=? Z.of_nat (List.length results)) then
          print_stderr truncation_warning ;;; ret results
        else paginate_loop fuel' query search_q cursor results
  end.

Definition _paginate_search (fuel : nat) (query search_q : string) : M (list Node) :=
  paginate_loop fuel query search_q None [].

End Search.

(** ** The two searches, the publisher and [main] *)

Definition created_query : string := "
    query($q: String!, $cursor: String) {
      search(query: $q, type: ISSUE, first: 100, after: $cursor) {
        issueCount
        pageInfo { hasNextPage endCursor }
        nodes {
          ... on PullRequest {
            number
            author { login }
            repository { name }
          }
        }
      }
    }
    ".

Definition reviews_query : string := "
    query($q: String!, $cursor: String) {
      search(query: $q, type: ISSUE, first: 100, after: $cursor) {
        issueCount
        pageInfo { hasNextPage endCursor }
        nodes {
          ... on PullRequest {
            number
            repository { name }
            reviews(last: 100) {
              nodes {
                author { login }
                createdAt
                comments { totalCount }
              }
            }
          }
        }
      }
    }
    ".

(** [dt.strftime("%m/%d %H:%M")]. *)
Definition strftime_short (d : datetime) : string :=
  zero_padded 2 (month d) ++ "/" ++ zero_padded 2 (day d) ++ " "
  ++ zero_padded 2 (hour d) ++ ":" ++ zero_padded 2 (minute d).

(** [dt.strftime("%Y-%m-%d %H:%M")]. *)
Definition strftime_long (d : datetime) : string :=
  zero_padded 4 (year d) ++ "-" ++ zero_padded 2 (month d) ++ "-"
  ++ zero_padded 2 (day d) ++ " " ++ zero_padded 2 (hour d) ++ ":"
  ++ zero_padded 2 (minute d).

(** The [blocks] list of [send_slack]. *)
Definition slack_blocks (stats : AggregateStats) (since_str until_str : string) : list Block :=
  [ HeaderBlock "📊 주간 PR 리포트";
    FieldsBlock
      [ "*총 PR:*" ++ newline ++ str_of_int (total_prs stats) ++ "건";
        "*총 리뷰 코멘트:*" ++ newline ++ str_of_int (total_comments stats) ++ "건" ];
    DividerBlock;
    SectionBlock ("*📁 레포별 PR*" ++ newline ++ "```" ++ newline
                  ++ ranking (pr_by_repo stats) default_unit 10 ++ "```");
    SectionBlock ("*👤 사람별 PR*" ++ newline ++ "```" ++ newline
                  ++ ranking (pr_by_person stats) default_unit 10 ++ "```");
    DividerBlock;
    SectionBlock ("*📁 레포별 리뷰 코멘트*" ++ newline ++ "```" ++ newline
                  ++ ranking (comments_by_repo stats) default_unit 10 ++ "```");
    SectionBlock ("*👤 사람별 리뷰 코멘트*" ++ newline ++ "```" ++ newline
                  ++ ranking (comments_by_person stats) default_unit 10 ++ "```");
    ContextBlock [ "📅 " ++ since_str ++ " ~ " ++ until_str ] ].

(** [str(x)] for an optional string: [None] prints as its name. *)
Definition str_of_optional (o : option string) : string :=
  match o with
  | Some s => s
  | None => "None"
  end.

Section Run.

Variable github_created : list Request -> Request -> http_result (graphql_body CreatedPR).
Variable github_updated : list Request -> Request -> http_result (graphql_body UpdatedPR).
Variable slack : list Request -> Request -> http_result SlackResult.

Definition search_prs_created (fuel : nat) (org : string) (since until : datetime)
  : M (list CreatedPR) :=
  s <- or_overflow (to_github_date since) ;;
  u <- or_overflow (to_github_date until) ;;
  _paginate_search github_created fuel created_query
    ("org:" ++ org ++ " type:pr created:" ++ s ++ ".." ++ u).

Definition search_prs_with_reviews (fuel : nat) (org : string) (since until : datetime)
  : M (list UpdatedPR) :=
  s <- or_overflow (to_github_date since) ;;
  u <- or_overflow (to_github_date until) ;;
  _paginate_search github_updated fuel reviews_query
    ("org:" ++ org ++ " type:pr updated:" ++ s ++ ".." ++ u).

Definition send_slack (stats : AggregateStats) (since until : datetime) : M unit :=
  token <- environ_subscript "SLACK_BOT_TOKEN" ;;
  channel <- environ_subscript "SLACK_CHANNEL_ID" ;;
  since_kst <- or_overflow (astimezone since KST) ;;
  until_kst <- or_overflow (astimezone until KST) ;;
  let blocks := slack_blocks stats (strftime_short since_kst) (strftime_short until_kst) in
  result <- urlopen slack (SlackRequest token channel blocks) ;;
  if negb (sl_ok result) then
    print_stderr ("Slack error: " ++ str_of_optional (sl_error result)) ;;; sys_exit 1
  else print "Slack 전송 완료!".

(** [if not org] for the result of [os.environ.get]. *)
Definition falsy (o : option string) : bool :=
  match o with
  | None => true
  | Some s => (s =? "")%string
  end.

Definition main (fuel : nat) : M unit :=
  org <- environ_get "ORG_NAME" ;;
  if falsy org then
    print_stderr "Error: ORG_NAME 환경변수 필요" ;;; sys_exit 1
  else
    let org := str_of_optional org in
    now_kst <- (fun w => Some (Returned (clock w), w)) ;;
    range <- or_overflow (get_report_range now_kst) ;;
    let '(since, until) := range in
    since_kst <- or_overflow (astimezone since KST) ;;
    until_kst <- or_overflow (astimezone until KST) ;;
    print ("📊 " ++ org ++ " 주간 PR 리포트 (" ++ strftime_long since_kst
           ++ " ~ " ++ strftime_long until_kst ++ ")") ;;;
    created_prs <- search_prs_created fuel org since until ;;
    print ("  생성된 PR: " ++ str_of_int (Z.of_nat (List.length created_prs)) ++ "건") ;;;
    updated_prs <- search_prs_with_reviews fuel org since until ;;
    print ("  리뷰 활동 PR: " ++ str_of_int (Z.of_nat (List.length updated_prs)) ++ "건") ;;;
    stats <- or_overflow (aggregate created_prs updated_prs since until) ;;
    print ("  합계: PR " ++ str_of_int (total_prs stats) ++ "건, 리뷰 코멘트 "
           ++ str_of_int (total_comments stats) ++ "건") ;;;
    send_slack stats since until.

(** The exit status of the process for an outcome of [main]: 0 when it
    returns, the argument of [sys.exit], 1 for an uncaught exception. *)
Definition exit_status (o : outcome unit) : Z :=
  match o with
  | Returned _ => 0
  | SysExit code => code
  | Raised _ => 1
  end.

End Run.

(** * Definitions used by the statements and the proofs *)

(** Checks [P z && P (z + 1) && ...] for [count] consecutive numbers. *)
Fixpoint check_from (count : nat) (z : Z) (P : Z -> bool) : bool :=
  match count with
  | O => true
  | S k => P z && check_from k (z + 1) P
  end.

Definition valid_ymd (y m d : Z) : bool :=
  (1 <=? m) && (m <=? 12) && (1 <=? d) && (d <=? _days_in_month y m).

(** For an ordinal of the first 400-year cycle: [_ord2ymd] gives a valid
    date of that cycle whose ordinal it is. *)
Definition ordinal_checks (n : Z) : bool :=
  let '(y, m, d) := _ord2ymd n in
  (1 <=? y) && (y <=? 400) && valid_ymd y m d && (_ymd2ord y m d =? n).

(** For a date: its ordinal lies in the first 400-year cycle, and
    [_ord2ymd] gives the date back. *)
Definition date_check (y m d : Z) : bool :=
  let n := _ymd2ord y m d in
  let '(y', m', d') := _ord2ymd n in
  (1 <=? n) && (n <=? _DI400Y) && (y' =? y) && (m' =? m) && (d' =? d).

(** [date_check] for every day of a month. *)
Definition month_checks (y m : Z) : bool :=
  check_from (Z.to_nat (_days_in_month y m)) 1 (date_check y m).

(** [date_check] for every date of a year. *)
Definition date_checks (y : Z) : bool := check_from 12 1 (month_checks y).

(** The part of [_ord2ymd] after the first [divmod]. *)
Definition ord2ymd_in_cycle (n400 n : Z) : Z * Z * Z :=
  let year := n400 * 400 + 1 in
  let n100 := n / _DI100Y in
  let n := n mod _DI100Y in
  let n4 := n / _DI4Y in
  let n := n mod _DI4Y in
  let n1 := n / 365 in
  let n := n mod 365 in
  let year := year + n100 * 100 + n4 * 4 + n1 in
  if (n1 =? 4) || (n100 =? 4) then (year - 1, 12, 31)
  else
    let leapyear := (n1 =? 3) && (negb (n4 =? 24) || (n100 =? 3)) in
    let month := Z.shiftr (n + 50) 5 in
    let preceding :=
      nth (Z.to_nat month) _DAYS_BEFORE_MONTH 0
      + (if (2 <? month) && leapyear then 1 else 0) in
    if n <? preceding then
      let month := month - 1 in
      let preceding :=
        preceding - (nth (Z.to_nat month) _DAYS_IN_MONTH 0
                     + (if (month =? 2) && leapyear then 1 else 0)) in
      (year, month, n - preceding + 1)
    else (year, month, n - preceding + 1).

Definition shift_year (q : Z) (ymd : Z * Z * Z) : Z * Z * Z :=
  let '(y, m, d) := ymd in (y + 400 * q, m, d).

(** The datetime on the day of ordinal [n], at the given time and offset. *)
Definition at_ordinal (n h mi s us off : Z) : datetime :=
  let '(y, m, d) := _ord2ymd n in mk_datetime y m d h mi s us off.

Definition valid_time (d : datetime) : Prop :=
  0 <= hour d <= 23 /\ 0 <= minute d <= 59 /\ 0 <= second d <= 59 /\
  0 <= microsecond d <= 999999.

(** The day the window ends: the first Friday on or after [now]'s date. *)
Definition end_ordinal (now_kst : datetime) : Z :=
  toordinal now_kst + days_until_friday now_kst.

Definition wednesday_morning : datetime := mk_datetime 2024 5 1 10 30 15 123 KST.

Definition friday_morning : datetime := mk_datetime 2024 5 3 9 0 0 0 KST.
Definition friday_evening : datetime := mk_datetime 2024 5 3 21 30 0 0 KST.

(** The keys of a counter, in iteration order. *)
Definition keys (d : counter) : list string := map fst d.

(** Counts do not increase along the list. *)
Definition descending : list (string * Z) -> Prop :=
  StronglySorted (fun x y => snd y <= snd x).

(** The comments of the reviews of [reviews] that lie in the window and
    satisfy [sel]. *)
Definition counted_comments (since_str until_str : string) (sel : Review -> bool)
    (reviews : list Review) : Z :=
  fold_right (fun r acc =>
                (if in_window since_str until_str r && sel r then rv_comments r else 0) + acc)
             0 reviews.

(** [s1 < s2] on [str]. *)
Definition str_lt (s1 s2 : string) : bool := String.ltb s1 s2.

(** An "updated" node with the given reviews. *)
Definition pr_with_reviews (number : Z) (repo : string) (reviews : list Review) : UpdatedPR :=
  mk_updated_pr number (mk_repository repo) (Some (mk_review_connection (Some reviews))).

(** What one review adds to the counters. *)
Definition review_weight (since_str until_str : string) (rv : Review) : Z :=
  if in_window since_str until_str rv then rv_comments rv else 0.

(** The in-window comments of the selected reviews of the selected nodes. *)
Definition window_comments (since_str until_str : string) (sel_pr : UpdatedPR -> bool)
    (sel : Review -> bool) (prs : list UpdatedPR) : Z :=
  fold_right (fun pr acc =>
                (if sel_pr pr
                 then counted_comments since_str until_str sel (review_nodes pr)
                 else 0) + acc)
             0 prs.

Definition in_repo (k : string) (pr : UpdatedPR) : bool :=
  (name (upr_repository pr) =? k)%string.

Definition by_reviewer (k : string) (rv : Review) : bool :=
  (login_or_ghost (rv_author rv) =? k)%string.

Definition window_start : datetime := mk_datetime 2024 4 26 16 0 0 0 KST.
Definition window_end : datetime := mk_datetime 2024 5 3 16 0 0 0 KST.

(** The world after one more request has gone out. *)
Definition sent (w : World) (req : Request) : World :=
  mk_world (environ w) (clock w) (network w ++ [req]) (stdout w) (stderr w).

(** The world after one more line on the error stream. *)
Definition warned (w : World) (line : string) : World :=
  mk_world (environ w) (clock w) (network w) (stdout w) (stderr w ++ [line]).

(** The service answers the request that follows [n] earlier ones with
    [page], whatever the request. *)
Definition serves_at {Node : Type}
    (github : list Request -> Request -> http_result (graphql_body Node))
    (n : nat) (page : SearchPage Node) : Prop :=
  forall hist req, List.length hist = n -> github hist req = HttpOk (GraphqlData page).

(** Consecutive answers, from the request that follows [n] earlier ones. *)
Fixpoint served {Node : Type}
    (github : list Request -> Request -> http_result (graphql_body Node))
    (n : nat) (pages : list (SearchPage Node)) : Prop :=
  match pages with
  | [] => True
  | p :: rest => serves_at github n p /\ served github (S n) rest
  end.

(** All the truthy nodes of the pages, in order. *)
Definition collected {Node : Type} (pages : list (SearchPage Node)) : list Node :=
  flat_map (fun p => truthy_nodes (sp_nodes p)) pages.

(** After each of the pages the accumulated count is below the cap. *)
Fixpoint below_cap {Node : Type} (count : nat) (pages : list (SearchPage Node)) : Prop :=
  match pages with
  | [] => True
  | p :: rest =>
      let count' := (count + List.length (truthy_nodes (sp_nodes p)))%nat in
      (count' < 1000)%nat /\ below_cap count' rest
  end.

(** A page of 100 non-null nodes that announces a next page. *)
Definition full_page {Node : Type} (p : SearchPage Node) : Prop :=
  sp_hasNextPage p = true /\ List.length (sp_nodes p) = 100%nat /\
  Forall (fun n => n <> None) (sp_nodes p).

(** A simulated service: the request that follows [n] earlier ones is
    answered with the [n]-th page of a script, and with [default] after the
    script's end. *)
Definition scripted {Node : Type} (pages : list (SearchPage Node))
    (default : SearchPage Node) : list Request -> Request -> http_result (graphql_body Node) :=
  fun hist _ => HttpOk (GraphqlData (nth (List.length hist) pages default)).

(** A page of [present] nodes followed by [absent] nulls. *)
Definition page_of (present absent : nat) (next : bool) : SearchPage unit :=
  mk_page (repeat (Some tt) present ++ repeat None absent) next (Some "cursor").

(** A process environment that only holds the GitHub token. *)
Definition token_only : string -> option string :=
  fun key => if (key =? "GH_TOKEN")%string then Some "token" else None.

Definition fresh_world (env : string -> option string) (now : datetime) : World :=
  mk_world env now [] [] [].

Definition some_instant : datetime := mk_datetime 2024 5 1 10 30 15 123 KST.

Definition is_graphql (req : Request) : Prop :=
  match req with
  | GraphqlRequest _ _ _ _ => True
  | SlackRequest _ _ _ => False
  end.

(** From [w] to [w'] the environment is unchanged and only GraphQL requests
    were sent. *)
Definition only_graphql (w w' : World) : Prop :=
  environ w' = environ w /\
  exists sent_now, network w' = (network w ++ sent_now)%list /\ Forall is_graphql sent_now.

(** From [w] to [w'] the environment is unchanged and nothing was sent. *)
Definition nothing_sent (w w' : World) : Prop :=
  environ w' = environ w /\ network w' = network w.

(** The process ends with status 1. *)
Definition fails {A : Type} (o : outcome A) : Prop :=
  match o with
  | Returned _ => False
  | SysExit code => code = 1
  | Raised _ => True
  end.

(** If the step does not return, the process ends with status 1. *)
Definition fails_unless_returned {A : Type} (o : outcome A) : Prop :=
  match o with
  | Returned _ => True
  | _ => fails o
  end.

(** Every finished run of [m] relates the worlds by [R] and either returns
    or fails with status 1. *)
Definition keeps (R : World -> World -> Prop) {A : Type} (m : M A) : Prop :=
  forall w out w', m w = Some (out, w') -> R w w' /\ fails_unless_returned out.

(** [m] always finishes, and as [keeps] says. *)
Definition finishes (R : World -> World -> Prop) {A : Type} (m : M A) : Prop :=
  forall w, exists out w', m w = Some (out, w') /\ R w w' /\ fails_unless_returned out.

(** Started in environment [env], every finished run of [m] fails with
    status 1, the worlds related by [R]. *)
Definition dies (R : World -> World -> Prop) (env : string -> option string)
    {A : Type} (m : M A) : Prop :=
  forall w out w', environ w = env -> m w = Some (out, w') -> R w w' /\ fails out.

(** Started in environment [env], [m] finishes and fails with status 1. *)
Definition surely_dies (R : World -> World -> Prop) (env : string -> option string)
    {A : Type} (m : M A) : Prop :=
  forall w, environ w = env -> exists out w', m w = Some (out, w') /\ R w w' /\ fails out.

(** A process environment with the organisation and the GitHub token, and
    neither of the two Slack settings. *)
Definition github_only : string -> option string :=
  fun key =>
    if (key =? "ORG_NAME")%string then Some "acme"
    else if (key =? "GH_TOKEN")%string then Some "token"
    else None.

(** A search service whose only page is empty and final. *)
Definition no_results {Node : Type} : list Request -> Request -> http_result (graphql_body Node) :=
  scripted [] (mk_page [] false None).

(** A chat service that accepts every message. *)
Definition slack_ok : list Request -> Request -> http_result SlackResult :=
  fun _ _ => HttpOk (mk_slack_result true None).

(** Seconds since midnight on the wall clock of [d]. *)
Definition seconds_of_day (d : datetime) : Z :=
  hour d * 3600 + minute d * 60 + second d.

(** The instant of [d] in whole seconds of UTC, counted from the midnight
    that begins ordinal 0. *)
Definition utc_seconds (d : datetime) : Z :=
  toordinal d * 86400 + seconds_of_day d - utcoffset d.

(** The datetime whose wall clock shows [t] seconds after the midnight that
    begins ordinal 0. *)
Definition at_seconds (t us off : Z) : datetime :=
  at_ordinal (t / 86400) (t mod 86400 / 3600) (t mod 3600 / 60) (t mod 60) us off.

(** [MINYEAR-01-01 <= day of t <= MAXYEAR-12-31]. *)
Definition in_range (t : Z) : bool :=
  (0 <? t / 86400) && (t / 86400 <=? _MAXORDINAL).

(** The text [to_github_date] gives for the instant [t] seconds of UTC. *)
Definition github_stamp (t : Z) : string := strftime_github (at_seconds t 0 UTC).

Definition friday_afternoon_kst : datetime := mk_datetime 2024 5 3 16 0 0 0 KST.
Definition friday_morning_utc : datetime := mk_datetime 2024 5 3 7 0 0 250 UTC.
Definition first_morning_kst : datetime := mk_datetime 1 1 1 8 59 59 0 KST.

(** The [%Y-%m-%d] part of a rendering. *)
Definition date_text (d : datetime) : string :=
  zero_padded 4 (year d) ++ "-" ++ zero_padded 2 (month d) ++ "-" ++ zero_padded 2 (day d).

(** Lexicographic combination of two comparisons. *)
Definition lex (c1 c2 : comparison) : comparison :=
  match c1 with
  | Eq => c2
  | _ => c1
  end.

(** The first second of year 1000 in UTC: from there on [%Y] has four
    digits whatever the C library does with shorter years. *)
Definition year_1000 : Z := _ymd2ord 1000 1 1 * 86400.

(** The two month tables for a year that is, or is not, a leap year. *)
Definition days_before_month_of (leap : bool) (m : Z) : Z :=
  nth (Z.to_nat m) _DAYS_BEFORE_MONTH 0 + (if (2 <? m) && leap then 1 else 0).

Definition days_in_month_of (leap : bool) (m : Z) : Z :=
  if (m =? 2) && leap then 29 else nth (Z.to_nat m) _DAYS_IN_MONTH 0.

(** A later month begins after the end of an earlier one. *)
Definition month_order_check (leap : bool) (m m' : Z) : bool :=
  implb (m <? m')
        (days_before_month_of leap m + days_in_month_of leap m
         <=? days_before_month_of leap m').

Definition month_order_checks (leap : bool) (m : Z) : bool :=
  check_from 12 1 (month_order_check leap m).

(** The number of elements of [l] that satisfy [f]. *)
Definition count_if {A : Type} (f : A -> bool) (l : list A) : Z :=
  Z.of_nat (List.length (filter f l)).

Definition created_in_repo (k : string) (pr : CreatedPR) : bool :=
  (name (cpr_repository pr) =? k)%string.

Definition created_by (k : string) (pr : CreatedPR) : bool :=
  (login_or_ghost (cpr_author pr) =? k)%string.

(** A review of a node of [prs] that passes the window test, the node
    satisfying [P] and the review [Q]. *)
Definition counted_review (s u : string) (prs : list UpdatedPR)
    (P : UpdatedPR -> Prop) (Q : Review -> Prop) : Prop :=
  exists pr rv, In pr prs /\ In rv (review_nodes pr) /\ in_window s u rv = true /\
                P pr /\ Q rv.

(** Two created records of repository "x", one without author and one by a
    user named "ghost", and one node of "y" whose only review lies in the
    window and has no comment. *)
Definition sample_created : list CreatedPR :=
  [ mk_created_pr 1 None (mk_repository "x");
    mk_created_pr 2 (Some (mk_actor "ghost")) (mk_repository "x") ].

Definition sample_updated : list UpdatedPR :=
  [ pr_with_reviews 3 "y" [ mk_review (Some (mk_actor "bob")) (Some "2024-05-01T00:00:00Z") 0 ] ].

Definition sample_since : datetime := mk_datetime 2024 4 26 16 0 0 0 KST.
Definition sample_until : datetime := mk_datetime 2024 5 3 16 0 0 0 KST.

Definition sample_stats : AggregateStats :=
  mk_stats 2 0 [("x", 2)] [("ghost", 2)] [("y", 0)] [("bob", 0)].

Definition sample_pair : list CreatedPR :=
  [ mk_created_pr 1 None (mk_repository "x"); mk_created_pr 2 None (mk_repository "y") ].

Definition sample_pair_swapped : list CreatedPR :=
  [ mk_created_pr 2 None (mk_repository "y"); mk_created_pr 1 None (mk_repository "x") ].

(** The first character of a text, if any. *)
Definition first_char (s : string) : option ascii :=
  match s with
  | EmptyString => None
  | String c _ => Some c
  end.

(** The requests that fetch [pages] one after the other: the first carries
    [cursor], each later one the [endCursor] of the page before it. *)
Fixpoint requests_from {Node : Type} (token query q : string) (cursor : option string)
    (pages : list (SearchPage Node)) : list Request :=
  match pages with
  | [] => []
  | p :: rest =>
      GraphqlRequest token query q cursor :: requests_from token query q (sp_endCursor p) rest
  end.

(** The cursor held after [pages] have been fetched. *)
Definition last_cursor {Node : Type} (cursor : option string)
    (pages : list (SearchPage Node)) : option string :=
  fold_left (fun _ p => sp_endCursor p) pages cursor.

(** What [_paginate_search] ends with when [answer] is the response that
    stops the loop after [pages]. *)
Definition search_outcome {Node : Type} (pages : list (SearchPage Node))
    (answer : http_result (graphql_body Node)) : outcome (list Node) :=
  match answer with
  | HttpOk (GraphqlData last) => Returned (collected (pages ++ [last]))
  | HttpOk (GraphqlErrors _) => SysExit 1
  | HttpFailure exn => Raised exn
  end.

(** The lines it adds to the error stream. *)
Definition search_complaint {Node : Type} (answer : http_result (graphql_body Node))
  : list string :=
  match answer with
  | HttpOk (GraphqlErrors detail) => ["GraphQL errors: " ++ detail]
  | _ => []
  end.

(** The response is not a page that announces a successor. *)
Definition stops_the_loop {Node : Type} (answer : http_result (graphql_body Node)) : Prop :=
  match answer with
  | HttpOk (GraphqlData last) => sp_hasNextPage last = false
  | _ => True
  end.

(** A simulated service: the pages of a script, then [answer] for ever. *)
Definition scripted_then {Node : Type} (pages : list (SearchPage Node))
    (answer : http_result (graphql_body Node))
  : list Request -> Request -> http_result (graphql_body Node) :=
  fun hist _ =>
    match nth_error pages (List.length hist) with
    | Some p => HttpOk (GraphqlData p)
    | None => answer
    end.

(** A service that answers every request with an empty page that announces
    a successor. *)
Definition endless {Node : Type} : list Request -> Request -> http_result (graphql_body Node) :=
  fun _ _ => HttpOk (GraphqlData (mk_page [] true (Some "cursor"))).

(** Every page that announces a successor brings at least one record. *)
Definition progresses {Node : Type}
    (github : list Request -> Request -> http_result (graphql_body Node)) : Prop :=
  forall hist req page,
    github hist req = HttpOk (GraphqlData page) ->
    sp_hasNextPage page = true -> truthy_nodes (sp_nodes page) <> [].

Definition slack_done : string := "Slack 전송 완료!".



(** A process environment with all four settings. *)
Definition full_env : string -> option string :=
  fun key =>
    if (key =? "ORG_NAME")%string then Some "acme"
    else if (key =? "GH_TOKEN")%string then Some "token"
    else if (key =? "SLACK_BOT_TOKEN")%string then Some "xoxb"
    else if (key =? "SLACK_CHANNEL_ID")%string then Some "C01"
    else None.


(** The four progress lines of [main]. *)
Definition report_lines (org : string) (since until : datetime)
    (created updated : nat) (stats : AggregateStats) : list string :=
  [ "📊 " ++ org ++ " 주간 PR 리포트 (" ++ strftime_long since ++ " ~ "
    ++ strftime_long until ++ ")";
    "  생성된 PR: " ++ str_of_int (Z.of_nat created) ++ "건";
    "  리뷰 활동 PR: " ++ str_of_int (Z.of_nat updated) ++ "건";
    "  합계: PR " ++ str_of_int (total_prs stats) ++ "건, 리뷰 코멘트 "
    ++ str_of_int (total_comments stats) ++ "건" ].

(** The search texts of the two queries. *)
Definition created_search (org s u : string) : string :=
  "org:" ++ org ++ " type:pr created:" ++ s ++ ".." ++ u.

Definition updated_search (org s u : string) : string :=
  "org:" ++ org ++ " type:pr updated:" ++ s ++ ".." ++ u.

(** The world after one more line on the output stream. *)
Definition printed (w : World) (line : string) : World :=
  mk_world (environ w) (clock w) (network w) (stdout w ++ [line]) (stderr w).

(** The outcome of a step that did not return, seen from the caller. *)
Definition propagated {A B : Type} (o : outcome A) : outcome B :=
  match o with
  | Returned _ => Raised "unreachable"
  | SysExit code => SysExit code
  | Raised exn => Raised exn
  end.

(** * Properties *)

(** ** Calendar arithmetic *)

Ltac euclid := Z.to_euclidean_division_equations; lia.

Lemma check_from_spec (count : nat) (P : Z -> bool) : forall z0,
  check_from count z0 P = true ->
  forall z, z0 <= z < z0 + Z.of_nat count -> P z = true.
Proof.
  induction count as [|k IH]; intros z0 H z Hz.
  - simpl in Hz. lia.
  - cbn [check_from] in H. apply andb_true_iff in H as [Hk Hrest].
    destruct (Z.eq_dec z z0) as [->|Hne]; [exact Hk|].
    apply (IH (z0 + 1)); [exact Hrest | lia].
Qed.

Lemma ordinal_cycle_checked : check_from (Z.to_nat 146097) 1 ordinal_checks = true.
Proof. vm_cast_no_check (eq_refl true). Qed.

Lemma date_cycle_checked : check_from (Z.to_nat 400) 1 date_checks = true.
Proof. vm_cast_no_check (eq_refl true). Qed.

Lemma ord2ymd_unfold (n0 : Z) :
  _ord2ymd n0 = ord2ymd_in_cycle ((n0 - 1) / _DI400Y) ((n0 - 1) mod _DI400Y).
Proof. reflexivity. Qed.

Lemma ord2ymd_in_cycle_shift (q r : Z) :
  ord2ymd_in_cycle q r = shift_year q (ord2ymd_in_cycle 0 r).
Proof.
  unfold ord2ymd_in_cycle, shift_year. cbv zeta.
  repeat match goal with
         | |- context [if ?c then _ else _] => destruct c
         end; f_equal; try (f_equal; lia); lia.
Qed.

Lemma ord2ymd_shift (q n : Z) :
  1 <= n <= _DI400Y -> _ord2ymd (_DI400Y * q + n) = shift_year q (_ord2ymd n).
Proof.
  intros Hn. rewrite !ord2ymd_unfold. unfold _DI400Y in *.
  replace ((146097 * q + n - 1) / 146097) with q by euclid.
  replace ((146097 * q + n - 1) mod 146097) with (n - 1) by euclid.
  replace ((n - 1) / 146097) with 0 by euclid.
  replace ((n - 1) mod 146097) with (n - 1) by euclid.
  apply ord2ymd_in_cycle_shift.
Qed.

Lemma is_leap_shift (y q : Z) : _is_leap (y + 400 * q) = _is_leap y.
Proof.
  unfold _is_leap.
  replace ((y + 400 * q) mod 4) with (y mod 4) by euclid.
  replace ((y + 400 * q) mod 100) with (y mod 100) by euclid.
  replace ((y + 400 * q) mod 400) with (y mod 400) by euclid.
  reflexivity.
Qed.

Lemma days_in_month_shift (y q m : Z) :
  _days_in_month (y + 400 * q) m = _days_in_month y m.
Proof. unfold _days_in_month. now rewrite is_leap_shift. Qed.

Lemma ymd2ord_shift (y q m d : Z) :
  _ymd2ord (y + 400 * q) m d = _DI400Y * q + _ymd2ord y m d.
Proof.
  unfold _ymd2ord, _days_before_month, _days_before_year, _DI400Y.
  rewrite is_leap_shift. cbv zeta.
  destruct ((2 <? m) && _is_leap y);
    generalize (nth (Z.to_nat m) _DAYS_BEFORE_MONTH 0); intros b; euclid.
Qed.

Lemma valid_ymd_spec (y m d : Z) :
  valid_ymd y m d = true <-> 1 <= m <= 12 /\ 1 <= d <= _days_in_month y m.
Proof. unfold valid_ymd. rewrite !andb_true_iff, !Z.leb_le. lia. Qed.

(** [_ord2ymd] gives a valid date whose ordinal is the argument. *)
Lemma ymd2ord_ord2ymd (n : Z) :
  1 <= n ->
  let '(y, m, d) := _ord2ymd n in
  1 <= y /\ 1 <= m <= 12 /\ 1 <= d <= _days_in_month y m /\ _ymd2ord y m d = n.
Proof.
  intros Hn.
  set (q := (n - 1) / _DI400Y). set (r := (n - 1) mod _DI400Y + 1).
  assert (Hr : 1 <= r <= _DI400Y) by (unfold r, _DI400Y; euclid).
  assert (Hq : 0 <= q) by (unfold q, _DI400Y; euclid).
  assert (En : n = _DI400Y * q + r) by (unfold q, r, _DI400Y; euclid).
  clearbody q r. rewrite En.
  rewrite ord2ymd_shift by exact Hr.
  pose proof (check_from_spec _ _ _ ordinal_cycle_checked r) as Hc.
  unfold ordinal_checks in Hc.
  destruct (_ord2ymd r) as [[y m] d]. cbn [shift_year].
  rewrite !andb_true_iff, valid_ymd_spec, !Z.leb_le, Z.eqb_eq in Hc.
  destruct Hc as [[[Hy1 Hy2] Hv] He]; [unfold _DI400Y in Hr; lia|].
  rewrite days_in_month_shift, ymd2ord_shift. lia.
Qed.

Lemma date_check_spec (y m d : Z) :
  date_check y m d = true ->
  1 <= _ymd2ord y m d <= _DI400Y /\ _ord2ymd (_ymd2ord y m d) = (y, m, d).
Proof.
  unfold date_check. cbv zeta.
  generalize (_ymd2ord y m d). intros n.
  destruct (_ord2ymd n) as [[y' m'] d'].
  rewrite !andb_true_iff, !Z.leb_le, !Z.eqb_eq.
  intros [[[[Hn1 Hn2] ->] ->] ->]. split; [lia|reflexivity].
Qed.

Lemma date_check_in_cycle (r m d : Z) :
  1 <= r <= 400 -> 1 <= m <= 12 -> 1 <= d <= _days_in_month r m ->
  date_check r m d = true.
Proof.
  intros Hr Hm Hd.
  apply (check_from_spec (Z.to_nat (_days_in_month r m)) (date_check r m) 1);
    [|rewrite Z2Nat.id; lia].
  change (month_checks r m = true).
  apply (check_from_spec 12 (month_checks r) 1); [|change (Z.of_nat 12) with 12; lia].
  change (date_checks r = true).
  apply (check_from_spec (Z.to_nat 400) date_checks 1 date_cycle_checked).
  change (Z.of_nat (Z.to_nat 400)) with 400. lia.
Qed.

(** The ordinal of a valid date is positive, and [_ord2ymd] gives the date back. *)
Lemma ord2ymd_ymd2ord (y m d : Z) :
  1 <= y -> 1 <= m <= 12 -> 1 <= d <= _days_in_month y m ->
  1 <= _ymd2ord y m d /\ _ord2ymd (_ymd2ord y m d) = (y, m, d).
Proof.
  intros Hy Hm Hd.
  set (q := (y - 1) / 400). set (r := (y - 1) mod 400 + 1).
  assert (Hr : 1 <= r <= 400) by (unfold r; euclid).
  assert (Hq : 0 <= q) by (unfold q; euclid).
  assert (Ey : y = r + 400 * q) by (unfold q, r; euclid).
  clearbody q r. subst y.
  rewrite days_in_month_shift in Hd. rewrite ymd2ord_shift.
  destruct (date_check_spec r m d (date_check_in_cycle r m d Hr Hm Hd)) as [Hn E].
  split; [unfold _DI400Y in *; lia|].
  rewrite ord2ymd_shift by exact Hn. rewrite E. reflexivity.
Qed.

Lemma timedelta_of_small (d s us : Z) :
  0 <= s < 86400 -> 0 <= us < 1000000 -> timedelta_of d s us = mk_timedelta d s us.
Proof.
  intros Hs Hus. unfold timedelta_of. cbv zeta.
  rewrite (Z.div_small us), (Z.mod_small us) by lia.
  rewrite Z.add_0_r, (Z.div_small s), (Z.mod_small s) by lia.
  now rewrite Z.add_0_r.
Qed.

Lemma toordinal_at_ordinal (n h mi s us off : Z) :
  1 <= n -> toordinal (at_ordinal n h mi s us off) = n.
Proof.
  intros Hn. unfold at_ordinal, toordinal.
  pose proof (ymd2ord_ord2ymd n Hn) as H.
  destruct (_ord2ymd n) as [[y m] d]. cbn. tauto.
Qed.

Lemma month_tables_bound (leap : bool) (m : Z) :
  1 <= m <= 12 ->
  nth (Z.to_nat m) _DAYS_BEFORE_MONTH 0 + (if (2 <? m) && leap then 1 else 0)
  + (if (m =? 2) && leap then 29 else nth (Z.to_nat m) _DAYS_IN_MONTH 0)
  <= 365 + (if leap then 1 else 0).
Proof.
  intros Hm. apply Z.leb_le.
  apply (check_from_spec 12
           (fun m => nth (Z.to_nat m) _DAYS_BEFORE_MONTH 0
                     + (if (2 <? m) && leap then 1 else 0)
                     + (if (m =? 2) && leap then 29
                        else nth (Z.to_nat m) _DAYS_IN_MONTH 0)
                     <=? 365 + (if leap then 1 else 0)) 1);
    [destruct leap; vm_compute; reflexivity | lia].
Qed.

Lemma days_before_month_bound (y m d : Z) :
  1 <= m <= 12 -> 1 <= d <= _days_in_month y m ->
  _days_before_month y m + d <= 365 + (if _is_leap y then 1 else 0).
Proof.
  intros Hm Hd. pose proof (month_tables_bound (_is_leap y) m Hm) as H.
  unfold _days_before_month, _days_in_month in *. lia.
Qed.

Lemma days_before_year_succ (y : Z) :
  _days_before_year (y + 1)
  = _days_before_year y + 365 + (if _is_leap y then 1 else 0).
Proof.
  unfold _days_before_year, _is_leap. cbv zeta.
  destruct (Z.eqb_spec (y mod 4) 0), (Z.eqb_spec (y mod 100) 0),
    (Z.eqb_spec (y mod 400) 0); cbn [andb orb negb]; euclid.
Qed.

Lemma days_before_year_max (y : Z) :
  y <= 10000 -> _days_before_year y <= _MAXORDINAL.
Proof.
  intros Hy. unfold _days_before_year, _MAXORDINAL. cbv zeta.
  set (a := (y - 1) / 400). set (b := (y - 1) mod 400).
  assert (Hb : 0 <= b < 400) by (unfold b; euclid).
  assert (Ha : a <= 24) by (unfold a; euclid).
  replace (y - 1) with (400 * a + b) by (unfold a, b; euclid).
  replace ((400 * a + b) / 4) with (100 * a + b / 4) by euclid.
  replace ((400 * a + b) / 100) with (4 * a + b / 100) by euclid.
  replace ((400 * a + b) / 400) with a by euclid.
  euclid.
Qed.

Lemma toordinal_valid (d : datetime) :
  valid_datetime d -> 1 <= toordinal d <= _MAXORDINAL.
Proof.
  intros (Hy & Hm & Hd & _). unfold MINYEAR, MAXYEAR in Hy.
  destruct (ord2ymd_ymd2ord (year d) (month d) (day d)) as [H1 _]; try lia.
  split; [exact H1|].
  pose proof (days_before_month_bound _ _ _ Hm Hd) as Hb.
  pose proof (days_before_year_succ (year d)) as Hs.
  pose proof (days_before_year_max (year d + 1) ltac:(lia)) as Hmax.
  unfold toordinal, _ymd2ord. lia.
Qed.

(** Adding whole days keeps the time of day. *)
Lemma dt_add_days (d : datetime) (k : Z) :
  valid_time d ->
  dt_add d (mk_timedelta k 0 0) =
    if (0 <? toordinal d + k) && (toordinal d + k <=? _MAXORDINAL)
    then Some (at_ordinal (toordinal d + k) (hour d) (minute d) (second d)
                          (microsecond d) (utcoffset d))
    else None.
Proof.
  intros (Hh & Hmi & Hs & Hus). unfold dt_add, td_add. cbv zeta.
  rewrite (timedelta_of_small (toordinal d)) by lia.
  cbn [td_days td_seconds td_microseconds].
  rewrite !Z.add_0_r, timedelta_of_small by lia.
  cbn [td_days td_seconds td_microseconds].
  destruct ((0 <? toordinal d + k) && (toordinal d + k <=? _MAXORDINAL)); [|reflexivity].
  unfold at_ordinal. destruct (_ord2ymd (toordinal d + k)) as [[y m] dd].
  f_equal. f_equal; euclid.
Qed.

Lemma at_ordinal_fields (n h mi s us off : Z) :
  let d := at_ordinal n h mi s us off in
  hour d = h /\ minute d = mi /\ second d = s /\ microsecond d = us /\ utcoffset d = off.
Proof. unfold at_ordinal. destruct (_ord2ymd n) as [[y m] d]. cbn. tauto. Qed.

Lemma at_ordinal_toordinal (d : datetime) :
  valid_datetime d ->
  at_ordinal (toordinal d) (hour d) (minute d) (second d) (microsecond d) (utcoffset d) = d.
Proof.
  intros (Hy & Hm & Hd & _). unfold MINYEAR in Hy.
  destruct (ord2ymd_ymd2ord (year d) (month d) (day d)) as [_ H]; try lia.
  unfold at_ordinal, toordinal. rewrite H. now destruct d.
Qed.

Lemma end_ordinal_bounds (now : datetime) :
  valid_datetime now ->
  toordinal now <= end_ordinal now <= _MAXORDINAL /\ (end_ordinal now + 6) mod 7 = 4.
Proof.
  intros Hv. pose proof (toordinal_valid now Hv) as Ho.
  unfold end_ordinal, days_until_friday, weekday, _MAXORDINAL in *. euclid.
Qed.

(** [get_report_range] in closed form. *)
Lemma get_report_range_eq (now : datetime) :
  valid_datetime now ->
  get_report_range now =
    if 7 <? end_ordinal now
    then Some (at_ordinal (end_ordinal now - 7) REPORT_HOUR 0 0 0 (utcoffset now),
               at_ordinal (end_ordinal now) REPORT_HOUR 0 0 0 (utcoffset now))
    else None.
Proof.
  intros Hv. pose proof (toordinal_valid now Hv) as Ho.
  pose proof (end_ordinal_bounds now Hv) as [[He1 He2] _].
  unfold get_report_range.
  assert (Hdays : 0 <= days_until_friday now < 7) by (unfold days_until_friday; euclid).
  rewrite timedelta_of_small by lia.
  rewrite dt_add_days by (unfold valid_time, replace_time, REPORT_HOUR; cbn; lia).
  change (toordinal (replace_time now REPORT_HOUR 0 0 0)) with (toordinal now).
  fold (end_ordinal now). cbn [replace_time hour minute second microsecond utcoffset].
  replace ((0 <? end_ordinal now) && (end_ordinal now <=? _MAXORDINAL)) with true
    by (symmetry; apply andb_true_iff; split; [apply Z.ltb_lt | apply Z.leb_le]; lia).
  unfold dt_sub_td.
  change (td_neg (timedelta_of 7 0 0)) with (mk_timedelta (-7) 0 0).
  pose proof (at_ordinal_fields (end_ordinal now) REPORT_HOUR 0 0 0 (utcoffset now))
    as (Eh & Emi & Es & Eus & Eoff).
  cbv zeta in Eh, Emi, Es, Eus, Eoff.
  rewrite dt_add_days by (unfold valid_time; rewrite Eh, Emi, Es, Eus; unfold REPORT_HOUR; lia).
  rewrite Eh, Emi, Es, Eus, Eoff, toordinal_at_ordinal by lia.
  replace (end_ordinal now + -7) with (end_ordinal now - 7) by lia.
  destruct (Z.ltb_spec 7 (end_ordinal now)) as [Hlt|Hge].
  - replace ((0 <? end_ordinal now - 7) && (end_ordinal now - 7 <=? _MAXORDINAL)) with true
      by (symmetry; apply andb_true_iff; split; [apply Z.ltb_lt | apply Z.leb_le]; lia).
    reflexivity.
  - replace (0 <? end_ordinal now - 7) with false by (symmetry; apply Z.ltb_ge; lia).
    reflexivity.
Qed.

(** ** The report window *)

(** C3. For every valid aware instant [now], a window returned by
    [get_report_range] has [until - since] equal to exactly
    [timedelta(days=7)], and [until] falls on a Friday at 16:00:00.000000;
    a window is returned for every [now] later than the first five days of
    year 1 (on those days [since] would precede [datetime.min] and the
    subtraction raises [OverflowError]). *)
Theorem get_report_range_window (now : datetime) :
  valid_datetime now ->
  (forall since until,
     get_report_range now = Some (since, until) ->
     dt_sub until since = timedelta_of 7 0 0 /\
     weekday until = 4 /\
     hour until = REPORT_HOUR /\ minute until = 0 /\ second until = 0 /\
     microsecond until = 0) /\
  (5 < toordinal now ->
   exists since until, get_report_range now = Some (since, until)).
Proof.
  intros Hv. pose proof (end_ordinal_bounds now Hv) as [[He1 He2] Hwd].
  pose proof (toordinal_valid now Hv) as Ho.
  rewrite get_report_range_eq by exact Hv. split.
  - intros since until H.
    destruct (Z.ltb_spec 7 (end_ordinal now)) as [Hlt|Hge]; [|discriminate].
    injection H as <- <-.
    pose proof (at_ordinal_fields (end_ordinal now) REPORT_HOUR 0 0 0 (utcoffset now))
      as (Eh & Emi & Es & Eus & Eoff).
    pose proof (at_ordinal_fields (end_ordinal now - 7) REPORT_HOUR 0 0 0 (utcoffset now))
      as (Sh & Smi & Ss & Sus & Soff).
    cbv zeta in *.
    unfold dt_sub, weekday.
    rewrite Eh, Emi, Es, Eus, Eoff, Sh, Smi, Ss, Sus, Soff.
    rewrite !toordinal_at_ordinal by lia.
    rewrite Z.eqb_refl.
    replace (end_ordinal now - (end_ordinal now - 7)) with 7 by lia.
    rewrite !Z.sub_diag. repeat split; try reflexivity. exact Hwd.
  - intros H5.
    assert (Hlt : 7 < end_ordinal now).
    { unfold end_ordinal, days_until_friday, weekday in *. euclid. }
    apply Z.ltb_lt in Hlt. rewrite Hlt. eauto.
Qed.

Lemma valid_wednesday_morning : valid_datetime wednesday_morning.
Proof. unfold valid_datetime. repeat split; vm_compute; congruence. Qed.

Lemma get_report_range_window_witness :
  valid_datetime wednesday_morning /\
  get_report_range wednesday_morning
  = Some (mk_datetime 2024 4 26 16 0 0 0 KST, mk_datetime 2024 5 3 16 0 0 0 KST) /\
  dt_sub (mk_datetime 2024 5 3 16 0 0 0 KST) (mk_datetime 2024 4 26 16 0 0 0 KST)
  = timedelta_of 7 0 0 /\
  weekday (mk_datetime 2024 5 3 16 0 0 0 KST) = 4.
Proof.
  split; [exact valid_wednesday_morning|].
  split; [vm_compute; reflexivity|].
  destruct (get_report_range_window wednesday_morning valid_wednesday_morning) as [H _].
  destruct (H (mk_datetime 2024 4 26 16 0 0 0 KST) (mk_datetime 2024 5 3 16 0 0 0 KST))
    as (H1 & H2 & _); [vm_compute; reflexivity|].
  split; assumption.
Defined.

(** C4. When [now] falls on a Friday, [days_until_friday] is 0 and the
    window ends on [now]'s own calendar date at 16:00, whatever the time of
    day of [now]: two instants of the same Friday get the same end, and the
    end may lie before [now]. A window is returned unless [now] is the first
    Friday of year 1. *)
Theorem friday_window_ends_today :
  (forall now : datetime,
     valid_datetime now -> weekday now = 4 ->
     days_until_friday now = 0 /\
     (forall since until,
        get_report_range now = Some (since, until) ->
        until = replace_time now REPORT_HOUR 0 0 0) /\
     (5 < toordinal now ->
      exists since,
        get_report_range now = Some (since, replace_time now REPORT_HOUR 0 0 0)) /\
     (forall now' since until since' until',
        valid_datetime now' ->
        year now' = year now -> month now' = month now -> day now' = day now ->
        utcoffset now' = utcoffset now ->
        get_report_range now = Some (since, until) ->
        get_report_range now' = Some (since', until') ->
        until' = until)) /\
  (exists now since until,
     valid_datetime now /\ weekday now = 4 /\
     get_report_range now = Some (since, until) /\
     td_days (dt_sub until now) < 0).
Proof.
  assert (Hmain : forall now, valid_datetime now -> weekday now = 4 ->
            days_until_friday now = 0 /\
            get_report_range now =
              if 7 <? toordinal now
              then Some (at_ordinal (toordinal now - 7) REPORT_HOUR 0 0 0 (utcoffset now),
                         replace_time now REPORT_HOUR 0 0 0)
              else None).
  { intros now Hv Hw.
    assert (Hd : days_until_friday now = 0) by (unfold days_until_friday; rewrite Hw; reflexivity).
    split; [exact Hd|].
    rewrite get_report_range_eq by exact Hv. unfold end_ordinal. rewrite Hd, Z.add_0_r.
    assert (Hr : valid_datetime (replace_time now REPORT_HOUR 0 0 0)).
    { destruct Hv as (Hy & Hm & Hdd & _ & _ & _ & _ & Ho).
      unfold valid_datetime, replace_time, REPORT_HOUR. cbn. lia. }
    apply at_ordinal_toordinal in Hr.
    change (toordinal (replace_time now REPORT_HOUR 0 0 0)) with (toordinal now) in Hr.
    cbn [replace_time hour minute second microsecond utcoffset] in Hr.
    fold (replace_time now REPORT_HOUR 0 0 0) in Hr. rewrite Hr. reflexivity. }
  split.
  - intros now Hv Hw. destruct (Hmain now Hv Hw) as [Hd Heq].
    split; [exact Hd|]. split; [|split].
    + intros since until H. rewrite Heq in H.
      destruct (7 <? toordinal now); [injection H as _ <-; reflexivity | discriminate].
    + intros H5.
      assert (Hlt : 7 < toordinal now) by (unfold weekday in Hw; euclid).
      apply Z.ltb_lt in Hlt. rewrite Heq, Hlt. eauto.
    + intros now' since until since' until' Hv' Ey Em Edd Eo H H'.
      assert (Hw' : weekday now' = 4)
        by (unfold weekday, toordinal in *; rewrite Ey, Em, Edd; exact Hw).
      destruct (Hmain now' Hv' Hw') as [_ Heq'].
      rewrite Heq in H. rewrite Heq' in H'.
      destruct (7 <? toordinal now); [injection H as _ <-|discriminate].
      destruct (7 <? toordinal now'); [injection H' as _ <-|discriminate].
      unfold replace_time. now rewrite Ey, Em, Edd, Eo.
  - exists (mk_datetime 2024 5 3 17 0 0 0 KST),
      (mk_datetime 2024 4 26 16 0 0 0 KST), (mk_datetime 2024 5 3 16 0 0 0 KST).
    split; [unfold valid_datetime; repeat split; vm_compute; congruence|].
    repeat split; vm_compute; reflexivity.
Qed.

Lemma valid_friday_morning : valid_datetime friday_morning.
Proof. unfold valid_datetime. repeat split; vm_compute; congruence. Qed.

Lemma valid_friday_evening : valid_datetime friday_evening.
Proof. unfold valid_datetime. repeat split; vm_compute; congruence. Qed.

Lemma friday_window_ends_today_witness :
  valid_datetime friday_morning /\ weekday friday_morning = 4 /\
  days_until_friday friday_morning = 0 /\
  get_report_range friday_morning
  = Some (mk_datetime 2024 4 26 16 0 0 0 KST, replace_time friday_morning REPORT_HOUR 0 0 0) /\
  get_report_range friday_evening
  = Some (mk_datetime 2024 4 26 16 0 0 0 KST, replace_time friday_morning REPORT_HOUR 0 0 0).
Proof.
  destruct friday_window_ends_today as [H _].
  destruct (H friday_morning valid_friday_morning eq_refl) as (Hd & Hu & _ & Hsame).
  split; [exact valid_friday_morning|]. split; [reflexivity|]. split; [exact Hd|].
  assert (E : get_report_range friday_morning
              = Some (mk_datetime 2024 4 26 16 0 0 0 KST, mk_datetime 2024 5 3 16 0 0 0 KST))
    by (vm_compute; reflexivity).
  assert (E' : get_report_range friday_evening
              = Some (mk_datetime 2024 4 26 16 0 0 0 KST, mk_datetime 2024 5 3 16 0 0 0 KST))
    by (vm_compute; reflexivity).
  rewrite <- (Hu _ _ E). split; [exact E | exact E'].
Defined.

(** ** Counters and ranking order *)

(** ** Counters *)

Lemma get_count_incr (d : counter) (k k' : string) (c : Z) :
  get_count (incr d k c) k' = get_count d k' + (if (k =? k')%string then c else 0).
Proof.
  induction d as [|[k0 v] rest IH]; cbn [incr get_count].
  - destruct (k =? k')%string; lia.
  - destruct (String.eqb_spec k0 k) as [->|Hne]; cbn [get_count].
    + destruct (k =? k')%string; lia.
    + destruct (String.eqb_spec k0 k') as [->|Hne'].
      * destruct (String.eqb_spec k k'); [congruence | lia].
      * exact IH.
Qed.

Lemma sum_values_acc (d : counter) (a : Z) :
  fold_left (fun acc kv => acc + snd kv) d a = a + sum_values d.
Proof.
  unfold sum_values. revert a.
  induction d as [|x rest IH]; intros a; cbn [fold_left]; [lia|].
  rewrite (IH (a + snd x)), (IH (0 + snd x)). lia.
Qed.

Lemma sum_values_cons (x : string * Z) (d : counter) :
  sum_values (x :: d) = snd x + sum_values d.
Proof. unfold sum_values at 1. cbn [fold_left]. rewrite sum_values_acc. lia. Qed.

Lemma sum_values_incr (d : counter) (k : string) (c : Z) :
  sum_values (incr d k c) = sum_values d + c.
Proof.
  induction d as [|[k0 v] rest IH]; cbn [incr].
  - rewrite sum_values_cons. cbn. unfold sum_values. cbn. lia.
  - destruct (k0 =? k)%string; rewrite !sum_values_cons; cbn [snd]; lia.
Qed.

Lemma sum_values_perm (d d' : counter) :
  Permutation d d' -> sum_values d = sum_values d'.
Proof.
  induction 1 as [|x l l' _ IH|x y l|l l' l'' _ IH1 _ IH2];
    rewrite ?sum_values_cons; lia.
Qed.

Lemma keys_incr (d : counter) (k : string) (c : Z) (k' : string) :
  In k' (keys (incr d k c)) <-> k' = k \/ In k' (keys d).
Proof.
  unfold keys. induction d as [|[k0 v] rest IH]; cbn [incr map fst In].
  - intuition.
  - destruct (String.eqb_spec k0 k) as [->|Hne]; cbn [map fst In]; intuition.
Qed.

Lemma NoDup_keys_incr (d : counter) (k : string) (c : Z) :
  NoDup (keys d) -> NoDup (keys (incr d k c)).
Proof.
  unfold keys. induction d as [|[k0 v] rest IH]; cbn [incr map fst]; intros H.
  - constructor; [intros []|constructor].
  - inversion H as [|? ? Hnin Hnd]; subst.
    destruct (String.eqb_spec k0 k) as [->|Hne]; cbn [map fst].
    + constructor; assumption.
    + constructor; [|apply IH; assumption].
      intros Hin. apply (keys_incr rest k c k0) in Hin. destruct Hin; [congruence|contradiction].
Qed.

Lemma get_count_not_in (d : counter) (k : string) :
  ~ In k (keys d) -> get_count d k = 0.
Proof.
  unfold keys. induction d as [|[k0 v] rest IH]; cbn [get_count map fst In]; intros H.
  - reflexivity.
  - destruct (String.eqb_spec k0 k); [tauto|]. apply IH. tauto.
Qed.

Lemma get_count_in (d : counter) (k : string) (v : Z) :
  NoDup (keys d) -> In (k, v) d -> get_count d k = v.
Proof.
  unfold keys. induction d as [|[k0 v0] rest IH]; cbn [get_count map fst In]; intros Hnd Hin.
  - contradiction.
  - inversion Hnd as [|? ? Hnin Hnd']; subst.
    destruct Hin as [E|Hin].
    + injection E as -> ->. now rewrite String.eqb_refl.
    + destruct (String.eqb_spec k0 k) as [->|Hne]; [|now apply IH].
      exfalso. apply Hnin. change k with (fst (k, v)). now apply in_map.
Qed.

Lemma get_count_perm (d d' : counter) (k : string) :
  NoDup (keys d) -> Permutation d d' -> get_count d k = get_count d' k.
Proof.
  intros Hnd Hp.
  assert (Hnd' : NoDup (keys d'))
    by (unfold keys in *; eapply Permutation_NoDup; [apply Permutation_map; exact Hp|exact Hnd]).
  destruct (in_dec string_dec k (keys d)) as [Hin|Hnin].
  - unfold keys in Hin. apply in_map_iff in Hin as [[k0 v] [E Hin]]. cbn in E. subst k0.
    rewrite (get_count_in d k v Hnd Hin).
    symmetry. apply get_count_in; [exact Hnd'|]. eapply Permutation_in; eassumption.
  - rewrite (get_count_not_in d k Hnin). symmetry. apply get_count_not_in.
    intros Hin. apply Hnin. unfold keys in *.
    eapply Permutation_in; [apply Permutation_map, Permutation_sym; exact Hp|exact Hin].
Qed.

(** ** [sorted] and [desc] *)

Lemma insert_sorted_perm (x : string * Z) (l : list (string * Z)) :
  Permutation (insert_sorted x l) (x :: l).
Proof.
  induction l as [|y l IH]; cbn [insert_sorted]; [reflexivity|].
  destruct (sort_key x <=? sort_key y); [reflexivity|].
  rewrite IH. apply perm_swap.
Qed.

Lemma sorted_perm (l : list (string * Z)) : Permutation (sorted l) l.
Proof.
  induction l as [|x l IH]; cbn [sorted]; [reflexivity|].
  rewrite insert_sorted_perm. now constructor.
Qed.

Lemma insert_sorted_descending (x : string * Z) (l : list (string * Z)) :
  descending l -> descending (insert_sorted x l).
Proof.
  unfold descending. induction l as [|y l IH]; cbn [insert_sorted]; intros H.
  - constructor; constructor.
  - inversion H as [|? ? Hs Hf]; subst.
    destruct (Z.leb_spec (sort_key x) (sort_key y)) as [Hle|Hgt]; unfold sort_key in *.
    + constructor; [exact H|]. constructor; [lia|].
      eapply Forall_impl; [|exact Hf]. cbn. intros; lia.
    + constructor; [apply IH; exact Hs|].
      eapply Permutation_Forall; [symmetry; apply insert_sorted_perm|].
      constructor; [lia|exact Hf].
Qed.

Lemma sorted_descending (l : list (string * Z)) : descending (sorted l).
Proof.
  induction l as [|x l IH]; cbn [sorted]; [constructor|].
  now apply insert_sorted_descending.
Qed.

(** Stability: items with the same count keep their relative order. *)
Lemma insert_sorted_stable (x : string * Z) (l : list (string * Z)) (c : Z) :
  descending l ->
  filter (fun y => snd y =? c) (insert_sorted x l)
  = filter (fun y => snd y =? c) (x :: l).
Proof.
  unfold descending. induction l as [|y l IH]; cbn [insert_sorted]; intros H; [reflexivity|].
  inversion H as [|? ? Hs Hf]; subst.
  destruct (Z.leb_spec (sort_key x) (sort_key y)) as [Hle|Hgt]; [reflexivity|].
  unfold sort_key in Hgt. cbn [filter]. rewrite (IH Hs). cbn [filter].
  destruct (Z.eqb_spec (snd y) c), (Z.eqb_spec (snd x) c); try reflexivity. lia.
Qed.

Lemma sorted_stable (l : list (string * Z)) (c : Z) :
  filter (fun y => snd y =? c) (sorted l) = filter (fun y => snd y =? c) l.
Proof.
  induction l as [|x l IH]; cbn [sorted]; [reflexivity|].
  rewrite insert_sorted_stable by apply sorted_descending.
  cbn [filter]. now rewrite IH.
Qed.

Lemma dict_set_fresh (d : counter) (k : string) (v : Z) :
  ~ In k (keys d) -> dict_set d k v = (d ++ [(k, v)])%list.
Proof.
  unfold keys. induction d as [|[k0 v0] rest IH]; cbn [dict_set map fst In app]; intros H.
  - reflexivity.
  - destruct (String.eqb_spec k0 k); [tauto|]. rewrite IH by tauto. reflexivity.
Qed.

Lemma dict_of_items_acc (items acc : counter) :
  NoDup (keys (acc ++ items)%list) ->
  fold_left (fun d kv => dict_set d (fst kv) (snd kv)) items acc = (acc ++ items)%list.
Proof.
  unfold keys. revert acc. induction items as [|[k v] rest IH]; intros acc H; cbn [fold_left].
  - now rewrite app_nil_r.
  - cbn [fst snd]. rewrite dict_set_fresh.
    + rewrite IH; rewrite <- app_assoc; [reflexivity|exact H].
    + rewrite map_app in H. cbn in H. apply NoDup_remove_2 in H.
      unfold keys. intros Hin. apply H. apply in_or_app. now left.
Qed.

(** On a mapping (distinct keys), [desc] is the stable sort of the items. *)
Lemma desc_sorted (d : counter) : NoDup (keys d) -> desc d = sorted d.
Proof.
  intros H. unfold desc, dict_of_items. rewrite dict_of_items_acc; [reflexivity|].
  cbn [app]. unfold keys in *. eapply Permutation_NoDup; [|exact H].
  apply Permutation_map. symmetry. apply sorted_perm.
Qed.

Lemma desc_perm (d : counter) : NoDup (keys d) -> Permutation (desc d) d.
Proof. intros H. rewrite desc_sorted by exact H. apply sorted_perm. Qed.

Lemma sum_values_desc (d : counter) : NoDup (keys d) -> sum_values (desc d) = sum_values d.
Proof. intros H. apply sum_values_perm, desc_perm, H. Qed.

Lemma get_count_desc (d : counter) (k : string) :
  NoDup (keys d) -> get_count (desc d) k = get_count d k.
Proof.
  intros H. symmetry. apply get_count_perm; [exact H|].
  symmetry. apply desc_perm, H.
Qed.

(** ** The review loop *)

Lemma leb_ltb (s1 s2 : string) : String.leb s1 s2 = negb (String.ltb s2 s1).
Proof.
  unfold String.leb, String.ltb. rewrite (String.compare_antisym s2 s1).
  now destruct (String.compare s1 s2).
Qed.

Lemma leb_refl (s : string) : String.leb s s = true.
Proof. destruct (String.leb_total s s); assumption. Qed.

Lemma leb_empty_r (s : string) : String.leb s "" = true -> s = "".
Proof. destruct s; [reflexivity|discriminate]. Qed.

Lemma counted_comments_app since_str until_str sel (l1 l2 : list Review) :
  counted_comments since_str until_str sel (l1 ++ l2)
  = counted_comments since_str until_str sel l1 + counted_comments since_str until_str sel l2.
Proof.
  unfold counted_comments. induction l1 as [|r l1 IH]; cbn [app fold_right]; lia.
Qed.

Section Reviews.

Variables since_str until_str : string.

Lemma count_review_step (repo : string) (acc : counter * counter) (rv : Review) :
  let r := count_review since_str until_str repo acc rv in
  (forall k, get_count (fst r) k
             = get_count (fst acc) k + (if (repo =? k)%string then review_weight since_str until_str rv else 0)) /\
  (forall k, get_count (snd r) k
             = get_count (snd acc) k
               + (if (login_or_ghost (rv_author rv) =? k)%string then review_weight since_str until_str rv else 0)) /\
  sum_values (fst r) = sum_values (fst acc) + review_weight since_str until_str rv /\
  sum_values (snd r) = sum_values (snd acc) + review_weight since_str until_str rv /\
  (NoDup (keys (fst acc)) -> NoDup (keys (fst r))) /\
  (NoDup (keys (snd acc)) -> NoDup (keys (snd r))).
Proof.
  unfold count_review, review_weight. cbv zeta.
  destruct (in_window since_str until_str rv); cbn [negb fst snd].
  - rewrite !sum_values_incr. repeat split; intros; try apply get_count_incr;
      try reflexivity; now apply NoDup_keys_incr.
  - repeat split; intros; try tauto; try lia.
    + destruct (repo =? k)%string; lia.
    + destruct (login_or_ghost (rv_author rv) =? k)%string; lia.
Qed.

Lemma counted_comments_cons (sel : Review -> bool) (rv : Review) (rest : list Review) :
  counted_comments since_str until_str sel (rv :: rest)
  = (if sel rv then review_weight since_str until_str rv else 0)
    + counted_comments since_str until_str sel rest.
Proof.
  unfold counted_comments, review_weight. cbn [fold_right].
  destruct (in_window since_str until_str rv), (sel rv); reflexivity.
Qed.

Lemma count_review_fold (repo : string) (reviews : list Review) :
  forall acc : counter * counter,
    let r := fold_left (count_review since_str until_str repo) reviews acc in
    (forall k, get_count (fst r) k
               = get_count (fst acc) k
                 + (if (repo =? k)%string
                    then counted_comments since_str until_str (fun _ => true) reviews
                    else 0)) /\
    (forall k, get_count (snd r) k
               = get_count (snd acc) k
                 + counted_comments since_str until_str
                     (fun rv => (login_or_ghost (rv_author rv) =? k)%string) reviews) /\
    sum_values (fst r)
    = sum_values (fst acc) + counted_comments since_str until_str (fun _ => true) reviews /\
    sum_values (snd r)
    = sum_values (snd acc) + counted_comments since_str until_str (fun _ => true) reviews /\
    (NoDup (keys (fst acc)) -> NoDup (keys (fst r))) /\
    (NoDup (keys (snd acc)) -> NoDup (keys (snd r))).
Proof.
  induction reviews as [|rv rest IH]; intros acc; cbn [fold_left].
  - cbv zeta. unfold counted_comments. cbn [fold_right].
    repeat split; intros; try tauto; try lia. destruct (repo =? k)%string; lia.
  - specialize (IH (count_review since_str until_str repo acc rv)).
    cbv zeta in IH |- *. destruct IH as (H1 & H2 & H3 & H4 & H5 & H6).
    destruct (count_review_step repo acc rv) as (S1 & S2 & S3 & S4 & S5 & S6).
    cbv zeta in S1, S2, S3, S4, S5, S6.
    repeat split; intros; rewrite ?counted_comments_cons.
    + rewrite H1, S1. destruct (repo =? k)%string; lia.
    + rewrite H2, S2. lia.
    + rewrite H3, S3. lia.
    + rewrite H4, S4. lia.
    + auto.
    + auto.
Qed.

End Reviews.

Lemma window_comments_app s u sel_pr sel (l1 l2 : list UpdatedPR) :
  window_comments s u sel_pr sel (l1 ++ l2)
  = window_comments s u sel_pr sel l1 + window_comments s u sel_pr sel l2.
Proof.
  unfold window_comments. induction l1 as [|pr l1 IH]; cbn [app fold_right]; lia.
Qed.

Lemma window_comments_cons s u sel_pr sel (pr : UpdatedPR) (l : list UpdatedPR) :
  window_comments s u sel_pr sel (pr :: l)
  = (if sel_pr pr then counted_comments s u sel (review_nodes pr) else 0)
    + window_comments s u sel_pr sel l.
Proof. reflexivity. Qed.

Lemma count_updated_fold (s u : string) (prs : list UpdatedPR) :
  forall acc : counter * counter,
    let r := fold_left (count_updated s u) prs acc in
    (forall k, get_count (fst r) k
               = get_count (fst acc) k + window_comments s u (in_repo k) (fun _ => true) prs) /\
    (forall k, get_count (snd r) k
               = get_count (snd acc) k + window_comments s u (fun _ => true) (by_reviewer k) prs) /\
    sum_values (fst r) = sum_values (fst acc) + window_comments s u (fun _ => true) (fun _ => true) prs /\
    sum_values (snd r) = sum_values (snd acc) + window_comments s u (fun _ => true) (fun _ => true) prs /\
    (NoDup (keys (fst acc)) -> NoDup (keys (fst r))) /\
    (NoDup (keys (snd acc)) -> NoDup (keys (snd r))).
Proof.
  induction prs as [|pr rest IH]; intros acc; cbn [fold_left].
  - cbv zeta. unfold window_comments. cbn [fold_right].
    repeat split; intros; try tauto; lia.
  - specialize (IH (count_updated s u acc pr)).
    cbv zeta in IH |- *. destruct IH as (H1 & H2 & H3 & H4 & H5 & H6).
    destruct (count_review_fold s u (name (upr_repository pr)) (review_nodes pr) acc)
      as (S1 & S2 & S3 & S4 & S5 & S6).
    cbv zeta in S1, S2, S3, S4, S5, S6.
    fold (count_updated s u acc pr) in S1, S2, S3, S4, S5, S6.
    repeat split; intros; rewrite ?window_comments_cons; cbn beta.
    + rewrite H1, S1. change (in_repo k pr) with (name (upr_repository pr) =? k)%string.
      destruct (name (upr_repository pr) =? k)%string; lia.
    + rewrite H2, S2. unfold by_reviewer. lia.
    + rewrite H3, S3. lia.
    + rewrite H4, S4. lia.
    + auto.
    + auto.
Qed.

Lemma count_created_step (acc : counter * counter) (pr : CreatedPR) :
  let r := count_created acc pr in
  sum_values (fst r) = sum_values (fst acc) + 1 /\
  sum_values (snd r) = sum_values (snd acc) + 1 /\
  (NoDup (keys (fst acc)) -> NoDup (keys (fst r))) /\
  (NoDup (keys (snd acc)) -> NoDup (keys (snd r))).
Proof.
  unfold count_created. cbn [fst snd]. rewrite !sum_values_incr.
  repeat split; intros; try reflexivity; now apply NoDup_keys_incr.
Qed.

Lemma count_created_fold (prs : list CreatedPR) :
  forall acc : counter * counter,
    let r := fold_left count_created prs acc in
    sum_values (fst r) = sum_values (fst acc) + Z.of_nat (List.length prs) /\
    sum_values (snd r) = sum_values (snd acc) + Z.of_nat (List.length prs) /\
    (NoDup (keys (fst acc)) -> NoDup (keys (fst r))) /\
    (NoDup (keys (snd acc)) -> NoDup (keys (snd r))).
Proof.
  induction prs as [|pr rest IH]; intros acc; cbn [fold_left].
  - cbn. repeat split; intros; try tauto; lia.
  - specialize (IH (count_created acc pr)). cbv zeta in IH |- *.
    destruct IH as (H1 & H2 & H3 & H4).
    destruct (count_created_step acc pr) as (S1 & S2 & S3 & S4).
    cbv zeta in S1, S2, S3, S4.
    cbn [List.length]. rewrite Nat2Z.inj_succ.
    repeat split; intros; try lia; auto.
Qed.

Lemma aggregate_eq created_prs updated_prs since until since_str until_str :
  to_github_date since = Some since_str ->
  to_github_date until = Some until_str ->
  aggregate created_prs updated_prs since until =
    let created := fold_left count_created created_prs ([], []) in
    let reviewed := fold_left (count_updated since_str until_str) updated_prs ([], []) in
    Some (mk_stats (sum_values (fst created)) (sum_values (fst reviewed))
                   (desc (fst created)) (desc (snd created))
                   (desc (fst reviewed)) (desc (snd reviewed))).
Proof. intros Hs Hu. unfold aggregate. now rewrite Hs, Hu. Qed.

Lemma NoDup_keys_nil : NoDup (keys []).
Proof. constructor. Qed.

(** ** Aggregation *)

Lemma aggregate_inv created_prs updated_prs since until st :
  aggregate created_prs updated_prs since until = Some st ->
  exists since_str until_str,
    to_github_date since = Some since_str /\ to_github_date until = Some until_str.
Proof.
  unfold aggregate. destruct (to_github_date since); [|discriminate].
  destruct (to_github_date until); [|discriminate]. eauto.
Qed.

(** C5. In every result of [aggregate], the values of [pr_by_repo] and of
    [pr_by_person] both sum to [total_prs], which is the number of created
    records, and the values of [comments_by_repo] and of [comments_by_person]
    both sum to [total_comments]; a result exists whenever the two window
    bounds can be rendered. *)
Theorem aggregate_totals_agree (created_prs : list CreatedPR)
    (updated_prs : list UpdatedPR) (since until : datetime) :
  (forall st,
     aggregate created_prs updated_prs since until = Some st ->
     sum_values (pr_by_repo st) = total_prs st /\
     sum_values (pr_by_person st) = total_prs st /\
     total_prs st = Z.of_nat (List.length created_prs) /\
     sum_values (comments_by_repo st) = total_comments st /\
     sum_values (comments_by_person st) = total_comments st) /\
  (to_github_date since <> None -> to_github_date until <> None ->
   exists st, aggregate created_prs updated_prs since until = Some st).
Proof.
  split.
  - intros st H. destruct (aggregate_inv _ _ _ _ _ H) as (s & u & Hs & Hu).
    rewrite (aggregate_eq _ _ _ _ _ _ Hs Hu) in H. cbv zeta in H. injection H as <-.
    cbn [pr_by_repo pr_by_person total_prs total_comments comments_by_repo comments_by_person].
    destruct (count_created_fold created_prs ([], [])) as (C1 & C2 & C3 & C4).
    destruct (count_updated_fold s u updated_prs ([], [])) as (_ & _ & U3 & U4 & U5 & U6).
    cbv zeta in *. cbn [fst snd] in *.
    rewrite !sum_values_desc by auto using NoDup_keys_nil.
    change (sum_values []) with 0 in *. lia.
  - intros Hs Hu. destruct (to_github_date since) as [s|] eqn:Es; [|congruence].
    destruct (to_github_date until) as [u|] eqn:Eu; [|congruence].
    rewrite (aggregate_eq _ _ _ _ s u Es Eu). eauto.
Qed.

Lemma count_review_outside s u repo acc rv :
  in_window s u rv = false -> count_review s u repo acc rv = acc.
Proof. intros H. unfold count_review. now rewrite H. Qed.

(** A review outside the window leaves the whole fold unchanged. *)
Lemma count_updated_skip s u (before after : list UpdatedPR) number repo
    (rs1 rs2 : list Review) (r : Review) (acc : counter * counter) :
  in_window s u r = false ->
  fold_left (count_updated s u)
            (before ++ pr_with_reviews number repo (rs1 ++ r :: rs2) :: after) acc
  = fold_left (count_updated s u)
              (before ++ pr_with_reviews number repo (rs1 ++ rs2) :: after) acc.
Proof.
  intros H. rewrite !fold_left_app. cbn [fold_left]. f_equal.
  unfold count_updated, pr_with_reviews, review_nodes.
  cbn [upr_reviews rc_nodes upr_repository name].
  rewrite !fold_left_app. cbn [fold_left]. now rewrite count_review_outside.
Qed.

Lemma window_comments_insert s u (sel_pr : UpdatedPR -> bool) sel
    (before after : list UpdatedPR) number repo (rs1 rs2 : list Review) (r : Review) (b : bool) :
  (forall rs, sel_pr (pr_with_reviews number repo rs) = b) ->
  window_comments s u sel_pr sel
    (before ++ pr_with_reviews number repo (rs1 ++ r :: rs2) :: after)
  = window_comments s u sel_pr sel
      (before ++ pr_with_reviews number repo (rs1 ++ rs2) :: after)
    + (if b && sel r then review_weight s u r else 0).
Proof.
  intros Hb. rewrite !window_comments_app, !window_comments_cons, !Hb.
  change (review_nodes (pr_with_reviews number repo (rs1 ++ r :: rs2)))
    with (rs1 ++ r :: rs2)%list.
  change (review_nodes (pr_with_reviews number repo (rs1 ++ rs2)))
    with (rs1 ++ rs2)%list.
  rewrite !counted_comments_app, counted_comments_cons.
  destruct b, (sel r); cbn [andb]; lia.
Qed.

(** C1. A review's comments are counted exactly when its [createdAt]
    satisfies [since_str <= createdAt <= until_str] as strings: compared with
    the run on the same input without the review, the review adds its comment
    count to its repository's counter, to its reviewer's counter and to the
    total when it is in the window, and nothing anywhere else; strictly outside
    the window the result is unchanged; at exactly the start or the end of a
    non-empty window it is counted. *)
Theorem review_counted_iff_in_window (created_prs : list CreatedPR)
    (before after : list UpdatedPR) (number : Z) (repo : string)
    (rs1 rs2 : list Review) (r : Review)
    (since until : datetime) (since_str until_str : string) :
  to_github_date since = Some since_str ->
  to_github_date until = Some until_str ->
  let counted :=
    String.leb since_str (created_at r) && String.leb (created_at r) until_str in
  exists st st',
    aggregate created_prs
      (before ++ pr_with_reviews number repo (rs1 ++ r :: rs2) :: after) since until
    = Some st /\
    aggregate created_prs
      (before ++ pr_with_reviews number repo (rs1 ++ rs2) :: after) since until
    = Some st' /\
    (forall k, get_count (comments_by_repo st) k
               = get_count (comments_by_repo st') k
                 + (if counted && (repo =? k)%string then rv_comments r else 0)) /\
    (forall k, get_count (comments_by_person st) k
               = get_count (comments_by_person st') k
                 + (if counted && (login_or_ghost (rv_author r) =? k)%string
                    then rv_comments r else 0)) /\
    total_comments st = total_comments st' + (if counted then rv_comments r else 0) /\
    (str_lt (created_at r) since_str || str_lt until_str (created_at r) = true ->
     counted = false /\ st = st') /\
    (String.leb since_str until_str = true ->
     created_at r = since_str \/ created_at r = until_str -> counted = true).
Proof.
  intros Hs Hu counted.
  rewrite !(aggregate_eq _ _ _ _ _ _ Hs Hu). cbv zeta.
  eexists. eexists. split; [reflexivity|]. split; [reflexivity|].
  cbn [comments_by_repo comments_by_person total_comments].
  set (with_r := (before ++ pr_with_reviews number repo (rs1 ++ r :: rs2) :: after)%list).
  set (without_r := (before ++ pr_with_reviews number repo (rs1 ++ rs2) :: after)%list).
  destruct (count_updated_fold since_str until_str with_r ([], []))
    as (W1 & W2 & W3 & _ & W5 & W6).
  destruct (count_updated_fold since_str until_str without_r ([], []))
    as (N1 & N2 & N3 & _ & N5 & N6).
  cbv zeta in *. cbn [fst snd] in *.
  assert (Hw : review_weight since_str until_str r = if counted then rv_comments r else 0)
    by reflexivity.
  split; [|split; [|split; [|split]]].
  - intros k. rewrite !get_count_desc by auto using NoDup_keys_nil.
    rewrite W1, N1. subst with_r without_r.
    rewrite (window_comments_insert _ _ _ _ _ _ _ _ _ _ _ (repo =? k)%string)
      by reflexivity.
    rewrite Hw. destruct counted, (repo =? k)%string; cbn [andb]; lia.
  - intros k. rewrite !get_count_desc by auto using NoDup_keys_nil.
    rewrite W2, N2. subst with_r without_r.
    rewrite (window_comments_insert _ _ _ _ _ _ _ _ _ _ _ true) by reflexivity.
    rewrite Hw. unfold by_reviewer.
    destruct counted, (login_or_ghost (rv_author r) =? k)%string; cbn [andb]; lia.
  - rewrite W3, N3. subst with_r without_r.
    rewrite (window_comments_insert _ _ _ _ _ _ _ _ _ _ _ true) by reflexivity.
    rewrite Hw. destruct counted; cbn [andb]; lia.
  - intros Hout.
    assert (Hc : counted = false).
    { subst counted. unfold str_lt in Hout. rewrite !leb_ltb.
      apply orb_true_iff in Hout as [-> | ->]; cbn [negb andb]; [reflexivity|].
      apply andb_false_r. }
    split; [exact Hc|]. subst with_r without_r.
    now rewrite count_updated_skip.
  - intros Hle [E|E]; subst counted; rewrite E, leb_refl, ?Hle; reflexivity.
Qed.

Lemma strftime_github_nonempty (d : datetime) : strftime_github d <> "".
Proof.
  unfold strftime_github. destruct (zero_padded 4 (year d)); discriminate.
Qed.

Lemma to_github_date_nonempty (d : datetime) (s : string) :
  to_github_date d = Some s -> s <> "".
Proof.
  unfold to_github_date. destruct (astimezone d UTC); [|discriminate].
  cbn [option_map]. intros H. injection H as <-. apply strftime_github_nonempty.
Qed.

(** C10. A review without [createdAt] is skipped: the result of [aggregate]
    is the result on the same input without that review (so it adds nothing
    to any counter and cannot make the run fail), because its timestamp
    defaults to the empty string, which is not [>=] the rendered start of the
    window. *)
Theorem missing_created_at_skipped (created_prs : list CreatedPR)
    (before after : list UpdatedPR) (number : Z) (repo : string)
    (rs1 rs2 : list Review) (r : Review) (since until : datetime) :
  rv_createdAt r = None ->
  created_at r = "" /\
  (forall since_str until_str,
     to_github_date since = Some since_str ->
     in_window since_str until_str r = false) /\
  aggregate created_prs
    (before ++ pr_with_reviews number repo (rs1 ++ r :: rs2) :: after) since until
  = aggregate created_prs
      (before ++ pr_with_reviews number repo (rs1 ++ rs2) :: after) since until /\
  (to_github_date since <> None -> to_github_date until <> None ->
   aggregate created_prs
     (before ++ pr_with_reviews number repo (rs1 ++ r :: rs2) :: after) since until
   <> None).
Proof.
  intros Hnone.
  assert (Hc : created_at r = "") by (unfold created_at; now rewrite Hnone).
  assert (Hout : forall s u, to_github_date since = Some s -> in_window s u r = false).
  { intros s u Hs. unfold in_window. rewrite Hc.
    destruct (String.leb s "") eqn:E; [|reflexivity].
    apply leb_empty_r in E. now apply to_github_date_nonempty in Hs. }
  split; [exact Hc|]. split; [exact Hout|]. split.
  - unfold aggregate. destruct (to_github_date since) as [s|] eqn:Es; [|reflexivity].
    destruct (to_github_date until) as [u|]; [|reflexivity].
    now rewrite (count_updated_skip s u) by (apply Hout; reflexivity).
  - intros Hs Hu. unfold aggregate.
    destruct (to_github_date since); [|congruence].
    destruct (to_github_date until); [discriminate|congruence].
Qed.

Lemma missing_created_at_skipped_witness :
  aggregate []
    ([] ++ pr_with_reviews 7 "x" ([] ++ mk_review None None 4 :: []) :: [])
    window_start window_end
  = aggregate [] ([] ++ pr_with_reviews 7 "x" ([] ++ []) :: []) window_start window_end.
Proof.
  apply (missing_created_at_skipped [] [] [] 7 "x" [] [] (mk_review None None 4)
           window_start window_end).
  reflexivity.
Defined.

(** C6. The end-to-end scenario: two created records in repository "x", one
    by "alice" and one without author, and one review-bearing record in "x"
    with a review by "bob" in the window (3 comments) and one before the
    window's start (9 comments). *)
Theorem end_to_end_scenario (since until : datetime) (since_str until_str : string)
    (t_in t_out : string) (n1 n2 n3 : Z) :
  to_github_date since = Some since_str ->
  to_github_date until = Some until_str ->
  String.leb since_str t_in = true ->
  String.leb t_in until_str = true ->
  str_lt t_out since_str = true ->
  aggregate
    [ mk_created_pr n1 (Some (mk_actor "alice")) (mk_repository "x");
      mk_created_pr n2 None (mk_repository "x") ]
    [ pr_with_reviews n3 "x"
        [ mk_review (Some (mk_actor "bob")) (Some t_in) 3;
          mk_review (Some (mk_actor "bob")) (Some t_out) 9 ] ]
    since until
  = Some (mk_stats 2 3 [("x", 2)] [("alice", 1); ("ghost", 1)]
                   [("x", 3)] [("bob", 3)]).
Proof.
  intros Hs Hu Hin1 Hin2 Hout.
  rewrite (aggregate_eq _ _ _ _ _ _ Hs Hu). cbv zeta.
  assert (E : fold_left (count_updated since_str until_str)
                [ pr_with_reviews n3 "x"
                    [ mk_review (Some (mk_actor "bob")) (Some t_in) 3;
                      mk_review (Some (mk_actor "bob")) (Some t_out) 9 ] ] ([], [])
              = ([("x", 3)], [("bob", 3)])).
  { cbn [fold_left]. unfold count_updated, pr_with_reviews, review_nodes.
    cbn [upr_reviews rc_nodes upr_repository name fold_left].
    unfold count_review, in_window, created_at. cbn [rv_createdAt rv_comments rv_author].
    rewrite Hin1, Hin2, (leb_ltb since_str t_out).
    unfold str_lt in Hout. rewrite Hout. reflexivity. }
  rewrite E. reflexivity.
Qed.

Lemma end_to_end_scenario_witness :
  aggregate
    [ mk_created_pr 1 (Some (mk_actor "alice")) (mk_repository "x");
      mk_created_pr 2 None (mk_repository "x") ]
    [ pr_with_reviews 3 "x"
        [ mk_review (Some (mk_actor "bob")) (Some "2024-05-01T00:00:00Z") 3;
          mk_review (Some (mk_actor "bob")) (Some "2024-04-20T23:59:59Z") 9 ] ]
    window_start window_end
  = Some (mk_stats 2 3 [("x", 2)] [("alice", 1); ("ghost", 1)]
                   [("x", 3)] [("bob", 3)]).
Proof.
  apply (end_to_end_scenario window_start window_end
           "2024-04-26T07:00:00Z" "2024-05-03T07:00:00Z");
    vm_compute; reflexivity.
Defined.

Lemma review_counted_iff_in_window_witness :
  exists st st',
    aggregate []
      ([] ++ pr_with_reviews 3 "x"
               ([] ++ mk_review None (Some "2024-04-26T07:00:00Z") 5 :: []) :: [])
      window_start window_end = Some st /\
    aggregate [] ([] ++ pr_with_reviews 3 "x" ([] ++ []) :: []) window_start window_end
    = Some st' /\
    total_comments st = total_comments st' + 5.
Proof.
  destruct (review_counted_iff_in_window [] [] [] 3 "x" [] []
              (mk_review None (Some "2024-04-26T07:00:00Z") 5)
              window_start window_end "2024-04-26T07:00:00Z" "2024-05-03T07:00:00Z")
    as (st & st' & H1 & H2 & _ & _ & H3 & _); [vm_compute; reflexivity ..|].
  exists st, st'. split; [exact H1|]. split; [exact H2|]. exact H3.
Defined.

Lemma aggregate_totals_agree_witness :
  exists st,
    aggregate [mk_created_pr 1 None (mk_repository "x")] [] window_start window_end = Some st /\
    sum_values (pr_by_repo st) = total_prs st /\ total_prs st = 1.
Proof.
  destruct (aggregate_totals_agree [mk_created_pr 1 None (mk_repository "x")] []
              window_start window_end) as [H1 H2].
  destruct H2 as [st Hst]; [vm_compute; discriminate ..|].
  exists st. split; [exact Hst|]. destruct (H1 st Hst) as (A1 & _ & A3 & _).
  split; [exact A1|exact A3].
Defined.

(** ** Ranking *)

Lemma ranking_lines_nth (unit : string) (items : list (string * Z)) :
  forall (start : Z) (i : nat),
    nth_error (ranking_lines unit start items) i
    = option_map (ranking_line unit (start + Z.of_nat i)) (nth_error items i).
Proof.
  induction items as [|x rest IH]; intros start i; cbn [ranking_lines].
  - now destruct i.
  - destruct i as [|i]; cbn [nth_error option_map].
    + now rewrite Z.add_0_r.
    + rewrite IH. do 2 f_equal. lia.
Qed.

Lemma ranking_lines_length (unit : string) (items : list (string * Z)) (start : Z) :
  List.length (ranking_lines unit start items) = List.length items.
Proof.
  revert start. induction items as [|x rest IH]; intros start; cbn [ranking_lines List.length];
    [reflexivity|now rewrite IH].
Qed.

(** C7. For a mapping [d] (distinct keys, in first-seen order), [desc d]
    holds the same entries by descending count, entries with equal counts in
    their first-seen order; [ranking] renders its first 10 entries, one
    numbered line each, and renders the empty mapping as the "no activity"
    text. Counts A:5, C:2, B:5 seen in that order render as A, B, C. *)
Theorem ranking_of_desc (d : counter) (unit : string) :
  NoDup (keys d) ->
  Permutation (desc d) d /\
  descending (desc d) /\
  (forall c, filter (fun x => snd x =? c) (desc d) = filter (fun x => snd x =? c) d) /\
  (d = [] -> ranking (desc d) unit 10 = no_activity) /\
  (d <> [] ->
   ranking (desc d) unit 10
   = join newline (ranking_lines unit 1 (firstn 10 (desc d)))) /\
  List.length (ranking_lines unit 1 (firstn 10 (desc d))) = Nat.min 10 (List.length d) /\
  (forall i, (i < 10)%nat ->
     nth_error (ranking_lines unit 1 (firstn 10 (desc d))) i
     = option_map (ranking_line unit (Z.of_nat i + 1)) (nth_error (desc d) i)) /\
  ranking (desc [("A", 5); ("C", 2); ("B", 5)]) default_unit 10
  = "1. A: 5건" ++ newline ++ "2. B: 5건" ++ newline ++ "3. C: 2건".
Proof.
  intros Hnd. pose proof (desc_perm d Hnd) as Hp.
  split; [exact Hp|]. split; [rewrite desc_sorted by exact Hnd; apply sorted_descending|].
  split; [intros c; rewrite desc_sorted by exact Hnd; apply sorted_stable|].
  split; [intros ->; reflexivity|].
  split; [|split; [|split]].
  - intros Hne. unfold ranking, slice_to. cbn [Z.leb Z.compare].
    change (Z.to_nat 10) with 10%nat.
    destruct (desc d) as [|x rest] eqn:E; [|reflexivity].
    apply Permutation_nil in Hp. contradiction.
  - rewrite ranking_lines_length, length_firstn.
    now rewrite (Permutation_length Hp).
  - intros i Hi. rewrite ranking_lines_nth, nth_error_firstn.
    apply Nat.ltb_lt in Hi. rewrite Hi. do 2 f_equal. lia.
  - vm_compute. reflexivity.
Qed.

Lemma ranking_of_desc_witness :
  Permutation (desc [("A", 5); ("C", 2); ("B", 5)]) [("A", 5); ("C", 2); ("B", 5)] /\
  desc [("A", 5); ("C", 2); ("B", 5)] = [("A", 5); ("B", 5); ("C", 2)].
Proof.
  split; [|reflexivity].
  apply (ranking_of_desc [("A", 5); ("C", 2); ("B", 5)] default_unit).
  unfold keys. cbn [map fst].
  repeat constructor; cbn [In]; intros H; repeat destruct H as [H|H]; try discriminate H; exact H.
Defined.

(** ** Paginated collection *)

Section SearchFacts.

Context {Node : Type}.
Variable github : list Request -> Request -> http_result (graphql_body Node).
Variables query search_q : string.

Lemma paginate_loop_step (fuel : nat) (cursor : option string) (results : list Node)
    (w : World) (token : string) (page : SearchPage Node) :
  environ w "GH_TOKEN" = Some token ->
  github (network w) (GraphqlRequest token query search_q cursor)
  = HttpOk (GraphqlData page) ->
  let w' := sent w (GraphqlRequest token query search_q cursor) in
  let results' := (results ++ truthy_nodes (sp_nodes page))%list in
  paginate_loop github (S fuel) query search_q cursor results w =
    if negb (sp_hasNextPage page) then Some (Returned results', w')
    else if 1000 <=? Z.of_nat (List.length results')
         then Some (Returned results', warned w' truncation_warning)
         else paginate_loop github fuel query search_q (sp_endCursor page) results' w'.
Proof.
  intros Htok Hresp. cbv zeta. cbn [paginate_loop].
  unfold bind at 1. unfold graphql, bind at 1. unfold environ_subscript. rewrite Htok.
  unfold bind at 1. unfold urlopen. rewrite Hresp. unfold ret at 1.
  fold (sent w (GraphqlRequest token query search_q cursor)).
  destruct (sp_hasNextPage page); cbn [negb]; [|reflexivity].
  destruct (1000 <=? _); [|reflexivity].
  reflexivity.
Qed.

End SearchFacts.

Lemma truthy_nodes_length_le {Node : Type} (nodes : list (option Node)) :
  (List.length (truthy_nodes nodes) <= List.length nodes)%nat.
Proof.
  induction nodes as [|[n|] rest IH]; cbn [truthy_nodes List.length]; lia.
Qed.

Lemma truthy_nodes_all {Node : Type} (nodes : list (option Node)) :
  Forall (fun n => n <> None) nodes ->
  List.length (truthy_nodes nodes) = List.length nodes.
Proof.
  induction 1 as [|[n|] rest Hn _ IH]; cbn [truthy_nodes List.length];
    [reflexivity | now rewrite IH | congruence].
Qed.

Section SearchRun.

Context {Node : Type}.
Variable github : list Request -> Request -> http_result (graphql_body Node).
Variables query search_q : string.

Lemma collected_length_full (pages : list (SearchPage Node)) :
  Forall full_page pages ->
  List.length (collected pages) = (100 * List.length pages)%nat.
Proof.
  unfold collected. induction 1 as [|p rest (_ & Hl & Hall) _ IH]; cbn [flat_map List.length].
  - reflexivity.
  - rewrite length_app, IH, truthy_nodes_all, Hl by exact Hall. lia.
Qed.

Lemma below_cap_full (pages : list (SearchPage Node)) :
  Forall full_page pages ->
  forall count, (count + 100 * List.length pages < 1000)%nat -> below_cap count pages.
Proof.
  induction 1 as [|p rest (_ & Hl & Hall) _ IH]; intros count Hc; cbn [below_cap].
  - exact I.
  - cbv zeta. rewrite truthy_nodes_all, Hl by exact Hall. cbn [List.length] in Hc.
    split; [lia|]. apply IH. lia.
Qed.

(** While pages announce a next page and the cap is not reached, the loop
    appends their truthy nodes and goes on. *)
Lemma paginate_loop_run (pages : list (SearchPage Node)) :
  forall (fuel : nat) (cursor : option string) (results : list Node) (w : World)
         (token : string),
    environ w "GH_TOKEN" = Some token ->
    served github (List.length (network w)) pages ->
    Forall (fun p => sp_hasNextPage p = true) pages ->
    below_cap (List.length results) pages ->
    exists cursor' w',
      paginate_loop github (List.length pages + fuel) query search_q cursor results w
      = paginate_loop github fuel query search_q cursor' (results ++ collected pages) w' /\
      environ w' = environ w /\ clock w' = clock w /\
      stdout w' = stdout w /\ stderr w' = stderr w /\
      List.length (network w') = (List.length (network w) + List.length pages)%nat.
Proof.
  induction pages as [|p rest IH]; intros fuel cursor results w token Htok Hserved Hnext Hcap.
  - exists cursor, w. unfold collected. cbn [flat_map List.length Nat.add].
    rewrite app_nil_r, Nat.add_0_r. repeat split; reflexivity.
  - destruct Hserved as [Hp Hrest]. inversion Hnext as [|? ? Hn Hnext']; subst.
    destruct Hcap as [Hlt Hcap]. cbn [List.length Nat.add].
    rewrite (paginate_loop_step github query search_q _ cursor results w token p Htok)
      by (apply Hp; reflexivity).
    cbv zeta. rewrite Hn. cbn [negb].
    replace (1000 <=? Z.of_nat (List.length (results ++ truthy_nodes (sp_nodes p))))
      with false by (symmetry; apply Z.leb_gt; rewrite length_app; lia).
    set (w1 := sent w (GraphqlRequest token query search_q cursor)).
    destruct (IH fuel (sp_endCursor p) (results ++ truthy_nodes (sp_nodes p))%list w1 token)
      as (cursor' & w' & Hrun & He & Hc & Ho & Hs & Hl).
    + exact Htok.
    + unfold w1, sent. cbn [network]. rewrite length_app. cbn [List.length].
      now rewrite Nat.add_1_r.
    + exact Hnext'.
    + now rewrite length_app.
    + exists cursor', w'. rewrite Hrun. unfold collected. cbn [flat_map].
      rewrite <- app_assoc. split; [reflexivity|].
      unfold w1, sent in *. cbn [environ clock stdout stderr network] in *.
      rewrite length_app in Hl. cbn [List.length] in Hl.
      repeat split; try assumption. lia.
Qed.

End SearchRun.

Section SearchClaims.

Context {Node : Type}.
Variable github : list Request -> Request -> http_result (graphql_body Node).
Variables query search_q : string.

Lemma served_app (n : nat) (l1 l2 : list (SearchPage Node)) :
  served github n (l1 ++ l2) <->
  served github n l1 /\ served github (n + List.length l1) l2.
Proof.
  revert n. induction l1 as [|p l1 IH]; intros n; cbn [app served List.length].
  - rewrite Nat.add_0_r. tauto.
  - rewrite IH. replace (S n + List.length l1)%nat with (n + S (List.length l1))%nat by lia.
    tauto.
Qed.

Lemma collected_app (l1 l2 : list (SearchPage Node)) :
  collected (l1 ++ l2) = (collected l1 ++ collected l2)%list.
Proof. unfold collected. apply flat_map_app. Qed.

(** C2. With the token present: when the service answers 10 consecutive
    requests with pages of 100 non-null nodes that announce a next page, the
    collection returns exactly those 1000 records after 10 requests and prints
    the truncation warning; when, after at most 9 such pages, a page arrives
    with [hasNextPage] false, it returns all the records collected so far,
    that page's included, and prints nothing. *)
Theorem pagination_cap_and_clean_end (w : World) (token : string) :
  environ w "GH_TOKEN" = Some token ->
  (forall (pages : list (SearchPage Node)) (fuel : nat),
     List.length pages = 10%nat -> Forall full_page pages ->
     served github (List.length (network w)) pages ->
     (10 <= fuel)%nat ->
     exists w',
       _paginate_search github fuel query search_q w
       = Some (Returned (collected pages), w') /\
       List.length (collected pages) = 1000%nat /\
       stderr w' = (stderr w ++ [truncation_warning])%list /\
       List.length (network w') = (List.length (network w) + 10)%nat) /\
  (forall (pages : list (SearchPage Node)) (last : SearchPage Node) (fuel : nat),
     (List.length pages <= 9)%nat -> Forall full_page pages ->
     sp_hasNextPage last = false ->
     served github (List.length (network w)) (pages ++ [last]) ->
     (List.length pages + 1 <= fuel)%nat ->
     exists w',
       _paginate_search github fuel query search_q w
       = Some (Returned (collected (pages ++ [last])), w') /\
       List.length (collected (pages ++ [last]))
       = (100 * List.length pages + List.length (truthy_nodes (sp_nodes last)))%nat /\
       stderr w' = stderr w /\
       List.length (network w') = (List.length (network w) + List.length pages + 1)%nat).
Proof.
  intros Htok. split.
  - intros pages fuel Hlen Hfull Hserved Hfuel.
    destruct (exists_last (l := pages)) as (front & p & ->);
      [intros ->; discriminate|].
    rewrite length_app in Hlen. cbn [List.length] in Hlen.
    apply Forall_app in Hfull as [Hfront Hp]. inversion Hp as [|? ? Hpfull _]; subst.
    apply served_app in Hserved as [Hsf Hsp]. destruct Hsp as [Hsp _].
    assert (exists f, fuel = (List.length front + S f)%nat) as [f ->]
      by (exists (fuel - List.length front - 1)%nat; lia).
    destruct (paginate_loop_run github query search_q front (S f)
                None [] w token) as (cursor' & w1 & Hrun & He & Hc & Ho & Hs & Hl).
    + exact Htok.
    + exact Hsf.
    + eapply Forall_impl; [|exact Hfront]. intros a Ha. apply Ha.
    + apply below_cap_full; [exact Hfront|]. cbn [List.length]. lia.
    + unfold _paginate_search.
      rewrite Hrun. cbn [app].
      assert (Htok1 : environ w1 "GH_TOKEN" = Some token) by (now rewrite He).
      rewrite (paginate_loop_step github query search_q f cursor' (collected front) w1
                 token p Htok1) by (apply Hsp; exact Hl).
      cbv zeta. destruct Hpfull as (Hn & Hpl & Hall). rewrite Hn. cbn [negb].
      assert (Hcol : List.length (collected (front ++ [p])) = 1000%nat).
      { rewrite collected_length_full
          by (apply Forall_app; split; [exact Hfront|repeat constructor; assumption]).
        rewrite length_app. cbn [List.length]. lia. }
      assert (Ec : (collected front ++ truthy_nodes (sp_nodes p))%list
                   = collected (front ++ [p])).
      { rewrite collected_app. unfold collected at 3. cbn [flat_map].
        now rewrite app_nil_r. }
      rewrite Ec, Hcol. cbn [Z.of_nat Z.leb].
      replace (1000 <=? Z.of_nat 1000) with true by reflexivity.
      eexists. split; [reflexivity|]. split; [reflexivity|].
      unfold warned, sent. cbn [stderr network]. rewrite Hs, length_app, Hl.
      cbn [List.length]. split; [reflexivity|lia].
  - intros pages last fuel Hlen Hfull Hlast Hserved Hfuel.
    apply served_app in Hserved as [Hsf Hsp]. destruct Hsp as [Hsp _].
    assert (exists f, fuel = (List.length pages + S f)%nat) as [f ->]
      by (exists (fuel - List.length pages - 1)%nat; lia).
    destruct (paginate_loop_run github query search_q pages (S f)
                None [] w token) as (cursor' & w1 & Hrun & He & Hc & Ho & Hs & Hl).
    + exact Htok.
    + exact Hsf.
    + eapply Forall_impl; [|exact Hfull]. intros a Ha. apply Ha.
    + apply below_cap_full; [exact Hfull|]. cbn [List.length]. lia.
    + unfold _paginate_search.
      rewrite Hrun. cbn [app].
      assert (Htok1 : environ w1 "GH_TOKEN" = Some token) by (now rewrite He).
      rewrite (paginate_loop_step github query search_q f cursor' (collected pages) w1
                 token last Htok1) by (apply Hsp; exact Hl).
      cbv zeta. rewrite Hlast. cbn [negb].
      assert (Ec : (collected pages ++ truthy_nodes (sp_nodes last))%list
                   = collected (pages ++ [last])).
      { rewrite collected_app. unfold collected at 3. cbn [flat_map].
        now rewrite app_nil_r. }
      rewrite Ec. eexists. split; [reflexivity|].
      split.
      * rewrite <- Ec, length_app, collected_length_full by exact Hfull. reflexivity.
      * unfold sent. cbn [stderr network]. rewrite Hs, length_app, Hl.
        cbn [List.length]. split; [reflexivity|lia].
Qed.

(** One iteration of the loop, case by case. *)
Lemma paginate_loop_unfold (fuel : nat) (cursor : option string) (results : list Node)
    (w : World) :
  paginate_loop github (S fuel) query search_q cursor results w =
    match environ w "GH_TOKEN" with
    | None => Some (Raised "KeyError", w)
    | Some token =>
        let req := GraphqlRequest token query search_q cursor in
        let w' := sent w req in
        match github (network w) req with
        | HttpFailure exn => Some (Raised exn, w')
        | HttpOk (GraphqlErrors detail) =>
            Some (SysExit 1, warned w' ("GraphQL errors: " ++ detail))
        | HttpOk (GraphqlData page) =>
            let results' := (results ++ truthy_nodes (sp_nodes page))%list in
            if negb (sp_hasNextPage page) then Some (Returned results', w')
            else if 1000 <=? Z.of_nat (List.length results')
                 then Some (Returned results', warned w' truncation_warning)
                 else paginate_loop github fuel query search_q (sp_endCursor page)
                                    results' w'
        end
    end.
Proof.
  cbn [paginate_loop]. unfold bind at 1. unfold graphql, bind at 1.
  unfold environ_subscript.
  destruct (environ w "GH_TOKEN") as [token|]; [|reflexivity].
  unfold bind at 1. unfold urlopen. cbv zeta.
  fold (sent w (GraphqlRequest token query search_q cursor)).
  destruct (github (network w) (GraphqlRequest token query search_q cursor))
    as [[detail|page]|exn]; try reflexivity.
  unfold ret at 1.
  destruct (sp_hasNextPage page); cbn [negb]; [|reflexivity].
  destruct (1000 <=? _); reflexivity.
Qed.

(** The loop is entered with fewer than 1000 records, so it returns at most
    1099 when no page brings more than 100. *)
Lemma paginate_loop_bound :
  (forall hist req page,
     github hist req = HttpOk (GraphqlData page) ->
     (List.length (truthy_nodes (sp_nodes page)) <= 100)%nat) ->
  forall (fuel : nat) (cursor : option string) (results : list Node) (w : World)
         (out : list Node) (w' : World),
    (List.length results < 1000)%nat ->
    paginate_loop github fuel query search_q cursor results w = Some (Returned out, w') ->
    (List.length out <= 1099)%nat.
Proof.
  intros Hpage. induction fuel as [|fuel IH]; intros cursor results w out w' Hlt Hrun.
  - discriminate.
  - rewrite paginate_loop_unfold in Hrun.
    destruct (environ w "GH_TOKEN") as [token|]; [|discriminate].
    cbv zeta in Hrun.
    destruct (github (network w) (GraphqlRequest token query search_q cursor))
      as [[detail|page]|exn] eqn:Eresp; try discriminate.
    pose proof (Hpage _ _ _ Eresp) as Hle.
    destruct (sp_hasNextPage page); cbn [negb] in Hrun.
    + destruct (1000 <=? _) eqn:Ecap.
      * injection Hrun as <- _. rewrite length_app. lia.
      * apply Z.leb_gt in Ecap. eapply IH; [|exact Hrun]. lia.
    + injection Hrun as <- _. rewrite length_app. lia.
Qed.

End SearchClaims.

Lemma scripted_served {Node : Type} (pages : list (SearchPage Node))
    (default : SearchPage Node) (front : list (SearchPage Node)) :
  forall rest n, pages = (front ++ rest)%list -> n = List.length front ->
            served (scripted pages default) n rest.
Proof.
  intros rest. revert front. induction rest as [|p rest IH]; intros front n Hp Hn.
  - exact I.
  - cbn [served]. split.
    + intros hist req Hlen. unfold scripted. rewrite Hlen, Hn, Hp.
      now rewrite nth_middle.
    + apply (IH (front ++ [p])%list).
      * now rewrite <- app_assoc.
      * rewrite length_app. cbn [List.length]. lia.
Qed.

Lemma scripted_pages {Node : Type} (pages : list (SearchPage Node))
    (default : SearchPage Node) (P : SearchPage Node -> Prop) :
  Forall P (default :: pages) ->
  forall hist req page,
    scripted pages default hist req = HttpOk (GraphqlData page) -> P page.
Proof.
  intros Hall hist req page H. unfold scripted in H. injection H as <-.
  inversion Hall as [|? ? Hd Hp]; subst.
  destruct (nth_in_or_default (List.length hist) pages default) as [Hin| ->]; [|exact Hd].
  rewrite Forall_forall in Hp. now apply Hp.
Qed.

Lemma full_page_of (n : nat) : n = 100%nat -> full_page (page_of n 0 true).
Proof.
  intros ->. unfold full_page, page_of. cbn [sp_hasNextPage sp_nodes].
  split; [reflexivity|]. split; [reflexivity|].
  apply Forall_app. split; [|constructor].
  apply Forall_forall. intros x Hx. apply repeat_spec in Hx. now subst.
Qed.

Lemma pagination_cap_and_clean_end_witness :
  exists w',
    _paginate_search (scripted (repeat (page_of 100 0 true) 10) (page_of 0 0 false))
      10 "query" "q" (fresh_world token_only some_instant)
    = Some (Returned (collected (repeat (page_of 100 0 true) 10)), w') /\
    List.length (collected (repeat (page_of 100 0 true) 10)) = 1000%nat /\
    stderr w' = [truncation_warning].
Proof.
  destruct (pagination_cap_and_clean_end
              (scripted (repeat (page_of 100 0 true) 10) (page_of 0 0 false))
              "query" "q" (fresh_world token_only some_instant) "token" eq_refl)
    as [Hcap _].
  destruct (Hcap (repeat (page_of 100 0 true) 10) 10%nat) as (w' & H1 & H2 & H3 & _).
  - reflexivity.
  - apply Forall_forall. intros p Hp. apply repeat_spec in Hp. subst.
    now apply full_page_of.
  - now apply (scripted_served _ _ []).
  - lia.
  - exists w'. split; [exact H1|]. split; [exact H2|exact H3].
Defined.

(** C9. When no page brings more than 100 truthy nodes, the collection
    returns at most 1099 records; and it can return more than 1000, because
    the cap is only tested after a whole page has been appended: nine pages of
    100, then a page of 99 nodes and one null, then a page of 100 give 1099. *)
Theorem paginate_search_at_most_1099 :
  (forall (Node : Type)
          (github : list Request -> Request -> http_result (graphql_body Node))
          (query search_q : string),
     (forall hist req page,
        github hist req = HttpOk (GraphqlData page) ->
        (List.length (truthy_nodes (sp_nodes page)) <= 100)%nat) ->
     forall fuel w results w',
       _paginate_search github fuel query search_q w = Some (Returned results, w') ->
       (List.length results <= 1099)%nat) /\
  (exists (github : list Request -> Request -> http_result (graphql_body unit))
          (w : World) (results : list unit) (w' : World),
     (forall hist req page,
        github hist req = HttpOk (GraphqlData page) ->
        (List.length (sp_nodes page) <= 100)%nat) /\
     _paginate_search github 11 "query" "q" w = Some (Returned results, w') /\
     List.length results = 1099%nat /\
     stderr w' = [truncation_warning]).
Proof.
  split.
  - intros Node github query search_q Hpage fuel w results w' H.
    unfold _paginate_search in H.
    eapply (paginate_loop_bound github query search_q Hpage); [|exact H].
    cbn [List.length]. lia.
  - exists (scripted (repeat (page_of 100 0 true) 9
                      ++ [page_of 99 1 true; page_of 100 0 true])
                     (page_of 0 0 false)),
      (fresh_world token_only some_instant).
    eexists. eexists. split; [|split; [vm_compute; reflexivity|split; reflexivity]].
    apply (scripted_pages _ _ (fun page => (List.length (sp_nodes page) <= 100)%nat)).
    repeat constructor; vm_compute; lia.
Qed.

Lemma paginate_search_at_most_1099_witness :
  exists results w',
    _paginate_search
      (scripted (repeat (page_of 100 0 true) 9 ++ [page_of 99 1 true; page_of 100 0 true])
                (page_of 0 0 false))
      11 "query" "q" (fresh_world token_only some_instant)
    = Some (Returned results, w') /\
    (1000 < List.length results <= 1099)%nat.
Proof.
  destruct paginate_search_at_most_1099 as [H _].
  assert (E : exists results w',
             _paginate_search
               (scripted (repeat (page_of 100 0 true) 9
                          ++ [page_of 99 1 true; page_of 100 0 true])
                         (page_of 0 0 false))
               11 "query" "q" (fresh_world token_only some_instant)
             = Some (Returned results, w') /\ (1000 < List.length results)%nat).
  { eexists. eexists. split; [vm_compute; reflexivity|vm_compute; lia]. }
  destruct E as (results & w' & E & Hmore). exists results, w'.
  split; [exact E|]. split; [exact Hmore|].
  refine (H unit _ "query" "q" _ _ _ _ _ E).
  apply (scripted_pages _ _
           (fun page => (List.length (truthy_nodes (sp_nodes page)) <= 100)%nat)).
  repeat constructor; vm_compute; lia.
Defined.

(** ** Runs of the script *)

Lemma only_graphql_refl (w : World) : only_graphql w w.
Proof. split; [reflexivity|]. exists []. now rewrite app_nil_r. Qed.

Lemma only_graphql_trans (w1 w2 w3 : World) :
  only_graphql w1 w2 -> only_graphql w2 w3 -> only_graphql w1 w3.
Proof.
  intros [E1 (l1 & N1 & F1)] [E2 (l2 & N2 & F2)]. split; [congruence|].
  exists (l1 ++ l2)%list. rewrite N2, N1, app_assoc. split; [reflexivity|].
  apply Forall_app. now split.
Qed.

Lemma nothing_sent_refl (w : World) : nothing_sent w w.
Proof. now split. Qed.

Lemma nothing_sent_trans (w1 w2 w3 : World) :
  nothing_sent w1 w2 -> nothing_sent w2 w3 -> nothing_sent w1 w3.
Proof. intros [E1 N1] [E2 N2]. split; congruence. Qed.

Lemma nothing_sent_only_graphql (w w' : World) : nothing_sent w w' -> only_graphql w w'.
Proof.
  intros [E N]. split; [exact E|]. exists []. rewrite N, app_nil_r. now split.
Qed.

Section Composition.

Variable R : World -> World -> Prop.
Hypothesis R_refl : forall w, R w w.
Hypothesis R_trans : forall w1 w2 w3, R w1 w2 -> R w2 w3 -> R w1 w3.
Hypothesis R_env : forall w w', R w w' -> environ w' = environ w.

Lemma keeps_bind {A B : Type} (m : M A) (k : A -> M B) :
  keeps R m -> (forall a, keeps R (k a)) -> keeps R (bind m k).
Proof.
  intros Hm Hk w out w' H. unfold bind in H.
  destruct (m w) as [[[a|code|exn] w1]|] eqn:E; try discriminate.
  - destruct (Hm _ _ _ E) as [H1 _]. destruct (Hk a _ _ _ H) as [H2 H3].
    split; [eapply R_trans; eassumption|exact H3].
  - injection H as <- <-. destruct (Hm _ _ _ E) as [H1 H2]. split; assumption.
  - injection H as <- <-. destruct (Hm _ _ _ E) as [H1 H2]. split; assumption.
Qed.

Lemma dies_bind {A B : Type} (env : string -> option string) (m : M A) (k : A -> M B) :
  keeps R m -> (forall a, dies R env (k a)) -> dies R env (bind m k).
Proof.
  intros Hm Hk w out w' Henv H. unfold bind in H.
  destruct (m w) as [[[a|code|exn] w1]|] eqn:E; try discriminate.
  - destruct (Hm _ _ _ E) as [H1 _].
    destruct (Hk a w1 out w') as [H2 H3]; [rewrite (R_env _ _ H1); exact Henv|exact H|].
    split; [eapply R_trans; eassumption|exact H3].
  - injection H as <- <-. destruct (Hm _ _ _ E) as [H1 H2]. split; assumption.
  - injection H as <- <-. destruct (Hm _ _ _ E) as [H1 H2]. split; assumption.
Qed.

Lemma surely_dies_bind {A B : Type} (env : string -> option string) (m : M A)
    (k : A -> M B) :
  finishes R m -> (forall a, surely_dies R env (k a)) -> surely_dies R env (bind m k).
Proof.
  intros Hm Hk w Henv. destruct (Hm w) as (out & w1 & E & H1 & H2).
  unfold bind. rewrite E. destruct out as [a|code|exn].
  - destruct (Hk a w1) as (out' & w' & E' & H3 & H4);
      [rewrite (R_env _ _ H1); exact Henv|].
    exists out', w'. split; [exact E'|]. split; [eapply R_trans; eassumption|exact H4].
  - exists (SysExit code), w1. repeat split; assumption.
  - exists (Raised exn), w1. repeat split; assumption.
Qed.

Lemma finishes_keeps {A : Type} (m : M A) : finishes R m -> keeps R m.
Proof.
  intros Hm w out w' H. destruct (Hm w) as (out0 & w0 & E & H1 & H2).
  rewrite E in H. injection H as <- <-. now split.
Qed.

Lemma finishes_ret {A : Type} (a : A) : finishes R (ret a).
Proof. intros w. exists (Returned a), w. repeat split. apply R_refl. Qed.

Lemma finishes_raise {A : Type} (exn : string) : finishes R (@raise A exn).
Proof. intros w. exists (Raised exn), w. repeat split. apply R_refl. Qed.

Lemma finishes_or_overflow {A : Type} (o : option A) : finishes R (or_overflow o).
Proof. destruct o; [apply finishes_ret|apply finishes_raise]. Qed.

Lemma finishes_environ_get (key : string) : finishes R (environ_get key).
Proof. intros w. exists (Returned (environ w key)), w. repeat split. apply R_refl. Qed.

Lemma finishes_environ_subscript (key : string) : finishes R (environ_subscript key).
Proof.
  intros w. unfold environ_subscript. destruct (environ w key) as [v|].
  - exists (Returned v), w. repeat split. apply R_refl.
  - exists (Raised "KeyError"), w. repeat split. apply R_refl.
Qed.

Lemma finishes_clock : finishes R (fun w => Some (Returned (clock w), w)).
Proof. intros w. exists (Returned (clock w)), w. repeat split. apply R_refl. Qed.

End Composition.

Lemma nothing_sent_env (w w' : World) : nothing_sent w w' -> environ w' = environ w.
Proof. now intros [E _]. Qed.

Lemma only_graphql_env (w w' : World) : only_graphql w w' -> environ w' = environ w.
Proof. now intros [E _]. Qed.

Lemma finishes_print (line : string) : finishes nothing_sent (print line).
Proof. intros w. eexists. eexists. split; [reflexivity|]. now repeat split. Qed.

Lemma finishes_print_stderr (line : string) : finishes nothing_sent (print_stderr line).
Proof. intros w. eexists. eexists. split; [reflexivity|]. now repeat split. Qed.

Lemma finishes_sys_exit_1 {A : Type} : finishes nothing_sent (@sys_exit A 1).
Proof. intros w. exists (SysExit 1), w. now repeat split. Qed.

Lemma keeps_weaken {A : Type} (m : M A) : keeps nothing_sent m -> keeps only_graphql m.
Proof.
  intros H w out w' E. destruct (H _ _ _ E) as [H1 H2].
  split; [now apply nothing_sent_only_graphql|exact H2].
Qed.

Ltac quiet_step :=
  apply keeps_weaken, finishes_keeps;
  first [ apply finishes_print | apply finishes_print_stderr | apply finishes_sys_exit_1
        | apply (finishes_or_overflow nothing_sent nothing_sent_refl)
        | apply (finishes_environ_get nothing_sent nothing_sent_refl)
        | apply (finishes_environ_subscript nothing_sent nothing_sent_refl)
        | apply (finishes_clock nothing_sent nothing_sent_refl)
        | apply (finishes_ret nothing_sent nothing_sent_refl) ].

Section Services.

Context {Node : Type}.
Variable github : list Request -> Request -> http_result (graphql_body Node).

Lemma keeps_paginate_loop (query search_q : string) :
  forall (fuel : nat) (cursor : option string) (results : list Node),
    keeps only_graphql (paginate_loop github fuel query search_q cursor results).
Proof.
  induction fuel as [|fuel IH]; intros cursor results w out w' H.
  - discriminate.
  - rewrite paginate_loop_unfold in H.
    destruct (environ w "GH_TOKEN") as [token|].
    + cbv zeta in H.
      assert (Hsent : only_graphql w (sent w (GraphqlRequest token query search_q cursor))).
      { split; [reflexivity|]. eexists. split; [reflexivity|]. repeat constructor. }
      assert (Hwarn : forall line,
                only_graphql w (warned (sent w (GraphqlRequest token query search_q cursor)) line)).
      { intros line. split; [reflexivity|]. eexists. split; [reflexivity|].
        repeat constructor. }
      destruct (github (network w) (GraphqlRequest token query search_q cursor))
        as [[detail|page]|exn].
      * injection H as <- <-. split; [apply Hwarn|reflexivity].
      * destruct (sp_hasNextPage page); cbn [negb] in H.
        -- destruct (1000 <=? _).
           ++ injection H as <- <-. split; [apply Hwarn|exact I].
           ++ destruct (IH _ _ _ _ _ H) as [H1 H2].
              split; [eapply only_graphql_trans; eassumption|exact H2].
        -- injection H as <- <-. split; [exact Hsent|exact I].
      * injection H as <- <-. split; [exact Hsent|exact I].
    + injection H as <- <-. split; [apply only_graphql_refl|exact I].
Qed.

(** Without the token, the first iteration dies before any request. *)
Lemma paginate_loop_no_token (query search_q : string) (fuel : nat)
    (cursor : option string) (results : list Node) (w : World) :
  environ w "GH_TOKEN" = None ->
  paginate_loop github (S fuel) query search_q cursor results w
  = Some (Raised "KeyError", w).
Proof. intros H. rewrite paginate_loop_unfold. now rewrite H. Qed.

End Services.

Section RunFacts.

Variable github_created : list Request -> Request -> http_result (graphql_body CreatedPR).
Variable github_updated : list Request -> Request -> http_result (graphql_body UpdatedPR).
Variable slack : list Request -> Request -> http_result SlackResult.

Let keeps_bind_g {A B} := @keeps_bind only_graphql only_graphql_trans A B.
Let dies_bind_g {A B} := @dies_bind only_graphql only_graphql_trans only_graphql_env A B.
Let surely_dies_bind_q {A B} :=
  @surely_dies_bind nothing_sent nothing_sent_trans nothing_sent_env A B.

Lemma keeps_search_prs_created fuel org since until :
  keeps only_graphql (search_prs_created github_created fuel org since until).
Proof.
  unfold search_prs_created.
  apply keeps_bind_g; [quiet_step|intros s].
  apply keeps_bind_g; [quiet_step|intros u].
  apply keeps_paginate_loop.
Qed.

Lemma keeps_search_prs_with_reviews fuel org since until :
  keeps only_graphql (search_prs_with_reviews github_updated fuel org since until).
Proof.
  unfold search_prs_with_reviews.
  apply keeps_bind_g; [quiet_step|intros s].
  apply keeps_bind_g; [quiet_step|intros u].
  apply keeps_paginate_loop.
Qed.

(** Without one of its two settings, [send_slack] dies before any request. *)
Lemma send_slack_no_setting (env : string -> option string) stats since until :
  env "SLACK_BOT_TOKEN" = None \/ env "SLACK_CHANNEL_ID" = None ->
  surely_dies nothing_sent env (send_slack slack stats since until).
Proof.
  intros Hmiss w Henv. unfold send_slack, bind at 1, environ_subscript.
  rewrite Henv. destruct (env "SLACK_BOT_TOKEN") as [token|] eqn:Et.
  - destruct Hmiss as [Hm|Hm]; [discriminate|].
    unfold bind at 1. rewrite Henv, Hm.
    exists (Raised "KeyError"), w. split; [reflexivity|]. split; [apply nothing_sent_refl|exact I].
  - exists (Raised "KeyError"), w. split; [reflexivity|]. split; [apply nothing_sent_refl|exact I].
Qed.

Lemma surely_dies_dies (R : World -> World -> Prop) env {A : Type} (m : M A) :
  surely_dies R env m -> dies R env m.
Proof.
  intros H w out w' Henv E. destruct (H w Henv) as (out0 & w0 & E0 & H1 & H2).
  rewrite E0 in E. injection E as <- <-. now split.
Qed.

Lemma dies_weaken env {A : Type} (m : M A) :
  dies nothing_sent env m -> dies only_graphql env m.
Proof.
  intros H w out w' Henv E. destruct (H _ _ _ Henv E) as [H1 H2].
  split; [now apply nothing_sent_only_graphql|exact H2].
Qed.

Lemma main_no_slack_setting (env : string -> option string) (fuel : nat) :
  env "SLACK_BOT_TOKEN" = None \/ env "SLACK_CHANNEL_ID" = None ->
  dies only_graphql env (main github_created github_updated slack fuel).
Proof.
  intros Hmiss. unfold main.
  apply dies_bind_g; [quiet_step|intros org].
  destruct (falsy org).
  - apply dies_bind_g; [quiet_step|intros _].
    intros w out w' _ H. injection H as <- <-. split; [apply only_graphql_refl|reflexivity].
  - apply dies_bind_g; [quiet_step|intros now_kst].
    apply dies_bind_g; [quiet_step|intros [since until]].
    apply dies_bind_g; [quiet_step|intros since_kst].
    apply dies_bind_g; [quiet_step|intros until_kst].
    apply dies_bind_g; [quiet_step|intros _].
    apply dies_bind_g; [apply keeps_search_prs_created|intros created_prs].
    apply dies_bind_g; [quiet_step|intros _].
    apply dies_bind_g; [apply keeps_search_prs_with_reviews|intros updated_prs].
    apply dies_bind_g; [quiet_step|intros _].
    apply dies_bind_g; [quiet_step|intros stats].
    apply dies_bind_g; [quiet_step|intros _].
    apply dies_weaken, surely_dies_dies, send_slack_no_setting, Hmiss.
Qed.

End RunFacts.

(** ** Start-up and configuration *)

Lemma surely_dies_bind_l (R : World -> World -> Prop) env {A B : Type}
    (m : M A) (k : A -> M B) :
  surely_dies R env m -> surely_dies R env (bind m k).
Proof.
  intros H w Henv. destruct (H w Henv) as (out & w' & E & H1 & H2).
  unfold bind. rewrite E. destruct out as [a|code|exn]; [contradiction| |].
  - exists (SysExit code), w'. now repeat split.
  - exists (Raised exn), w'. now repeat split.
Qed.

Lemma fails_exit_status (out : outcome unit) : fails out -> exit_status out = 1.
Proof. destruct out; cbn; [contradiction|auto|auto]. Qed.

Section Startup.

Variable github_created : list Request -> Request -> http_result (graphql_body CreatedPR).
Variable github_updated : list Request -> Request -> http_result (graphql_body UpdatedPR).
Variable slack : list Request -> Request -> http_result SlackResult.

Let run := main github_created github_updated slack.
Let sd_bind {A B} :=
  @surely_dies_bind nothing_sent nothing_sent_trans nothing_sent_env A B.

Lemma main_no_org (fuel : nat) (w : World) :
  falsy (environ w "ORG_NAME") = true ->
  run fuel w = Some (SysExit 1, warned w "Error: ORG_NAME 환경변수 필요").
Proof.
  intros H. subst run. unfold main, bind at 1, environ_get. now rewrite H.
Qed.

Lemma main_no_github_token (fuel : nat) (w : World) :
  falsy (environ w "ORG_NAME") = false ->
  environ w "GH_TOKEN" = None ->
  exists out w',
    run (S fuel) w = Some (out, w') /\ nothing_sent w w' /\ fails out.
Proof.
  intros Horg Htok. subst run. unfold main, bind at 1, environ_get. rewrite Horg.
  revert w Horg Htok.
  enough (H : forall env, env "GH_TOKEN" = None ->
              surely_dies nothing_sent env
                (now_kst <- (fun w => Some (Returned (clock w), w)) ;;
                 range <- or_overflow (get_report_range now_kst) ;;
                 (let '(since, until) := range in
                  since_kst <- or_overflow (astimezone since KST) ;;
                  until_kst <- or_overflow (astimezone until KST) ;;
                  print ("📊 " ++ str_of_optional (env "ORG_NAME") ++ " 주간 PR 리포트 ("
                         ++ strftime_long since_kst ++ " ~ " ++ strftime_long until_kst
                         ++ ")") ;;;
                  created_prs <- search_prs_created github_created (S fuel)
                                   (str_of_optional (env "ORG_NAME")) since until ;;
                  print ("  생성된 PR: " ++ str_of_int (Z.of_nat (List.length created_prs))
                         ++ "건") ;;;
                  updated_prs <- search_prs_with_reviews github_updated (S fuel)
                                   (str_of_optional (env "ORG_NAME")) since until ;;
                  print ("  리뷰 활동 PR: " ++ str_of_int (Z.of_nat (List.length updated_prs))
                         ++ "건") ;;;
                  stats <- or_overflow (aggregate created_prs updated_prs since until) ;;
                  print ("  합계: PR " ++ str_of_int (total_prs stats) ++ "건, 리뷰 코멘트 "
                         ++ str_of_int (total_comments stats) ++ "건") ;;;
                  send_slack slack stats since until))).
  { intros w Horg Htok. exact (H (environ w) Htok w eq_refl). }
  intros env Htok.
  apply sd_bind; [apply (finishes_clock _ nothing_sent_refl)|intros now_kst].
  apply sd_bind; [apply (finishes_or_overflow _ nothing_sent_refl)|intros [since until]].
  apply sd_bind; [apply (finishes_or_overflow _ nothing_sent_refl)|intros since_kst].
  apply sd_bind; [apply (finishes_or_overflow _ nothing_sent_refl)|intros until_kst].
  apply sd_bind; [apply finishes_print|intros _].
  apply surely_dies_bind_l. unfold search_prs_created.
  apply sd_bind; [apply (finishes_or_overflow _ nothing_sent_refl)|intros s].
  apply sd_bind; [apply (finishes_or_overflow _ nothing_sent_refl)|intros u].
  intros w Henv. unfold _paginate_search.
  rewrite paginate_loop_no_token by (rewrite Henv; exact Htok).
  exists (Raised "KeyError"), w. split; [reflexivity|]. split; [apply nothing_sent_refl|exact I].
Qed.

(** C8, as the code has it. Without the organisation name (absent or
    empty) the run prints the error and exits with status 1 before any
    request; without the GitHub token it dies with status 1 before any
    request. Without the Slack token or the channel identifier every finished
    run also ends with status 1 and no message is posted, but the setting is
    only read when the report is about to be sent, after the GitHub queries. *)
Theorem missing_configuration (fuel : nat) (w : World) :
  (falsy (environ w "ORG_NAME") = true ->
   run fuel w = Some (SysExit 1, warned w "Error: ORG_NAME 환경변수 필요")) /\
  (falsy (environ w "ORG_NAME") = false -> environ w "GH_TOKEN" = None ->
   exists out w',
     run (S fuel) w = Some (out, w') /\ exit_status out = 1 /\ network w' = network w) /\
  (environ w "SLACK_BOT_TOKEN" = None \/ environ w "SLACK_CHANNEL_ID" = None ->
   forall out w',
     run fuel w = Some (out, w') ->
     exit_status out = 1 /\
     exists sent_now,
       network w' = (network w ++ sent_now)%list /\ Forall is_graphql sent_now).
Proof.
  split; [apply main_no_org|]. split.
  - intros Horg Htok.
    destruct (main_no_github_token fuel w Horg Htok) as (out & w' & E & [_ Hn] & Hf).
    exists out, w'. split; [exact E|]. split; [now apply fails_exit_status|exact Hn].
  - intros Hmiss out w' E.
    destruct (main_no_slack_setting github_created github_updated slack (environ w) fuel
                Hmiss w out w' eq_refl E) as [[_ Hsent] Hf].
    split; [now apply fails_exit_status|exact Hsent].
Qed.

End Startup.

(** Counterexample to C8 as stated: with the Slack token absent, the failure
    comes after network activity (two GraphQL requests have been sent). *)
Lemma slack_token_read_after_queries :
  environ (fresh_world github_only some_instant) "SLACK_BOT_TOKEN" = None /\
  (exists w',
     main no_results no_results slack_ok 1 (fresh_world github_only some_instant)
     = Some (Raised "KeyError", w') /\
     List.length (network w') = 2%nat) /\
  ~ (forall out w',
       main no_results no_results slack_ok 1 (fresh_world github_only some_instant)
       = Some (out, w') ->
       network w' = network (fresh_world github_only some_instant)).
Proof.
  split; [reflexivity|].
  assert (H : exists w',
             main no_results no_results slack_ok 1 (fresh_world github_only some_instant)
             = Some (Raised "KeyError", w') /\ List.length (network w') = 2%nat).
  { eexists. split; [vm_compute; reflexivity|reflexivity]. }
  split; [exact H|].
  destruct H as (w' & E & Hlen). intros Hall.
  rewrite (Hall _ _ E) in Hlen. discriminate Hlen.
Qed.

Lemma missing_configuration_witness :
  environ (fresh_world github_only some_instant) "SLACK_CHANNEL_ID" = None /\
  exists out w',
    main no_results no_results slack_ok 1 (fresh_world github_only some_instant)
    = Some (out, w') /\
    exit_status out = 1.
Proof.
  split; [reflexivity|].
  destruct (missing_configuration no_results no_results slack_ok 1
              (fresh_world github_only some_instant)) as (_ & _ & H).
  assert (E : exists out w',
             main no_results no_results slack_ok 1 (fresh_world github_only some_instant)
             = Some (out, w')).
  { eexists. eexists. vm_compute. reflexivity. }
  destruct E as (out & w' & E). exists out, w'. split; [exact E|].
  exact (proj1 (H (or_intror eq_refl) out w' E)).
Defined.

(** ** Time zones and rendering *)

Lemma td_neg_seconds (k : Z) :
  td_neg (timedelta_of 0 k 0) = timedelta_of 0 (- k) 0.
Proof.
  unfold td_neg, timedelta_of. cbn [td_days td_seconds td_microseconds].
  change (0 mod 1000000) with 0. change (- 0) with 0. change (0 / 1000000) with 0.
  rewrite !Z.add_0_r, !Z.add_0_l. f_equal; euclid.
Qed.

Lemma dt_add_seconds (d : datetime) (k : Z) :
  valid_time d ->
  dt_add d (timedelta_of 0 k 0) =
    let t := toordinal d * 86400 + seconds_of_day d + k in
    if in_range t then Some (at_seconds t (microsecond d) (utcoffset d)) else None.
Proof.
  intros (Hh & Hmi & Hs & Hus). unfold dt_add, td_add, seconds_of_day, in_range. cbv zeta.
  rewrite (timedelta_of_small (toordinal d)) by lia.
  unfold timedelta_of. cbn [td_days td_seconds td_microseconds].
  change (0 mod 1000000) with 0. change (0 / 1000000) with 0.
  rewrite !Z.add_0_r, !Z.add_0_l.
  rewrite (Z.div_small (microsecond d)), (Z.mod_small (microsecond d)) by lia.
  rewrite !Z.add_0_r.
  set (t := toordinal d * 86400 + (hour d * 3600 + minute d * 60 + second d) + k).
  set (s := hour d * 3600 + minute d * 60 + second d + k mod 86400).
  assert (E1 : toordinal d + k / 86400 + s / 86400 = t / 86400) by (unfold s, t; euclid).
  assert (E2 : s mod 86400 = t mod 86400) by (unfold s, t; euclid).
  rewrite E1, E2.
  destruct ((0 <? t / 86400) && (t / 86400 <=? _MAXORDINAL)); [|reflexivity].
  unfold at_seconds, at_ordinal. destruct (_ord2ymd (t / 86400)) as [[y m] dd].
  f_equal. f_equal; euclid.
Qed.

Lemma at_seconds_time (t us off : Z) :
  let d := at_seconds t us off in
  seconds_of_day d = t mod 86400 /\ microsecond d = us /\ utcoffset d = off /\
  (0 <= us <= 999999 -> valid_time d).
Proof.
  cbv zeta. unfold at_seconds, seconds_of_day, valid_time.
  pose proof (at_ordinal_fields (t / 86400) (t mod 86400 / 3600) (t mod 3600 / 60)
                (t mod 60) us off) as (H1 & H2 & H3 & H4 & H5).
  cbv zeta in *. rewrite H1, H2, H3, H4, H5.
  split; [euclid|]. split; [reflexivity|]. split; [reflexivity|].
  intros Hus. repeat split; try lia; euclid.
Qed.

Lemma at_seconds_fields (t us off : Z) :
  hour (at_seconds t us off) = t mod 86400 / 3600 /\
  minute (at_seconds t us off) = t mod 3600 / 60 /\
  second (at_seconds t us off) = t mod 60.
Proof.
  unfold at_seconds.
  destruct (at_ordinal_fields (t / 86400) (t mod 86400 / 3600) (t mod 3600 / 60)
              (t mod 60) us off) as (H1 & H2 & H3 & _).
  now rewrite H1, H2, H3.
Qed.

Lemma at_seconds_toordinal (t us off : Z) :
  86400 <= t -> toordinal (at_seconds t us off) = t / 86400.
Proof. intros Ht. unfold at_seconds. apply toordinal_at_ordinal. euclid. Qed.

Lemma at_seconds_of_valid (d : datetime) :
  valid_datetime d ->
  at_seconds (toordinal d * 86400 + seconds_of_day d) (microsecond d) (utcoffset d) = d.
Proof.
  intros Hv. pose proof Hv as (_ & _ & _ & Hh & Hmi & Hs & _).
  transitivity (at_ordinal (toordinal d) (hour d) (minute d) (second d) (microsecond d)
                          (utcoffset d)); [|exact (at_ordinal_toordinal d Hv)].
  unfold at_seconds, seconds_of_day.
  generalize (toordinal d) (hour d) (minute d) (second d) Hh Hmi Hs.
  intros n h mi s Hh' Hmi' Hs'. f_equal; euclid.
Qed.

Lemma valid_datetime_time (d : datetime) : valid_datetime d -> valid_time d.
Proof. unfold valid_datetime, valid_time. tauto. Qed.

Lemma toordinal_replace_tzinfo (d : datetime) (off : Z) :
  toordinal (replace_tzinfo d off) = toordinal d.
Proof. destruct d. reflexivity. Qed.

Lemma seconds_of_day_replace_tzinfo (d : datetime) (off : Z) :
  seconds_of_day (replace_tzinfo d off) = seconds_of_day d.
Proof. destruct d. reflexivity. Qed.

Lemma valid_time_replace_tzinfo (d : datetime) (off : Z) :
  valid_time d -> valid_time (replace_tzinfo d off).
Proof. destruct d. exact (fun H => H). Qed.

Lemma microsecond_replace_tzinfo (d : datetime) (off : Z) :
  microsecond (replace_tzinfo d off) = microsecond d.
Proof. destruct d. reflexivity. Qed.

Lemma utcoffset_replace_tzinfo (d : datetime) (off : Z) :
  utcoffset (replace_tzinfo d off) = off.
Proof. destruct d. reflexivity. Qed.

Lemma utc_seconds_eq (d : datetime) :
  toordinal d * 86400 + seconds_of_day d + - utcoffset d = utc_seconds d.
Proof. unfold utc_seconds. lia. Qed.

Lemma in_range_lower (t : Z) : in_range t = true -> 86400 <= t.
Proof.
  unfold in_range. intros H. apply andb_true_iff in H as [H _].
  apply Z.ltb_lt in H. euclid.
Qed.

Lemma div_mod_seconds (t k : Z) : t / 86400 * 86400 + t mod 86400 + k = t + k.
Proof. euclid. Qed.

(** [astimezone] in closed form: the wall clock moves by the difference of
    the two offsets; both the intermediate UTC value and the result must lie
    in the supported range of dates. *)
Lemma astimezone_eq (d : datetime) (off : Z) :
  valid_datetime d ->
  astimezone d off =
    if utcoffset d =? off then Some d
    else if in_range (utc_seconds d) && in_range (utc_seconds d + off)
         then Some (at_seconds (utc_seconds d + off) (microsecond d) off)
         else None.
Proof.
  intros Hv. pose proof (valid_datetime_time d Hv) as Ht.
  assert (Hus : 0 <= microsecond d <= 999999) by apply Hv.
  unfold astimezone. destruct (utcoffset d =? off); [reflexivity|].
  unfold dt_sub_td. rewrite td_neg_seconds, (dt_add_seconds d (- utcoffset d) Ht).
  cbv zeta. rewrite utc_seconds_eq.
  destruct (in_range (utc_seconds d)) eqn:Hr; [|reflexivity].
  apply in_range_lower in Hr.
  destruct (at_seconds_time (utc_seconds d) (microsecond d) (utcoffset d))
    as (Es & Eus & Eoff & Hvt).
  rewrite (dt_add_seconds _ off (valid_time_replace_tzinfo _ off (Hvt Hus))).
  cbv zeta.
  rewrite toordinal_replace_tzinfo, seconds_of_day_replace_tzinfo,
    microsecond_replace_tzinfo, utcoffset_replace_tzinfo.
  rewrite (at_seconds_toordinal _ _ _ Hr), Es, Eus, div_mod_seconds.
  reflexivity.
Qed.

Lemma strftime_github_at_seconds (t us off : Z) :
  strftime_github (at_seconds t us off) = github_stamp t.
Proof.
  unfold github_stamp, at_seconds, at_ordinal.
  destruct (_ord2ymd (t / 86400)) as [[y m] d]. reflexivity.
Qed.

Lemma in_range_valid (d : datetime) :
  valid_datetime d -> in_range (toordinal d * 86400 + seconds_of_day d) = true.
Proof.
  intros Hv. pose proof (toordinal_valid d Hv) as Ho.
  pose proof Hv as (_ & _ & _ & Hh & Hmi & Hs & _).
  unfold in_range, seconds_of_day.
  generalize (toordinal d) (hour d) (minute d) (second d) Ho Hh Hmi Hs.
  intros n h mi s Hn Hh' Hmi' Hs'.
  apply andb_true_iff. split; [apply Z.ltb_lt | apply Z.leb_le]; euclid.
Qed.

Lemma utc_seconds_utc (d : datetime) :
  utcoffset d = UTC -> utc_seconds d = toordinal d * 86400 + seconds_of_day d.
Proof. intros H. unfold utc_seconds. rewrite H. unfold UTC. lia. Qed.

(** [to_github_date] in closed form. *)
Lemma to_github_date_eq (d : datetime) :
  valid_datetime d ->
  to_github_date d =
    if in_range (utc_seconds d) then Some (github_stamp (utc_seconds d)) else None.
Proof.
  intros Hv. unfold to_github_date. rewrite (astimezone_eq d UTC Hv).
  destruct (Z.eqb_spec (utcoffset d) UTC) as [E|E].
  - rewrite (utc_seconds_utc d E), (in_range_valid d Hv). cbn [option_map].
    rewrite <- (at_seconds_of_valid d Hv) at 1.
    now rewrite strftime_github_at_seconds.
  - replace (utc_seconds d + UTC) with (utc_seconds d) by (unfold UTC; lia).
    rewrite andb_diag. destruct (in_range (utc_seconds d)); [|reflexivity].
    cbn [option_map]. now rewrite strftime_github_at_seconds.
Qed.

Lemma in_range_false (t : Z) :
  in_range t = false <-> t < 86400 \/ (_MAXORDINAL + 1) * 86400 <= t.
Proof.
  unfold in_range, _MAXORDINAL. rewrite andb_false_iff, Z.ltb_ge, Z.leb_gt. split.
  - intros [H|H]; [left|right]; euclid.
  - intros [H|H]; [left|right]; euclid.
Qed.

(** X1. [to_github_date] depends on the instant only: two valid aware
    datetimes that denote the same second of UTC, in whatever zones, render
    as the same text; and the conversion raises [OverflowError] exactly when
    the instant lies outside 0001-01-01T00:00:00Z .. 9999-12-31T23:59:59Z. *)
Theorem to_github_date_of_instant (a b : datetime) :
  valid_datetime a -> valid_datetime b ->
  (utc_seconds a = utc_seconds b -> to_github_date a = to_github_date b) /\
  (to_github_date a = None <->
   utc_seconds a < 86400 \/ (_MAXORDINAL + 1) * 86400 <= utc_seconds a).
Proof.
  intros Ha Hb. rewrite (to_github_date_eq a Ha), (to_github_date_eq b Hb). split.
  - intros ->. reflexivity.
  - rewrite <- in_range_false. destruct (in_range (utc_seconds a)); split; congruence.
Qed.

Lemma valid_friday_afternoon_kst : valid_datetime friday_afternoon_kst.
Proof. unfold valid_datetime. repeat split; vm_compute; congruence. Qed.

Lemma valid_friday_morning_utc : valid_datetime friday_morning_utc.
Proof. unfold valid_datetime. repeat split; vm_compute; congruence. Qed.

Lemma valid_first_morning_kst : valid_datetime first_morning_kst.
Proof. unfold valid_datetime. repeat split; vm_compute; congruence. Qed.

Lemma to_github_date_of_instant_witness :
  to_github_date friday_afternoon_kst = to_github_date friday_morning_utc /\
  to_github_date friday_afternoon_kst = Some "2024-05-03T07:00:00Z" /\
  to_github_date first_morning_kst = None.
Proof.
  split; [|split].
  - apply (to_github_date_of_instant friday_afternoon_kst friday_morning_utc
             valid_friday_afternoon_kst valid_friday_morning_utc).
    vm_compute. reflexivity.
  - vm_compute. reflexivity.
  - apply (to_github_date_of_instant first_morning_kst first_morning_kst
             valid_first_morning_kst valid_first_morning_kst).
    left. vm_compute. reflexivity.
Defined.

Lemma days_before_year_min (y : Z) :
  10000 <= y -> _MAXORDINAL <= _days_before_year y.
Proof. intros Hy. unfold _days_before_year, _MAXORDINAL. cbv zeta. euclid. Qed.

Lemma days_before_month_nonneg (y m : Z) : 1 <= m <= 12 -> 0 <= _days_before_month y m.
Proof.
  intros Hm. unfold _days_before_month.
  assert (H : 0 <= nth (Z.to_nat m) _DAYS_BEFORE_MONTH 0).
  { apply Z.leb_le.
    apply (check_from_spec 12 (fun m => 0 <=? nth (Z.to_nat m) _DAYS_BEFORE_MONTH 0) 1);
      [vm_compute; reflexivity | lia]. }
  destruct ((2 <? m) && _is_leap y); lia.
Qed.

(** The day of an ordinal in range is a valid date of years 1..9999. *)
Lemma at_ordinal_valid (n h mi s us off : Z) :
  1 <= n <= _MAXORDINAL ->
  0 <= h <= 23 -> 0 <= mi <= 59 -> 0 <= s <= 59 -> 0 <= us <= 999999 ->
  -86400 < off < 86400 ->
  valid_datetime (at_ordinal n h mi s us off).
Proof.
  intros Hn Hh Hmi Hs Hus Hoff. pose proof (ymd2ord_ord2ymd n (proj1 Hn)) as H.
  unfold at_ordinal. destruct (_ord2ymd n) as [[y m] d].
  destruct H as (Hy & Hm & Hd & Ho).
  unfold valid_datetime, MINYEAR, MAXYEAR.
  cbn [year month day hour minute second microsecond utcoffset].
  repeat split; try lia.
  destruct (Z.le_gt_cases y 9999) as [Hle|Hgt]; [exact Hle|exfalso].
  pose proof (days_before_year_min y ltac:(lia)) as Hb.
  pose proof (days_before_month_nonneg y m Hm) as Hbm.
  unfold _ymd2ord in Ho. lia.
Qed.

Lemma str_append_assoc (a b c : string) : (a ++ b) ++ c = a ++ b ++ c.
Proof. induction a as [|x a IH]; cbn; [reflexivity|now rewrite IH]. Qed.

(** The rendering of 16:00 in KST on the day of ordinal [n]. *)
Lemma to_github_date_report_hour (n : Z) :
  1 <= n <= _MAXORDINAL ->
  to_github_date (at_ordinal n REPORT_HOUR 0 0 0 KST)
  = Some (date_text (at_ordinal n REPORT_HOUR 0 0 0 KST) ++ "T07:00:00Z").
Proof.
  intros Hn.
  assert (Hv : valid_datetime (at_ordinal n REPORT_HOUR 0 0 0 KST))
    by (apply at_ordinal_valid; unfold REPORT_HOUR, KST; lia).
  rewrite (to_github_date_eq _ Hv).
  assert (Et : utc_seconds (at_ordinal n REPORT_HOUR 0 0 0 KST) = n * 86400 + 25200).
  { unfold utc_seconds, seconds_of_day.
    rewrite (toordinal_at_ordinal n _ _ _ _ _ (proj1 Hn)).
    destruct (at_ordinal_fields n REPORT_HOUR 0 0 0 KST) as (E1 & E2 & E3 & _ & E5).
    rewrite E1, E2, E3, E5. unfold REPORT_HOUR, KST. lia. }
  rewrite Et.
  assert (Hr : in_range (n * 86400 + 25200) = true).
  { unfold in_range. apply andb_true_iff.
    split; [apply Z.ltb_lt | apply Z.leb_le]; euclid. }
  rewrite Hr. f_equal. unfold github_stamp, at_seconds.
  replace ((n * 86400 + 25200) / 86400) with n by euclid.
  replace ((n * 86400 + 25200) mod 86400 / 3600) with 7 by euclid.
  replace ((n * 86400 + 25200) mod 3600 / 60) with 0 by euclid.
  replace ((n * 86400 + 25200) mod 60) with 0 by euclid.
  unfold at_ordinal. destruct (_ord2ymd n) as [[y m] d].
  unfold strftime_github, date_text.
  cbn [year month day hour minute second].
  rewrite !str_append_assoc. reflexivity.
Qed.

(** X2. From year 1000 on (where [%Y] has four digits), the two bounds of
    the weekly window render as 07:00:00 UTC on their own calendar dates:
    16:00 in KST is nine hours ahead, so the conversion never changes the
    date. *)
Theorem window_bounds_rendered (now since until : datetime) :
  valid_datetime now -> 1000 < year now -> utcoffset now = KST ->
  get_report_range now = Some (since, until) ->
  to_github_date since = Some (date_text since ++ "T07:00:00Z") /\
  to_github_date until = Some (date_text until ++ "T07:00:00Z").
Proof.
  intros Hv _ Hoff H. pose proof (end_ordinal_bounds now Hv) as [[He1 He2] _].
  rewrite (get_report_range_eq now Hv), Hoff in H.
  destruct (Z.ltb_spec 7 (end_ordinal now)) as [Hlt|Hge]; [|discriminate H].
  injection H as <- <-.
  split; apply to_github_date_report_hour; lia.
Qed.

Lemma window_bounds_rendered_witness :
  get_report_range (mk_datetime 2024 5 1 10 30 15 123 KST)
  = Some (mk_datetime 2024 4 26 16 0 0 0 KST, mk_datetime 2024 5 3 16 0 0 0 KST) /\
  to_github_date (mk_datetime 2024 4 26 16 0 0 0 KST) = Some "2024-04-26T07:00:00Z" /\
  to_github_date (mk_datetime 2024 5 3 16 0 0 0 KST) = Some "2024-05-03T07:00:00Z".
Proof.
  assert (Hv : valid_datetime (mk_datetime 2024 5 1 10 30 15 123 KST))
    by (unfold valid_datetime; repeat split; vm_compute; congruence).
  assert (Hr : get_report_range (mk_datetime 2024 5 1 10 30 15 123 KST)
               = Some (mk_datetime 2024 4 26 16 0 0 0 KST, mk_datetime 2024 5 3 16 0 0 0 KST))
    by (vm_compute; reflexivity).
  split; [exact Hr|].
  exact (window_bounds_rendered _ _ _ Hv eq_refl eq_refl Hr).
Defined.

(** X3. The window is a function of the calendar date of [now] and of its
    zone: the time of day plays no part. It ends on the first Friday on or
    after that date, and the windows of two runs one week apart tile: the
    later one starts at the very instant where the earlier one ends. *)
Theorem report_window_by_date (now now' : datetime) :
  valid_datetime now -> valid_datetime now' -> utcoffset now' = utcoffset now ->
  (toordinal now' = toordinal now -> get_report_range now' = get_report_range now) /\
  (forall since until,
     get_report_range now = Some (since, until) ->
     0 <= toordinal until - toordinal now <= 6 /\
     (toordinal now' = toordinal now + 7 ->
      exists until', get_report_range now' = Some (until, until'))).
Proof.
  intros Hv Hv' Hoff.
  pose proof (end_ordinal_bounds now Hv) as [[He1 He2] _].
  pose proof (end_ordinal_bounds now' Hv') as [[He1' He2'] _].
  pose proof (toordinal_valid now Hv) as Ho.
  rewrite (get_report_range_eq now Hv), (get_report_range_eq now' Hv'), Hoff.
  split.
  - intros E. unfold end_ordinal, days_until_friday, weekday. now rewrite E.
  - intros since until H.
    destruct (Z.ltb_spec 7 (end_ordinal now)) as [Hlt|Hge]; [|discriminate H].
    injection H as <- <-.
    rewrite toordinal_at_ordinal by lia. split.
    + unfold end_ordinal, days_until_friday. euclid.
    + intros E.
      assert (Ee : end_ordinal now' = end_ordinal now + 7).
      { unfold end_ordinal, days_until_friday, weekday. rewrite E. euclid. }
      rewrite Ee.
      replace (7 <? end_ordinal now + 7) with true by (symmetry; apply Z.ltb_lt; lia).
      replace (end_ordinal now + 7 - 7) with (end_ordinal now) by lia.
      eexists. reflexivity.
Qed.

Lemma report_window_by_date_witness :
  get_report_range (mk_datetime 2024 5 1 23 59 59 999999 KST)
  = get_report_range (mk_datetime 2024 5 1 10 30 15 123 KST) /\
  exists until',
    get_report_range (mk_datetime 2024 5 8 0 0 0 0 KST)
    = Some (mk_datetime 2024 5 3 16 0 0 0 KST, until').
Proof.
  assert (Hv : valid_datetime (mk_datetime 2024 5 1 10 30 15 123 KST))
    by (unfold valid_datetime; repeat split; vm_compute; congruence).
  assert (Hv1 : valid_datetime (mk_datetime 2024 5 1 23 59 59 999999 KST))
    by (unfold valid_datetime; repeat split; vm_compute; congruence).
  assert (Hv2 : valid_datetime (mk_datetime 2024 5 8 0 0 0 0 KST))
    by (unfold valid_datetime; repeat split; vm_compute; congruence).
  split.
  - exact (proj1 (report_window_by_date _ _ Hv Hv1 eq_refl) eq_refl).
  - destruct (proj2 (report_window_by_date _ _ Hv Hv2 eq_refl)
                (mk_datetime 2024 4 26 16 0 0 0 KST) (mk_datetime 2024 5 3 16 0 0 0 KST))
      as [_ H]; [vm_compute; reflexivity|].
    apply H. vm_compute. reflexivity.
Defined.

(** ** Order of the rendered instants *)

Lemma str_compare_refl (s : string) : String.compare s s = Eq.
Proof.
  induction s as [|c s IH]; cbn [String.compare]; [reflexivity|].
  unfold Ascii.compare. now rewrite N.compare_refl.
Qed.

Lemma str_compare_app (a b x y : string) :
  String.length a = String.length b ->
  String.compare (a ++ x) (b ++ y) = lex (String.compare a b) (String.compare x y).
Proof.
  revert b. induction a as [|c a IH]; intros [|c' b] Hlen; try discriminate Hlen.
  - reflexivity.
  - cbn [append String.compare]. destruct (Ascii.compare c c'); try reflexivity.
    apply IH. now injection Hlen.
Qed.

Lemma zero_padded_length (w : nat) (n : Z) : String.length (zero_padded w n) = w.
Proof.
  revert n. induction w as [|w IH]; intros n; cbn [zero_padded]; [reflexivity|].
  assert (H : forall a b : string,
             String.length (a ++ b) = (String.length a + String.length b)%nat).
  { intros a b. induction a as [|c a IHa]; cbn; [reflexivity|now rewrite IHa]. }
  rewrite H, IH. cbn. lia.
Qed.

Lemma compare_div_mod (k a b : Z) :
  0 < k -> (a ?= b) = lex (a / k ?= b / k) (a mod k ?= b mod k).
Proof.
  intros Hk. unfold lex.
  destruct (Z.compare_spec (a / k) (b / k)) as [E|E|E].
  - destruct (Z.compare_spec (a mod k) (b mod k)) as [E'|E'|E'].
    + apply Z.compare_eq_iff. rewrite (Z.div_mod a k), (Z.div_mod b k) by lia. congruence.
    + apply Z.compare_lt_iff. rewrite (Z.div_mod a k), (Z.div_mod b k) by lia.
      rewrite E. lia.
    + apply Z.compare_gt_iff. rewrite (Z.div_mod a k), (Z.div_mod b k) by lia.
      rewrite E. lia.
  - apply Z.compare_lt_iff.
    pose proof (Z.mod_pos_bound a k Hk). pose proof (Z.mod_pos_bound b k Hk).
    rewrite (Z.div_mod a k), (Z.div_mod b k) by lia. nia.
  - apply Z.compare_gt_iff.
    pose proof (Z.mod_pos_bound a k Hk). pose proof (Z.mod_pos_bound b k Hk).
    rewrite (Z.div_mod a k), (Z.div_mod b k) by lia. nia.
Qed.

Lemma digit_compare (a b : Z) :
  0 <= a < 10 -> 0 <= b < 10 ->
  Ascii.compare (ascii_of_nat (48 + Z.to_nat a)) (ascii_of_nat (48 + Z.to_nat b))
  = (a ?= b).
Proof.
  intros Ha Hb. unfold Ascii.compare, ascii_of_nat.
  rewrite !N_ascii_embedding by lia.
  destruct (Z.compare_spec a b) as [E|E|E].
  - subst. apply N.compare_refl.
  - apply N.compare_lt_iff. lia.
  - apply N.compare_gt_iff. lia.
Qed.

(** On fields of equal width, the order of the texts is the order of the
    numbers. *)
Lemma zero_padded_compare (w : nat) :
  forall a b : Z,
    0 <= a < 10 ^ Z.of_nat w -> 0 <= b < 10 ^ Z.of_nat w ->
    String.compare (zero_padded w a) (zero_padded w b) = (a ?= b).
Proof.
  induction w as [|w IH]; intros a b Ha Hb.
  - cbn in Ha, Hb. cbn [zero_padded String.compare].
    symmetry. apply Z.compare_eq_iff. lia.
  - rewrite Nat2Z.inj_succ, Z.pow_succ_r in Ha, Hb by lia.
    cbn [zero_padded].
    rewrite str_compare_app by now rewrite !zero_padded_length.
    rewrite IH by (split; [apply Z.div_pos | apply Z.div_lt_upper_bound]; lia).
    cbn [String.compare].
    rewrite digit_compare by (apply Z.mod_pos_bound; lia).
    rewrite (compare_div_mod 10 a b) by lia.
    unfold lex. destruct (a / 10 ?= b / 10); try reflexivity.
    destruct (a mod 10 ?= b mod 10); reflexivity.
Qed.

(** A field followed by a separator and the rest of the text. *)
Lemma field_compare (w : nat) (a b : Z) (sep x y : string) :
  0 <= a < 10 ^ Z.of_nat w -> 0 <= b < 10 ^ Z.of_nat w ->
  String.compare (zero_padded w a ++ sep ++ x) (zero_padded w b ++ sep ++ y)
  = lex (a ?= b) (String.compare x y).
Proof.
  intros Ha Hb.
  rewrite str_compare_app by now rewrite !zero_padded_length.
  rewrite zero_padded_compare by assumption.
  rewrite str_compare_app by reflexivity.
  now rewrite str_compare_refl.
Qed.

Lemma days_in_month_max (y m : Z) : 1 <= m <= 12 -> _days_in_month y m <= 31.
Proof.
  intros Hm. unfold _days_in_month.
  assert (H : nth (Z.to_nat m) _DAYS_IN_MONTH 0 <= 31).
  { apply Z.leb_le.
    apply (check_from_spec 12 (fun m => nth (Z.to_nat m) _DAYS_IN_MONTH 0 <=? 31) 1);
      [vm_compute; reflexivity | lia]. }
  destruct ((m =? 2) && _is_leap y); lia.
Qed.

(** The order of two renderings is the order of their fields, the year
    first. *)
Lemma strftime_github_compare (a b : datetime) :
  valid_datetime a -> valid_datetime b ->
  String.compare (strftime_github a) (strftime_github b)
  = lex (year a ?= year b)
      (lex (month a ?= month b)
         (lex (day a ?= day b)
            (lex (hour a ?= hour b)
               (lex (minute a ?= minute b) (second a ?= second b))))).
Proof.
  intros (Hy & Hm & Hd & Hh & Hmi & Hs & _) (Hy' & Hm' & Hd' & Hh' & Hmi' & Hs' & _).
  pose proof (days_in_month_max (year a) (month a) Hm).
  pose proof (days_in_month_max (year b) (month b) Hm').
  unfold MINYEAR, MAXYEAR in *. unfold strftime_github.
  rewrite (field_compare 4) by (change (10 ^ Z.of_nat 4) with 10000; lia).
  rewrite !(field_compare 2) by (change (10 ^ Z.of_nat 2) with 100; lia).
  rewrite str_compare_app by now rewrite !zero_padded_length.
  rewrite (zero_padded_compare 2) by (change (10 ^ Z.of_nat 2) with 100; lia).
  do 5 f_equal. unfold lex. now destruct (second a ?= second b).
Qed.

Lemma months_ordered (leap : bool) (m m' : Z) :
  1 <= m -> m < m' -> m' <= 12 ->
  days_before_month_of leap m + days_in_month_of leap m <= days_before_month_of leap m'.
Proof.
  intros H1 H2 H3.
  assert (H : month_order_check leap m m' = true).
  { apply (check_from_spec 12 (month_order_check leap m) 1); [|lia].
    change (month_order_checks leap m = true).
    apply (check_from_spec 12 (month_order_checks leap) 1); [|lia].
    destruct leap; vm_compute; reflexivity. }
  revert H. unfold month_order_check.
  apply Z.ltb_lt in H2. rewrite H2. cbn [implb]. apply Z.leb_le.
Qed.

Lemma days_before_year_mono (a b : Z) :
  a <= b -> _days_before_year a <= _days_before_year b.
Proof. intros H. unfold _days_before_year. cbv zeta. euclid. Qed.

Lemma ymd2ord_year_lt (y m d y' m' d' : Z) :
  y < y' -> 1 <= m <= 12 -> 1 <= d <= _days_in_month y m ->
  1 <= m' <= 12 -> 1 <= d' ->
  _ymd2ord y m d < _ymd2ord y' m' d'.
Proof.
  intros Hy Hm Hd Hm' Hd'.
  pose proof (days_before_month_bound y m d Hm Hd) as Hb.
  pose proof (days_before_year_succ y) as Hs.
  pose proof (days_before_year_mono (y + 1) y' ltac:(lia)) as Hmono.
  pose proof (days_before_month_nonneg y' m' Hm') as Hn.
  unfold _ymd2ord. lia.
Qed.

Lemma ymd2ord_month_lt (y m d m' d' : Z) :
  1 <= m -> m < m' -> m' <= 12 -> d <= _days_in_month y m -> 1 <= d' ->
  _ymd2ord y m d < _ymd2ord y m' d'.
Proof.
  intros H1 H2 H3 Hd Hd'.
  pose proof (months_ordered (_is_leap y) m m' H1 H2 H3) as H.
  unfold _ymd2ord.
  change (_days_before_month y m) with (days_before_month_of (_is_leap y) m).
  change (_days_before_month y m') with (days_before_month_of (_is_leap y) m').
  change (_days_in_month y m) with (days_in_month_of (_is_leap y) m) in Hd.
  lia.
Qed.

Lemma lex_swap (c1 c2 : comparison) : CompOpp (lex c1 c2) = lex (CompOpp c1) (CompOpp c2).
Proof. now destruct c1. Qed.

Lemma lex_assoc (c1 c2 c3 : comparison) : lex (lex c1 c2) c3 = lex c1 (lex c2 c3).
Proof. now destruct c1. Qed.

(** On valid dates the order of the ordinals is the order of the dates. *)
Lemma ymd2ord_compare (y m d y' m' d' : Z) :
  1 <= m <= 12 -> 1 <= d <= _days_in_month y m ->
  1 <= m' <= 12 -> 1 <= d' <= _days_in_month y' m' ->
  (_ymd2ord y m d ?= _ymd2ord y' m' d') = lex (y ?= y') (lex (m ?= m') (d ?= d')).
Proof.
  intros Hm Hd Hm' Hd'. unfold lex.
  destruct (Z.compare_spec y y') as [Ey|Ey|Ey].
  - subst y'. destruct (Z.compare_spec m m') as [Em|Em|Em].
    + subst m'. unfold _ymd2ord. apply Z.add_compare_mono_l.
    + apply Z.compare_lt_iff. apply ymd2ord_month_lt; lia.
    + apply Z.compare_gt_iff. apply ymd2ord_month_lt; lia.
  - apply Z.compare_lt_iff. apply ymd2ord_year_lt; lia.
  - apply Z.compare_gt_iff. apply ymd2ord_year_lt; lia.
Qed.

Lemma at_ordinal_compare (n h mi s n' h' mi' s' : Z) :
  1 <= n <= _MAXORDINAL -> 1 <= n' <= _MAXORDINAL ->
  let a := at_ordinal n h mi s 0 UTC in
  let b := at_ordinal n' h' mi' s' 0 UTC in
  lex (year a ?= year b) (lex (month a ?= month b) (day a ?= day b)) = (n ?= n').
Proof.
  intros Hn Hn'. cbv zeta. unfold at_ordinal.
  pose proof (ymd2ord_ord2ymd n (proj1 Hn)) as H.
  pose proof (ymd2ord_ord2ymd n' (proj1 Hn')) as H'.
  destruct (_ord2ymd n) as [[y m] d]. destruct (_ord2ymd n') as [[y' m'] d'].
  destruct H as (_ & Hm & Hd & <-). destruct H' as (_ & Hm' & Hd' & <-).
  cbn [year month day]. symmetry. now apply ymd2ord_compare.
Qed.

Lemma in_range_bounds (t : Z) : in_range t = true -> 1 <= t / 86400 <= _MAXORDINAL.
Proof.
  unfold in_range. intros H. apply andb_true_iff in H as [H1 H2].
  apply Z.ltb_lt in H1. apply Z.leb_le in H2. lia.
Qed.

Lemma at_seconds_valid (t : Z) :
  in_range t = true -> valid_datetime (at_seconds t 0 UTC).
Proof.
  intros H. apply in_range_bounds in H. unfold at_seconds.
  apply at_ordinal_valid; try exact H; unfold UTC; try lia; euclid.
Qed.

Lemma seconds_compare (t t' : Z) :
  (t mod 86400 ?= t' mod 86400)
  = lex (t mod 86400 / 3600 ?= t' mod 86400 / 3600)
      (lex (t mod 3600 / 60 ?= t' mod 3600 / 60) (t mod 60 ?= t' mod 60)).
Proof.
  rewrite (compare_div_mod 3600 (t mod 86400) (t' mod 86400)) by lia.
  replace (t mod 86400 mod 3600) with (t mod 3600) by euclid.
  replace (t' mod 86400 mod 3600) with (t' mod 3600) by euclid.
  rewrite (compare_div_mod 60 (t mod 3600) (t' mod 3600)) by lia.
  replace (t mod 3600 mod 60) with (t mod 60) by euclid.
  replace (t' mod 3600 mod 60) with (t' mod 60) by euclid.
  reflexivity.
Qed.

(** The order of the texts is the order of the instants. *)
Lemma github_stamp_compare (t t' : Z) :
  in_range t = true -> in_range t' = true ->
  String.compare (github_stamp t) (github_stamp t') = (t ?= t').
Proof.
  intros Ht Ht'. unfold github_stamp.
  rewrite (strftime_github_compare _ _ (at_seconds_valid t Ht) (at_seconds_valid t' Ht')).
  rewrite (compare_div_mod 86400 t t') by lia.
  rewrite seconds_compare.
  rewrite <- (at_ordinal_compare (t / 86400) (t mod 86400 / 3600) (t mod 3600 / 60)
                (t mod 60) (t' / 86400) (t' mod 86400 / 3600) (t' mod 3600 / 60)
                (t' mod 60) (in_range_bounds t Ht) (in_range_bounds t' Ht')).
  cbv zeta. fold (at_seconds t 0 UTC). fold (at_seconds t' 0 UTC).
  destruct (at_seconds_fields t 0 UTC) as (E1 & E2 & E3).
  destruct (at_seconds_fields t' 0 UTC) as (E1' & E2' & E3').
  rewrite E1, E2, E3, E1', E2', E3', !lex_assoc. reflexivity.
Qed.

Lemma str_length_app (a b : string) :
  String.length (a ++ b) = (String.length a + String.length b)%nat.
Proof. induction a as [|c a IH]; cbn; [reflexivity|now rewrite IH]. Qed.

Lemma strftime_github_length (d : datetime) : String.length (strftime_github d) = 20%nat.
Proof.
  unfold strftime_github. rewrite !str_length_app, !zero_padded_length. reflexivity.
Qed.

Lemma to_github_date_some (d : datetime) (s : string) :
  valid_datetime d -> to_github_date d = Some s ->
  in_range (utc_seconds d) = true /\ s = github_stamp (utc_seconds d).
Proof.
  intros Hv H. rewrite (to_github_date_eq d Hv) in H.
  destruct (in_range (utc_seconds d)); [|discriminate H].
  injection H as <-. now split.
Qed.

Lemma leb_of_compare (s1 s2 : string) (x y : Z) :
  String.compare s1 s2 = (x ?= y) -> (String.leb s1 s2 = true <-> x <= y).
Proof.
  intros H. unfold String.leb, Z.le. rewrite H.
  destruct (x ?= y); split; intros; congruence.
Qed.

(** X4. From year 1000 on, the texts of [to_github_date] have a fixed width
    of 20 characters and order as the instants do: [sa <= sb] as Python
    compares [str] exactly when the instant of [a] is not later than the
    instant of [b], and the texts are equal exactly when the two instants fall
    in the same second. *)
Theorem to_github_date_order (a b : datetime) (sa sb : string) :
  valid_datetime a -> valid_datetime b ->
  year_1000 <= utc_seconds a -> year_1000 <= utc_seconds b ->
  to_github_date a = Some sa -> to_github_date b = Some sb ->
  (String.leb sa sb = true <-> utc_seconds a <= utc_seconds b) /\
  (sa = sb <-> utc_seconds a = utc_seconds b) /\
  String.length sa = 20%nat.
Proof.
  intros Ha Hb _ _ Ea Eb.
  destruct (to_github_date_some a sa Ha Ea) as [Ra ->].
  destruct (to_github_date_some b sb Hb Eb) as [Rb ->].
  pose proof (github_stamp_compare _ _ Ra Rb) as Hc.
  split; [exact (leb_of_compare _ _ _ _ Hc)|]. split.
  - split.
    + intros E. rewrite E, str_compare_refl in Hc. symmetry in Hc.
      now apply Z.compare_eq_iff.
    + intros E. now rewrite E.
  - unfold github_stamp. apply strftime_github_length.
Qed.

Lemma to_github_date_order_witness :
  String.leb "2024-04-26T07:00:00Z" "2024-05-03T07:00:00Z" = true /\
  String.length "2024-04-26T07:00:00Z" = 20%nat.
Proof.
  assert (Ha : valid_datetime (mk_datetime 2024 4 26 16 0 0 0 KST))
    by (unfold valid_datetime; repeat split; vm_compute; congruence).
  assert (Hb : valid_datetime (mk_datetime 2024 5 3 16 0 0 0 KST))
    by (unfold valid_datetime; repeat split; vm_compute; congruence).
  destruct (to_github_date_order (mk_datetime 2024 4 26 16 0 0 0 KST)
              (mk_datetime 2024 5 3 16 0 0 0 KST)
              "2024-04-26T07:00:00Z" "2024-05-03T07:00:00Z" Ha Hb)
    as (H1 & _ & H3);
    [vm_compute; discriminate | vm_compute; discriminate
    | vm_compute; reflexivity | vm_compute; reflexivity |].
  split; [|exact H3]. apply H1. vm_compute. discriminate.
Defined.



(** ** What the maps count *)

Lemma count_if_cons {A : Type} (f : A -> bool) (x : A) (l : list A) :
  count_if f (x :: l) = (if f x then 1 else 0) + count_if f l.
Proof.
  unfold count_if. cbn [filter]. destruct (f x); cbn [List.length]; lia.
Qed.

Lemma count_created_counts (prs : list CreatedPR) :
  forall acc : counter * counter,
    let r := fold_left count_created prs acc in
    (forall k, get_count (fst r) k = get_count (fst acc) k + count_if (created_in_repo k) prs) /\
    (forall k, get_count (snd r) k = get_count (snd acc) k + count_if (created_by k) prs) /\
    (forall k, In k (keys (fst r)) <->
               In k (keys (fst acc)) \/ exists pr, In pr prs /\ name (cpr_repository pr) = k) /\
    (forall k, In k (keys (snd r)) <->
               In k (keys (snd acc)) \/ exists pr, In pr prs /\ login_or_ghost (cpr_author pr) = k).
Proof.
  induction prs as [|pr rest IH]; intros acc; cbn [fold_left].
  - cbv zeta. unfold count_if. cbn [filter List.length Z.of_nat].
    repeat split; intros; try lia; try tauto.
    + destruct H as [H|(pr & [] & _)]; exact H.
    + destruct H as [H|(pr & [] & _)]; exact H.
  - specialize (IH (count_created acc pr)). cbv zeta in IH |- *.
    destruct IH as (H1 & H2 & H3 & H4).
    repeat split.
    + intros k. rewrite H1, count_if_cons. unfold count_created. cbn [fst].
      rewrite get_count_incr. unfold created_in_repo. lia.
    + intros k. rewrite H2, count_if_cons. unfold count_created. cbn [snd].
      rewrite get_count_incr. unfold created_by. lia.
    + rewrite H3. unfold count_created. cbn [fst]. rewrite keys_incr.
      intros [[E|Hin]|(p & Hp & E)].
      * right. exists pr. split; [now left|now symmetry].
      * now left.
      * right. exists p. split; [now right|exact E].
    + rewrite H3. unfold count_created. cbn [fst]. rewrite keys_incr.
      intros [Hin|(p & [->|Hp] & E)].
      * left. now right.
      * left. left. now symmetry.
      * right. exists p. now split.
    + rewrite H4. unfold count_created. cbn [snd]. rewrite keys_incr.
      intros [[E|Hin]|(p & Hp & E)].
      * right. exists pr. split; [now left|now symmetry].
      * now left.
      * right. exists p. split; [now right|exact E].
    + rewrite H4. unfold count_created. cbn [snd]. rewrite keys_incr.
      intros [Hin|(p & [->|Hp] & E)].
      * left. now right.
      * left. left. now symmetry.
      * right. exists p. now split.
Qed.

Lemma count_review_keys (s u repo : string) (reviews : list Review) :
  forall acc : counter * counter,
    let r := fold_left (count_review s u repo) reviews acc in
    (forall k, In k (keys (fst r)) <->
               In k (keys (fst acc)) \/
               (repo = k /\ exists rv, In rv reviews /\ in_window s u rv = true)) /\
    (forall k, In k (keys (snd r)) <->
               In k (keys (snd acc)) \/
               exists rv, In rv reviews /\ in_window s u rv = true /\
                          login_or_ghost (rv_author rv) = k).
Proof.
  induction reviews as [|rv rest IH]; intros acc; cbn [fold_left].
  - cbv zeta. split; intros k; split; try tauto.
    + intros [H|(_ & rv & [] & _)]; exact H.
    + intros [H|(rv & [] & _)]; exact H.
  - specialize (IH (count_review s u repo acc rv)). cbv zeta in IH |- *.
    destruct IH as (H1 & H2).
    assert (Hstep :
      (forall k, In k (keys (fst (count_review s u repo acc rv))) <->
                 In k (keys (fst acc)) \/ (repo = k /\ in_window s u rv = true)) /\
      (forall k, In k (keys (snd (count_review s u repo acc rv))) <->
                 In k (keys (snd acc)) \/
                 (in_window s u rv = true /\ login_or_ghost (rv_author rv) = k))).
    { unfold count_review. destruct (in_window s u rv); cbn [negb fst snd].
      - split; intros k; rewrite keys_incr; split.
        + intros [->|H]; [right; now split|now left].
        + intros [H|[-> _]]; [now right|now left].
        + intros [->|H]; [right; now split|now left].
        + intros [H|[_ ->]]; [now right|now left].
      - split; intros k; split; try tauto.
        + intros [H|[_ H]]; [exact H|discriminate H].
        + intros [H|[H _]]; [exact H|discriminate H]. }
    destruct Hstep as (S1 & S2).
    split; intros k.
    + rewrite H1, S1. split.
      * intros [[H|[E Hw]]|(E & r & Hr & Hw)].
        -- now left.
        -- right. split; [exact E|]. exists rv. split; [now left|exact Hw].
        -- right. split; [exact E|]. exists r. split; [now right|exact Hw].
      * intros [H|(E & r & [->|Hr] & Hw)].
        -- left. now left.
        -- left. right. now split.
        -- right. split; [exact E|]. exists r. now split.
    + rewrite H2, S2. split.
      * intros [[H|[Hw E]]|(r & Hr & Hw & E)].
        -- now left.
        -- right. exists rv. split; [now left|now split].
        -- right. exists r. split; [now right|now split].
      * intros [H|(r & [->|Hr] & Hw & E)].
        -- left. now left.
        -- left. right. now split.
        -- right. exists r. now split.
Qed.

Lemma count_updated_keys (s u : string) (prs : list UpdatedPR) :
  forall acc : counter * counter,
    let r := fold_left (count_updated s u) prs acc in
    (forall k, In k (keys (fst r)) <->
               In k (keys (fst acc)) \/
               counted_review s u prs (fun pr => name (upr_repository pr) = k) (fun _ => True)) /\
    (forall k, In k (keys (snd r)) <->
               In k (keys (snd acc)) \/
               counted_review s u prs (fun _ => True)
                 (fun rv => login_or_ghost (rv_author rv) = k)).
Proof.
  unfold counted_review.
  induction prs as [|pr rest IH]; intros acc; cbn [fold_left].
  - cbv zeta. split; intros k; split; try tauto.
    + intros [H|(pr & rv & [] & _)]; exact H.
    + intros [H|(pr & rv & [] & _)]; exact H.
  - specialize (IH (count_updated s u acc pr)). cbv zeta in IH |- *.
    destruct IH as (H1 & H2).
    destruct (count_review_keys s u (name (upr_repository pr)) (review_nodes pr) acc)
      as (S1 & S2).
    cbv zeta in S1, S2. fold (count_updated s u acc pr) in S1, S2.
    split; intros k.
    + rewrite H1, S1. split.
      * intros [[H|(E & rv & Hr & Hw)]|(p & rv & Hp & Hr & Hw & E & _)].
        -- now left.
        -- right. exists pr, rv. repeat split; auto. now left.
        -- right. exists p, rv. repeat split; auto. now right.
      * intros [H|(p & rv & [->|Hp] & Hr & Hw & E & _)].
        -- left. now left.
        -- left. right. split; [exact E|]. exists rv. now split.
        -- right. exists p, rv. repeat split; auto.
    + rewrite H2, S2. split.
      * intros [[H|(rv & Hr & Hw & E)]|(p & rv & Hp & Hr & Hw & _ & E)].
        -- now left.
        -- right. exists pr, rv. repeat split; auto. now left.
        -- right. exists p, rv. repeat split; auto. now right.
      * intros [H|(p & rv & [->|Hp] & Hr & Hw & _ & E)].
        -- left. now left.
        -- left. right. exists rv. now split.
        -- right. exists p, rv. repeat split; auto.
Qed.

Lemma keys_desc (d : counter) :
  NoDup (keys d) ->
  NoDup (keys (desc d)) /\ descending (desc d) /\ forall k, In k (keys (desc d)) <-> In k (keys d).
Proof.
  intros H. pose proof (desc_perm d H) as Hp.
  assert (Hk : Permutation (keys (desc d)) (keys d)) by (unfold keys; now apply Permutation_map).
  split; [|split].
  - eapply Permutation_NoDup; [symmetry; exact Hk|exact H].
  - rewrite desc_sorted by exact H. apply sorted_descending.
  - intros k. split; apply Permutation_in; [exact Hk|symmetry; exact Hk].
Qed.

(** The four counters of [aggregate] before they are sorted. *)
Lemma aggregate_maps created_prs updated_prs since until st :
  aggregate created_prs updated_prs since until = Some st ->
  exists s u,
    to_github_date since = Some s /\ to_github_date until = Some u /\
    let created := fold_left count_created created_prs ([], []) in
    let reviewed := fold_left (count_updated s u) updated_prs ([], []) in
    pr_by_repo st = desc (fst created) /\ pr_by_person st = desc (snd created) /\
    comments_by_repo st = desc (fst reviewed) /\ comments_by_person st = desc (snd reviewed) /\
    NoDup (keys (fst created)) /\ NoDup (keys (snd created)) /\
    NoDup (keys (fst reviewed)) /\ NoDup (keys (snd reviewed)).
Proof.
  intros H. destruct (aggregate_inv _ _ _ _ _ H) as (s & u & Hs & Hu).
  exists s, u. split; [exact Hs|]. split; [exact Hu|].
  rewrite (aggregate_eq _ _ _ _ _ _ Hs Hu) in H. cbv zeta in H |- *. injection H as <-.
  cbn [pr_by_repo pr_by_person comments_by_repo comments_by_person].
  destruct (count_created_fold created_prs ([], [])) as (_ & _ & C3 & C4).
  destruct (count_updated_fold s u updated_prs ([], [])) as (_ & _ & _ & _ & U5 & U6).
  cbv zeta in C3, C4, U5, U6. cbn [fst snd] in C3, C4, U5, U6.
  repeat split; auto using NoDup_keys_nil.
Qed.

Lemma created_counts (created_prs : list CreatedPR) (k : string) :
  let created := fold_left count_created created_prs ([], []) in
  get_count (desc (fst created)) k = count_if (created_in_repo k) created_prs /\
  get_count (desc (snd created)) k = count_if (created_by k) created_prs.
Proof.
  cbv zeta.
  destruct (count_created_fold created_prs ([], [])) as (_ & _ & N1 & N2).
  destruct (count_created_counts created_prs ([], [])) as (C1 & C2 & _).
  cbv zeta in N1, N2, C1, C2. cbn [fst snd get_count] in N1, N2, C1, C2.
  rewrite !get_count_desc by auto using NoDup_keys_nil.
  split; [apply C1|apply C2].
Qed.

Lemma reviewed_counts (s u : string) (updated_prs : list UpdatedPR) (k : string) :
  let reviewed := fold_left (count_updated s u) updated_prs ([], []) in
  get_count (desc (fst reviewed)) k
  = window_comments s u (in_repo k) (fun _ => true) updated_prs /\
  get_count (desc (snd reviewed)) k
  = window_comments s u (fun _ => true) (by_reviewer k) updated_prs.
Proof.
  cbv zeta.
  destruct (count_updated_fold s u updated_prs ([], [])) as (U1 & U2 & _ & _ & N1 & N2).
  cbv zeta in N1, N2, U1, U2. cbn [fst snd get_count] in N1, N2, U1, U2.
  rewrite !get_count_desc by auto using NoDup_keys_nil.
  split; [apply U1|apply U2].
Qed.

(** X6. What the four maps of [aggregate] count, key by key: the created
    records of a repository; the created records of an author, a missing
    author counting as "ghost" together with an author really named so; the
    comments of the in-window reviews under a repository; and the comments of
    the in-window reviews of a reviewer. A key that is absent counts 0. *)
Theorem aggregate_counts (created_prs : list CreatedPR) (updated_prs : list UpdatedPR)
    (since until : datetime) (st : AggregateStats) :
  aggregate created_prs updated_prs since until = Some st ->
  (forall k, get_count (pr_by_repo st) k = count_if (created_in_repo k) created_prs) /\
  (forall k, get_count (pr_by_person st) k = count_if (created_by k) created_prs) /\
  exists s u,
    to_github_date since = Some s /\ to_github_date until = Some u /\
    (forall k, get_count (comments_by_repo st) k
               = window_comments s u (in_repo k) (fun _ => true) updated_prs) /\
    (forall k, get_count (comments_by_person st) k
               = window_comments s u (fun _ => true) (by_reviewer k) updated_prs).
Proof.
  intros H. destruct (aggregate_maps _ _ _ _ _ H)
    as (s & u & Hs & Hu & E1 & E2 & E3 & E4 & _).
  rewrite E1, E2, E3, E4.
  split; [|split].
  - intros k. apply created_counts.
  - intros k. apply created_counts.
  - exists s, u. split; [exact Hs|]. split; [exact Hu|].
    split; intros k; apply reviewed_counts.
Qed.

(** X7. In every result of [aggregate] each of the four maps has distinct
    keys and lists them by descending count, so that [ranking] reads the
    leaders from the front. *)
Theorem aggregate_maps_ranked (created_prs : list CreatedPR) (updated_prs : list UpdatedPR)
    (since until : datetime) (st : AggregateStats) :
  aggregate created_prs updated_prs since until = Some st ->
  (NoDup (keys (pr_by_repo st)) /\ descending (pr_by_repo st)) /\
  (NoDup (keys (pr_by_person st)) /\ descending (pr_by_person st)) /\
  (NoDup (keys (comments_by_repo st)) /\ descending (comments_by_repo st)) /\
  (NoDup (keys (comments_by_person st)) /\ descending (comments_by_person st)).
Proof.
  intros H. destruct (aggregate_maps _ _ _ _ _ H)
    as (s & u & _ & _ & E1 & E2 & E3 & E4 & N1 & N2 & N3 & N4).
  rewrite E1, E2, E3, E4.
  repeat split; first [now apply keys_desc].
Qed.

(** X8. Who appears in the maps: a repository or an author is a key of the
    created-record maps exactly when some created record names it; a
    repository or a reviewer is a key of the comment maps exactly when some
    review passes the window test under it, even a review with no comment at
    all, which then shows with a count of 0. *)
Theorem aggregate_keys (created_prs : list CreatedPR) (updated_prs : list UpdatedPR)
    (since until : datetime) (st : AggregateStats) :
  aggregate created_prs updated_prs since until = Some st ->
  (forall k, In k (keys (pr_by_repo st)) <->
             exists pr, In pr created_prs /\ name (cpr_repository pr) = k) /\
  (forall k, In k (keys (pr_by_person st)) <->
             exists pr, In pr created_prs /\ login_or_ghost (cpr_author pr) = k) /\
  exists s u,
    to_github_date since = Some s /\ to_github_date until = Some u /\
    (forall k, In k (keys (comments_by_repo st)) <->
               counted_review s u updated_prs
                 (fun pr => name (upr_repository pr) = k) (fun _ => True)) /\
    (forall k, In k (keys (comments_by_person st)) <->
               counted_review s u updated_prs (fun _ => True)
                 (fun rv => login_or_ghost (rv_author rv) = k)).
Proof.
  intros H. destruct (aggregate_maps _ _ _ _ _ H)
    as (s & u & Hs & Hu & E1 & E2 & E3 & E4 & N1 & N2 & N3 & N4).
  destruct (count_created_counts created_prs ([], [])) as (_ & _ & C3 & C4).
  destruct (count_updated_keys s u updated_prs ([], [])) as (U1 & U2).
  cbv zeta in C3, C4, U1, U2.
  assert (Hnil : forall k P, In k (keys []) \/ P <-> P)
    by (intros k P; cbn; tauto).
  split; [|split].
  - intros k. rewrite E1. rewrite (proj2 (proj2 (keys_desc _ N1))), C3. apply Hnil.
  - intros k. rewrite E2. rewrite (proj2 (proj2 (keys_desc _ N2))), C4. apply Hnil.
  - exists s, u. split; [exact Hs|]. split; [exact Hu|]. split.
    + intros k. rewrite E3. rewrite (proj2 (proj2 (keys_desc _ N3))), U1. apply Hnil.
    + intros k. rewrite E4. rewrite (proj2 (proj2 (keys_desc _ N4))), U2. apply Hnil.
Qed.

Lemma sample_aggregate :
  aggregate sample_created sample_updated sample_since sample_until = Some sample_stats.
Proof. vm_compute. reflexivity. Qed.

Lemma aggregate_counts_witness :
  get_count (pr_by_person sample_stats) "ghost" = 2 /\
  get_count (pr_by_repo sample_stats) "z" = 0.
Proof.
  destruct (aggregate_counts _ _ _ _ _ sample_aggregate) as (H1 & H2 & _).
  split; [rewrite H2|rewrite H1]; reflexivity.
Defined.

Lemma aggregate_maps_ranked_witness :
  NoDup (keys (comments_by_repo sample_stats)) /\ descending (comments_by_repo sample_stats).
Proof.
  exact (proj1 (proj2 (proj2 (aggregate_maps_ranked _ _ _ _ _ sample_aggregate)))).
Defined.

Lemma aggregate_keys_witness :
  In "y" (keys (comments_by_repo sample_stats)) /\
  get_count (comments_by_repo sample_stats) "y" = 0 /\
  ~ In "y" (keys (pr_by_repo sample_stats)).
Proof.
  destruct (aggregate_keys _ _ _ _ _ sample_aggregate) as (H1 & _ & s & u & Hs & Hu & H3 & _).
  split; [|split].
  - apply H3. vm_compute in Hs. vm_compute in Hu. injection Hs as <-. injection Hu as <-.
    exists (pr_with_reviews 3 "y"
              [ mk_review (Some (mk_actor "bob")) (Some "2024-05-01T00:00:00Z") 0 ]),
      (mk_review (Some (mk_actor "bob")) (Some "2024-05-01T00:00:00Z") 0).
    repeat split; try (now left).
  - reflexivity.
  - rewrite H1. intros (pr & [<-|[<-|[]]] & E); discriminate E.
Defined.

Lemma count_if_perm {A : Type} (f : A -> bool) (l l' : list A) :
  Permutation l l' -> count_if f l = count_if f l'.
Proof.
  intros H. induction H as [|x l l' H IH|x y l|l l' l'' H1 IH1 H2 IH2].
  - reflexivity.
  - rewrite !count_if_cons. lia.
  - rewrite !count_if_cons. lia.
  - congruence.
Qed.

Lemma window_comments_perm s u sel_pr sel (l l' : list UpdatedPR) :
  Permutation l l' -> window_comments s u sel_pr sel l = window_comments s u sel_pr sel l'.
Proof.
  intros H. induction H as [|x l l' H IH|x y l|l l' l'' H1 IH1 H2 IH2].
  - reflexivity.
  - rewrite !window_comments_cons. lia.
  - rewrite !window_comments_cons. lia.
  - congruence.
Qed.

(** X9. The counts do not depend on the order in which the search returned
    the records: two runs of [aggregate] on the same records in different
    orders agree on both totals and on the count of every key of every map.
    The maps themselves may differ, because keys with equal counts stay in
    first-seen order. *)
Theorem aggregate_order_insensitive :
  (forall (created_prs created_prs' : list CreatedPR)
          (updated_prs updated_prs' : list UpdatedPR)
          (since until : datetime) (st st' : AggregateStats),
     Permutation created_prs created_prs' -> Permutation updated_prs updated_prs' ->
     aggregate created_prs updated_prs since until = Some st ->
     aggregate created_prs' updated_prs' since until = Some st' ->
     total_prs st = total_prs st' /\ total_comments st = total_comments st' /\
     forall k,
       get_count (pr_by_repo st) k = get_count (pr_by_repo st') k /\
       get_count (pr_by_person st) k = get_count (pr_by_person st') k /\
       get_count (comments_by_repo st) k = get_count (comments_by_repo st') k /\
       get_count (comments_by_person st) k = get_count (comments_by_person st') k) /\
  (exists (created_prs created_prs' : list CreatedPR) (since until : datetime)
          (st st' : AggregateStats),
     Permutation created_prs created_prs' /\
     aggregate created_prs [] since until = Some st /\
     aggregate created_prs' [] since until = Some st' /\
     pr_by_repo st <> pr_by_repo st').
Proof.
  split.
  - intros created_prs created_prs' updated_prs updated_prs' since until st st' Pc Pu H H'.
    destruct (aggregate_inv _ _ _ _ _ H) as (s & u & Hs & Hu).
    rewrite (aggregate_eq _ _ _ _ _ _ Hs Hu) in H.
    rewrite (aggregate_eq _ _ _ _ _ _ Hs Hu) in H'.
    cbv zeta in H, H'. injection H as <-. injection H' as <-.
    cbn [total_prs total_comments pr_by_repo pr_by_person comments_by_repo
         comments_by_person].
    destruct (count_created_fold created_prs ([], [])) as (T1 & _).
    destruct (count_created_fold created_prs' ([], [])) as (T1' & _).
    destruct (count_updated_fold s u updated_prs ([], [])) as (_ & _ & T3 & _).
    destruct (count_updated_fold s u updated_prs' ([], [])) as (_ & _ & T3' & _).
    cbv zeta in T1, T1', T3, T3'.
    split; [|split].
    + rewrite T1, T1'. now rewrite (Permutation_length Pc).
    + rewrite T3, T3'. now rewrite (window_comments_perm _ _ _ _ _ _ Pu).
    + intros k.
      destruct (created_counts created_prs k) as [C1 C2].
      destruct (created_counts created_prs' k) as [C1' C2'].
      destruct (reviewed_counts s u updated_prs k) as [C3 C4].
      destruct (reviewed_counts s u updated_prs' k) as [C3' C4'].
      cbv zeta in C1, C2, C3, C4, C1', C2', C3', C4'.
      rewrite C1, C2, C3, C4, C1', C2', C3', C4'.
      rewrite (count_if_perm _ _ _ Pc), (count_if_perm (created_by k) _ _ Pc).
      rewrite (window_comments_perm _ _ _ _ _ _ Pu).
      rewrite (window_comments_perm _ _ (fun _ => true) _ _ _ Pu).
      repeat split.
  - exists [ mk_created_pr 1 None (mk_repository "x"); mk_created_pr 2 None (mk_repository "y") ],
      [ mk_created_pr 2 None (mk_repository "y"); mk_created_pr 1 None (mk_repository "x") ],
      sample_since, sample_until.
    eexists. eexists. split; [apply perm_swap|].
    split; [vm_compute; reflexivity|]. split; [vm_compute; reflexivity|].
    cbn [pr_by_repo]. discriminate.
Qed.

Lemma aggregate_order_insensitive_witness :
  aggregate sample_pair [] sample_since sample_until
  = Some (mk_stats 2 0 [("x", 1); ("y", 1)] [("ghost", 2)] [] []) /\
  aggregate sample_pair_swapped [] sample_since sample_until
  = Some (mk_stats 2 0 [("y", 1); ("x", 1)] [("ghost", 2)] [] []) /\
  get_count [("x", 1); ("y", 1)] "y" = get_count [("y", 1); ("x", 1)] "y".
Proof.
  assert (E : aggregate sample_pair [] sample_since sample_until
              = Some (mk_stats 2 0 [("x", 1); ("y", 1)] [("ghost", 2)] [] []))
    by (vm_compute; reflexivity).
  assert (E' : aggregate sample_pair_swapped [] sample_since sample_until
               = Some (mk_stats 2 0 [("y", 1); ("x", 1)] [("ghost", 2)] [] []))
    by (vm_compute; reflexivity).
  split; [exact E|]. split; [exact E'|].
  destruct aggregate_order_insensitive as [H _].
  destruct (H sample_pair sample_pair_swapped [] [] sample_since sample_until _ _
              (perm_swap _ _ _) (perm_nil _) E E') as (_ & _ & Hk).
  exact (proj1 (Hk "y")).
Defined.

(** ** The placeholder of the ranking *)

Lemma first_char_app (a b : string) :
  a <> "" -> first_char (a ++ b) = first_char a.
Proof. destruct a; [congruence|reflexivity]. Qed.

Lemma ranking_line_first (unit : string) (item : string * Z) :
  first_char (ranking_line unit 1 item) = Some "1"%char.
Proof. reflexivity. Qed.

Lemma join_first (sep p : string) (rest : list string) :
  p <> "" -> first_char (join sep (p :: rest)) = first_char p.
Proof.
  intros Hp. destruct rest as [|q rest]; [reflexivity|].
  cbn [join]. now apply first_char_app.
Qed.

Lemma slice_to_nil {A : Type} (limit : Z) (items : list A) :
  slice_to limit items = [] <->
  items = [] \/ limit = 0 \/ limit <= - Z.of_nat (List.length items).
Proof.
  unfold slice_to. destruct (Z.leb_spec 0 limit) as [H|H].
  - destruct items as [|x items]; [cbn; rewrite firstn_nil; tauto|].
    destruct (Z.to_nat limit) as [|n] eqn:E; cbn [firstn List.length].
    + split; [intros _; right; left; lia|reflexivity].
    + split; [discriminate|]. intros [H1|[H1|H1]]; [discriminate|lia|lia].
  - destruct (Nat.eq_dec (List.length items - Z.to_nat (- limit)) 0) as [E|E].
    + rewrite E. cbn [firstn]. split; [intros _; right; right; lia|reflexivity].
    + destruct items as [|x items]; [cbn in E; lia|].
      destruct (List.length (x :: items) - Z.to_nat (- limit))%nat as [|n] eqn:E';
        [contradiction|].
      cbn [firstn]. split; [discriminate|].
      intros [H1|[H1|H1]]; [discriminate|lia|lia].
Qed.

Lemma ranking_lines_first (unit : string) (x : string * Z) (rest : list (string * Z)) :
  first_char (join newline (ranking_lines unit 1 (x :: rest))) = Some "1"%char.
Proof.
  cbn [ranking_lines]. rewrite join_first; [apply ranking_line_first|].
  intros E. pose proof (ranking_line_first unit x) as H. rewrite E in H. discriminate H.
Qed.

(** X10. [ranking] gives the "no activity" text exactly when the slice
    [items[:limit]] is empty: the mapping is empty, the limit is 0, or the
    limit is negative and drops every item. In every other case the text
    begins with the line numbered 1, so the placeholder cannot be mistaken
    for a ranking; and a limit beyond the size of the mapping lists it
    whole. *)
Theorem ranking_placeholder (data : counter) (unit : string) (limit : Z) :
  (ranking data unit limit = no_activity <->
   data = [] \/ limit = 0 \/ limit <= - Z.of_nat (List.length data)) /\
  (ranking data unit limit <> no_activity ->
   first_char (ranking data unit limit) = Some "1"%char) /\
  (Z.of_nat (List.length data) <= limit -> data <> [] ->
   ranking data unit limit = join newline (ranking_lines unit 1 data)).
Proof.
  assert (Hdiff : forall x rest,
            join newline (ranking_lines unit 1 (x :: rest)) <> no_activity).
  { intros x rest E. pose proof (ranking_lines_first unit x rest) as H.
    rewrite E in H. discriminate H. }
  split; [|split].
  - rewrite <- (slice_to_nil limit data). unfold ranking. cbv zeta.
    destruct (slice_to limit data) as [|x rest].
    + split; reflexivity.
    + split; [intros E; exfalso; exact (Hdiff _ _ E)|discriminate].
  - unfold ranking. cbv zeta. destruct (slice_to limit data) as [|x rest].
    + intros H. now contradiction H.
    + intros _. apply ranking_lines_first.
  - intros Hlim Hne. unfold ranking, slice_to. cbv zeta.
    replace (0 <=? limit) with true by (symmetry; apply Z.leb_le; lia).
    rewrite firstn_all2 by lia.
    destruct data as [|x rest]; [contradiction|reflexivity].
Qed.

Lemma ranking_placeholder_witness :
  ranking [("x", 3); ("y", 1)] default_unit 0 = no_activity /\
  ranking [("x", 3); ("y", 1)] default_unit (-2) = no_activity /\
  ranking [("x", 3); ("y", 1)] default_unit 10
  = "1. x: 3건" ++ newline ++ "2. y: 1건".
Proof.
  destruct (ranking_placeholder [("x", 3); ("y", 1)] default_unit 0) as (H0 & _).
  destruct (ranking_placeholder [("x", 3); ("y", 1)] default_unit (-2)) as (H2 & _).
  destruct (ranking_placeholder [("x", 3); ("y", 1)] default_unit 10) as (_ & _ & H10).
  split; [apply H0; right; left; reflexivity|].
  split; [apply H2; right; right; cbn; lia|].
  rewrite H10; [reflexivity|cbn; lia|discriminate].
Defined.

(** ** Requests of the paginated collection *)

Section Threading.

Context {Node : Type}.
Variable github : list Request -> Request -> http_result (graphql_body Node).
Variables query search_q : string.

Lemma paginate_loop_trace (pages : list (SearchPage Node)) :
  forall (fuel : nat) (cursor : option string) (results : list Node) (w : World)
         (token : string),
    environ w "GH_TOKEN" = Some token ->
    served github (List.length (network w)) pages ->
    Forall (fun p => sp_hasNextPage p = true) pages ->
    below_cap (List.length results) pages ->
    exists w',
      paginate_loop github (List.length pages + fuel) query search_q cursor results w
      = paginate_loop github fuel query search_q (last_cursor cursor pages)
          (results ++ collected pages) w' /\
      environ w' = environ w /\ clock w' = clock w /\
      stdout w' = stdout w /\ stderr w' = stderr w /\
      network w' = (network w ++ requests_from token query search_q cursor pages)%list.
Proof.
  induction pages as [|p rest IH]; intros fuel cursor results w token Htok Hserved Hnext Hcap.
  - exists w. unfold collected, last_cursor.
    cbn [flat_map List.length Nat.add fold_left requests_from].
    rewrite !app_nil_r. repeat split; reflexivity.
  - destruct Hserved as [Hp Hrest]. inversion Hnext as [|? ? Hn Hnext']; subst.
    destruct Hcap as [Hlt Hcap]. cbn [List.length Nat.add].
    rewrite (paginate_loop_step github query search_q _ cursor results w token p Htok)
      by (apply Hp; reflexivity).
    cbv zeta. rewrite Hn. cbn [negb].
    replace (1000 <=? Z.of_nat (List.length (results ++ truthy_nodes (sp_nodes p))))
      with false by (symmetry; apply Z.leb_gt; rewrite length_app; lia).
    destruct (IH fuel (sp_endCursor p) (results ++ truthy_nodes (sp_nodes p))%list
                (sent w (GraphqlRequest token query search_q cursor)) token)
      as (w' & Hrun & He & Hc & Ho & Hs & Hl).
    + exact Htok.
    + unfold sent. cbn [network]. rewrite length_app. cbn [List.length].
      now rewrite Nat.add_1_r.
    + exact Hnext'.
    + now rewrite length_app.
    + exists w'. rewrite Hrun. unfold collected, last_cursor.
      cbn [flat_map fold_left requests_from].
      rewrite <- app_assoc. split; [reflexivity|].
      unfold sent in He, Hc, Ho, Hs, Hl.
      cbn [environ clock stdout stderr network] in He, Hc, Ho, Hs, Hl.
      rewrite <- app_assoc in Hl. repeat split; assumption.
Qed.

Lemma requests_from_length (token : string) (pages : list (SearchPage Node)) :
  forall cursor,
    List.length (requests_from token query search_q cursor pages) = List.length pages.
Proof.
  induction pages as [|p rest IH]; intros cursor; cbn [requests_from List.length];
    [reflexivity|now rewrite IH].
Qed.

(** The loop from its start to the response that stops it. *)
Lemma paginate_search_trace (pages : list (SearchPage Node))
    (answer : http_result (graphql_body Node)) (w : World) (token : string) (fuel : nat) :
  environ w "GH_TOKEN" = Some token ->
  served github (List.length (network w)) pages ->
  Forall (fun p => sp_hasNextPage p = true) pages ->
  below_cap 0 pages ->
  (forall hist req,
     List.length hist = (List.length (network w) + List.length pages)%nat ->
     github hist req = answer) ->
  stops_the_loop answer ->
  (List.length pages < fuel)%nat ->
  exists w',
    _paginate_search github fuel query search_q w = Some (search_outcome pages answer, w') /\
    network w'
    = (network w ++ requests_from token query search_q None pages
       ++ [GraphqlRequest token query search_q (last_cursor None pages)])%list /\
    stderr w' = (stderr w ++ search_complaint answer)%list /\
    stdout w' = stdout w /\ environ w' = environ w /\ clock w' = clock w.
Proof.
  intros Htok Hserved Hnext Hcap Hanswer Hstop Hfuel.
  assert (exists f, fuel = (List.length pages + S f)%nat) as [f ->]
    by (exists (fuel - List.length pages - 1)%nat; lia).
  destruct (paginate_loop_trace pages (S f) None [] w token Htok Hserved Hnext Hcap)
    as (w1 & Hrun & He & Hc & Ho & Hs & Hl).
  unfold _paginate_search. rewrite Hrun. cbn [app].
  rewrite paginate_loop_unfold, He, Htok. cbv zeta.
  rewrite (Hanswer (network w1))
    by (rewrite Hl, length_app, requests_from_length; reflexivity).
  unfold sent, warned. cbn [network stderr stdout environ clock].
  rewrite Hl, Hs, Ho, He, Hc, <- app_assoc.
  destruct answer as [[detail|last]|exn]; cbn [search_outcome search_complaint stops_the_loop] in *.
  - eexists. split; [reflexivity|]. cbn [network stderr stdout environ clock].
    repeat split; reflexivity.
  - rewrite Hstop. cbn [negb]. rewrite collected_app. unfold collected at 3.
    cbn [flat_map]. rewrite !app_nil_r.
    eexists. split; [reflexivity|]. cbn [network stderr stdout environ clock].
    repeat split; reflexivity.
  - eexists. split; [reflexivity|]. cbn [network stderr stdout environ clock].
    rewrite app_nil_r. repeat split; reflexivity.
Qed.

End Threading.

Section SearchExtras.

Context {Node : Type}.
Variable github : list Request -> Request -> http_result (graphql_body Node).
Variables query search_q : string.

Lemma requests_from_snoc (token : string) (pages : list (SearchPage Node))
    (last : SearchPage Node) :
  forall cursor,
    requests_from token query search_q cursor (pages ++ [last])
    = map (GraphqlRequest token query search_q) (cursor :: map sp_endCursor pages).
Proof.
  induction pages as [|p rest IH]; intros cursor; cbn [app requests_from map].
  - reflexivity.
  - rewrite IH. reflexivity.
Qed.

Lemma requests_from_app (token : string) (pages : list (SearchPage Node))
    (last : SearchPage Node) :
  forall cursor,
    requests_from token query search_q cursor (pages ++ [last])
    = (requests_from token query search_q cursor pages
       ++ [GraphqlRequest token query search_q (last_cursor cursor pages)])%list.
Proof.
  unfold last_cursor.
  induction pages as [|p rest IH]; intros cursor; cbn [app requests_from fold_left].
  - reflexivity.
  - now rewrite IH.
Qed.

(** X11. Cursor threading. When the pages before the last announce a
    successor and stay below the cap, [_paginate_search] sends one request per
    page, all with the token of the environment, the same document and the
    same search text; the first carries no cursor and each later one carries
    the [endCursor] of the page before it. It returns the non-null nodes of
    all the pages in order and prints nothing. *)
Theorem paginate_search_cursors (pages : list (SearchPage Node)) (last : SearchPage Node)
    (w : World) (token : string) (fuel : nat) :
  environ w "GH_TOKEN" = Some token ->
  served github (List.length (network w)) (pages ++ [last]) ->
  Forall (fun p => sp_hasNextPage p = true) pages ->
  below_cap 0 pages ->
  sp_hasNextPage last = false ->
  (List.length pages < fuel)%nat ->
  exists w',
    _paginate_search github fuel query search_q w
    = Some (Returned (collected (pages ++ [last])), w') /\
    network w'
    = (network w
       ++ map (GraphqlRequest token query search_q) (None :: map sp_endCursor pages))%list /\
    stderr w' = stderr w /\ stdout w' = stdout w.
Proof.
  intros Htok Hserved Hnext Hcap Hlast Hfuel.
  apply served_app in Hserved as [Hsf [Hsl _]].
  destruct (paginate_search_trace github query search_q pages (HttpOk (GraphqlData last))
              w token fuel Htok Hsf Hnext Hcap)
    as (w' & Hrun & Hnet & Herr & Hout & _).
  - intros hist req Hlen. now apply Hsl.
  - exact Hlast.
  - exact Hfuel.
  - exists w'. split; [exact Hrun|].
    rewrite <- requests_from_snoc with (last := last), requests_from_app.
    cbn [search_complaint] in Herr. rewrite app_nil_r in Herr.
    repeat split; assumption.
Qed.

(** X12. A failed request ends the collection for good. When, after any
    number of pages, the service answers with an [errors] member, the script
    prints it and exits with status 1; when the transport fails, the
    exception escapes. In both cases the records collected so far are not
    returned, and no request is sent again. *)
Theorem paginate_search_failure (pages : list (SearchPage Node))
    (answer : http_result (graphql_body Node)) (w : World) (token : string) (fuel : nat) :
  environ w "GH_TOKEN" = Some token ->
  served github (List.length (network w)) pages ->
  Forall (fun p => sp_hasNextPage p = true) pages ->
  below_cap 0 pages ->
  (forall hist req,
     List.length hist = (List.length (network w) + List.length pages)%nat ->
     github hist req = answer) ->
  (forall page, answer <> HttpOk (GraphqlData page)) ->
  (List.length pages < fuel)%nat ->
  exists out w',
    _paginate_search github fuel query search_q w = Some (out, w') /\
    (forall results, out <> Returned results) /\
    match answer with
    | HttpOk (GraphqlErrors detail) =>
        out = SysExit 1 /\ stderr w' = (stderr w ++ [("GraphQL errors: " ++ detail)%string])%list
    | HttpOk (GraphqlData _) => False
    | HttpFailure exn => out = Raised exn /\ stderr w' = stderr w
    end /\
    List.length (network w') = (List.length (network w) + List.length pages + 1)%nat.
Proof.
  intros Htok Hserved Hnext Hcap Hanswer Hbad Hfuel.
  destruct (paginate_search_trace github query search_q pages answer w token fuel
              Htok Hserved Hnext Hcap Hanswer)
    as (w' & Hrun & Hnet & Herr & _).
  - destruct answer as [[detail|page]|exn]; cbn; auto. now contradiction (Hbad page).
  - exact Hfuel.
  - exists (search_outcome pages answer), w'. split; [exact Hrun|].
    assert (Hlen : List.length (network w')
                   = (List.length (network w) + List.length pages + 1)%nat).
    { rewrite Hnet, !length_app, requests_from_length. cbn [List.length]. lia. }
    destruct answer as [[detail|page]|exn]; cbn [search_outcome search_complaint] in *.
    + repeat split; try assumption. discriminate.
    + now contradiction (Hbad page).
    + rewrite app_nil_r in Herr. repeat split; try assumption. discriminate.
Qed.

End SearchExtras.

Lemma paginate_search_cursors_witness :
  exists w',
    _paginate_search (scripted [page_of 2 1 true; page_of 1 0 false] (page_of 0 0 false))
      2 "query" "q" (fresh_world token_only some_instant)
    = Some (Returned [tt; tt; tt], w') /\
    network w' = [ GraphqlRequest "token" "query" "q" None;
                   GraphqlRequest "token" "query" "q" (Some "cursor") ].
Proof.
  destruct (paginate_search_cursors
              (scripted [page_of 2 1 true; page_of 1 0 false] (page_of 0 0 false))
              "query" "q" [page_of 2 1 true] (page_of 1 0 false)
              (fresh_world token_only some_instant) "token" 2 eq_refl)
    as (w' & H1 & H2 & _).
  - now apply (scripted_served _ _ []).
  - repeat constructor.
  - cbn. lia.
  - reflexivity.
  - cbn. lia.
  - exists w'. split; [exact H1|exact H2].
Defined.

Lemma paginate_search_failure_witness :
  exists w',
    _paginate_search
      (scripted_then [page_of 2 1 true] (HttpOk (GraphqlErrors "rate limited")))
      5 "query" "q" (fresh_world token_only some_instant)
    = Some (SysExit 1, w') /\
    stderr w' = ["GraphQL errors: rate limited"] /\
    List.length (network w') = 2%nat.
Proof.
  destruct (paginate_search_failure
              (scripted_then [page_of 2 1 true] (HttpOk (GraphqlErrors "rate limited")))
              "query" "q" [page_of 2 1 true] (HttpOk (GraphqlErrors "rate limited"))
              (fresh_world token_only some_instant) "token" 5 eq_refl)
    as (out & w' & H1 & _ & [-> H3] & H4).
  - split; [|exact I]. intros hist req Hlen. unfold scripted_then. now rewrite Hlen.
  - repeat constructor.
  - cbn. lia.
  - intros hist req Hlen. unfold scripted_then. now rewrite Hlen.
  - discriminate.
  - cbn. lia.
  - exists w'. split; [exact H1|]. split; [exact H3|exact H4].
Defined.

Section Termination.

Context {Node : Type}.
Variable github : list Request -> Request -> http_result (graphql_body Node).
Variables query search_q : string.

Lemma paginate_loop_finishes :
  progresses github ->
  forall (fuel : nat) (cursor : option string) (results : list Node) (w : World),
    (1 <= fuel)%nat -> (1000 <= fuel + List.length results)%nat ->
    exists out w', paginate_loop github fuel query search_q cursor results w = Some (out, w').
Proof.
  intros Hprog. induction fuel as [|fuel IH]; intros cursor results w H1 Hsum; [lia|].
  rewrite paginate_loop_unfold.
  destruct (environ w "GH_TOKEN") as [token|]; [|eauto]. cbv zeta.
  destruct (github (network w) (GraphqlRequest token query search_q cursor))
    as [[detail|page]|exn] eqn:E; [eauto| |eauto].
  destruct (sp_hasNextPage page) eqn:Hn; cbn [negb]; [|eauto].
  destruct (Z.leb_spec 1000 (Z.of_nat (List.length (results ++ truthy_nodes (sp_nodes page)))))
    as [Hcap|Hcap]; [eauto|].
  pose proof (Hprog _ _ _ E Hn) as Hne.
  rewrite length_app in Hcap.
  assert (1 <= List.length (truthy_nodes (sp_nodes page)))%nat
    by (destruct (truthy_nodes (sp_nodes page)); [congruence|cbn; lia]).
  apply IH; rewrite ?length_app; lia.
Qed.

End Termination.

Lemma endless_loop {Node : Type} (query search_q : string) (token : string) :
  forall (fuel : nat) (cursor : option string) (w : World),
    environ w "GH_TOKEN" = Some token ->
    paginate_loop (@endless Node) fuel query search_q cursor [] w = None.
Proof.
  induction fuel as [|fuel IH]; intros cursor w Htok; [reflexivity|].
  rewrite paginate_loop_unfold, Htok. cbv zeta. unfold endless at 1.
  cbn [sp_hasNextPage sp_nodes sp_endCursor truthy_nodes negb app List.length Z.of_nat Z.leb].
  change (1000 <=? 0) with false. cbv iota.
  apply IH. exact Htok.
Qed.

(** X13. The loop of [_paginate_search] has no bound on its iterations
    other than the cap on the records. If every page that announces a
    successor brings at least one record, 1000 iterations always suffice,
    whatever else the service does. But against a service that keeps
    answering with empty pages that announce a successor, the loop never
    ends: no number of iterations suffices. *)
Theorem paginate_search_termination :
  (forall (Node : Type)
          (github : list Request -> Request -> http_result (graphql_body Node))
          (query search_q : string) (w : World),
     progresses github ->
     exists out w', _paginate_search github 1000 query search_q w = Some (out, w')) /\
  (forall (Node : Type) (query search_q : string) (w : World) (fuel : nat),
     environ w "GH_TOKEN" <> None ->
     _paginate_search (@endless Node) fuel query search_q w = None).
Proof.
  split.
  - intros Node github query search_q w Hprog. unfold _paginate_search.
    apply paginate_loop_finishes; [exact Hprog| |]; cbn [List.length]; lia.
  - intros Node query search_q w fuel Htok. unfold _paginate_search.
    destruct (environ w "GH_TOKEN") as [token|] eqn:E; [|congruence].
    now apply (endless_loop query search_q token).
Qed.

Lemma paginate_search_termination_witness :
  (exists out w',
     _paginate_search (scripted [page_of 2 1 true] (page_of 1 0 false)) 1000 "query" "q"
       (fresh_world token_only some_instant) = Some (out, w')) /\
  _paginate_search (@endless unit) 5000 "query" "q" (fresh_world token_only some_instant)
  = None.
Proof.
  destruct paginate_search_termination as [H1 H2]. split.
  - apply H1. intros hist req page E Hn. unfold scripted in E. injection E as <-.
    destruct (List.length hist) as [|[|n]]; cbn in Hn |- *; discriminate.
  - apply H2. discriminate.
Defined.

(** ** Requests of a run *)



Section Publisher.

Variable github_created : list Request -> Request -> http_result (graphql_body CreatedPR).
Variable github_updated : list Request -> Request -> http_result (graphql_body UpdatedPR).
Variable slack : list Request -> Request -> http_result SlackResult.



End Publisher.

Section Posting.

Variable github_created : list Request -> Request -> http_result (graphql_body CreatedPR).
Variable github_updated : list Request -> Request -> http_result (graphql_body UpdatedPR).
Variable slack : list Request -> Request -> http_result SlackResult.


End Posting.


(** ** The complete run *)

Lemma bind_returned {A B : Type} (m : M A) (k : A -> M B) (w w1 : World) (a : A) :
  m w = Some (Returned a, w1) -> bind m k w = k a w1.
Proof. intros H. unfold bind. now rewrite H. Qed.

Lemma falsy_some (org : string) : org <> "" -> falsy (Some org) = false.
Proof. intros H. cbn [falsy]. now apply String.eqb_neq. Qed.

Lemma astimezone_same (d : datetime) (off : Z) :
  utcoffset d = off -> astimezone d off = Some d.
Proof. intros H. unfold astimezone. now rewrite H, Z.eqb_refl. Qed.

Section OnePage.

Context {Node : Type}.
Variable github : list Request -> Request -> http_result (graphql_body Node).

(** A search that is answered by a single, final page. *)
Lemma paginate_search_one_page (query search_q : string) (w : World) (token : string)
    (page : SearchPage Node) :
  environ w "GH_TOKEN" = Some token ->
  serves_at github (List.length (network w)) page ->
  sp_hasNextPage page = false ->
  _paginate_search github 1 query search_q w
  = Some (Returned (truthy_nodes (sp_nodes page)),
          sent w (GraphqlRequest token query search_q None)).
Proof.
  intros Htok Hserves Hlast. unfold _paginate_search.
  rewrite (paginate_loop_step github query search_q 0 None [] w token page Htok)
    by (apply Hserves; reflexivity).
  cbv zeta. rewrite Hlast. reflexivity.
Qed.

End OnePage.

Lemma network_sent (w : World) (req : Request) :
  network (sent w req) = (network w ++ [req])%list.
Proof. reflexivity. Qed.

Lemma network_printed (w : World) (line : string) : network (printed w line) = network w.
Proof. reflexivity. Qed.

Lemma stdout_sent (w : World) (req : Request) : stdout (sent w req) = stdout w.
Proof. reflexivity. Qed.

Lemma stdout_printed (w : World) (line : string) :
  stdout (printed w line) = (stdout w ++ [line])%list.
Proof. reflexivity. Qed.

Lemma stderr_sent (w : World) (req : Request) : stderr (sent w req) = stderr w.
Proof. reflexivity. Qed.

Lemma stderr_printed (w : World) (line : string) : stderr (printed w line) = stderr w.
Proof. reflexivity. Qed.

Lemma environ_sent (w : World) (req : Request) : environ (sent w req) = environ w.
Proof. reflexivity. Qed.

Lemma environ_printed (w : World) (line : string) : environ (printed w line) = environ w.
Proof. reflexivity. Qed.

Lemma print_eq (line : string) (w : World) : print line w = Some (Returned tt, printed w line).
Proof. reflexivity. Qed.

Section CompleteRun.

Variable github_created : list Request -> Request -> http_result (graphql_body CreatedPR).
Variable github_updated : list Request -> Request -> http_result (graphql_body UpdatedPR).
Variable slack : list Request -> Request -> http_result SlackResult.

Lemma search_prs_created_one_page (org s u token : string) (since until : datetime)
    (w : World) (page : SearchPage CreatedPR) :
  to_github_date since = Some s -> to_github_date until = Some u ->
  environ w "GH_TOKEN" = Some token ->
  serves_at github_created (List.length (network w)) page ->
  sp_hasNextPage page = false ->
  search_prs_created github_created 1 org since until w
  = Some (Returned (truthy_nodes (sp_nodes page)),
          sent w (GraphqlRequest token created_query (created_search org s u) None)).
Proof.
  intros Hs Hu Htok Hserves Hlast. unfold search_prs_created. rewrite Hs, Hu.
  rewrite (bind_returned _ _ w w s eq_refl), (bind_returned _ _ w w u eq_refl).
  now apply paginate_search_one_page.
Qed.

Lemma search_prs_with_reviews_one_page (org s u token : string) (since until : datetime)
    (w : World) (page : SearchPage UpdatedPR) :
  to_github_date since = Some s -> to_github_date until = Some u ->
  environ w "GH_TOKEN" = Some token ->
  serves_at github_updated (List.length (network w)) page ->
  sp_hasNextPage page = false ->
  search_prs_with_reviews github_updated 1 org since until w
  = Some (Returned (truthy_nodes (sp_nodes page)),
          sent w (GraphqlRequest token reviews_query (updated_search org s u) None)).
Proof.
  intros Hs Hu Htok Hserves Hlast. unfold search_prs_with_reviews. rewrite Hs, Hu.
  rewrite (bind_returned _ _ w w s eq_refl), (bind_returned _ _ w w u eq_refl).
  now apply paginate_search_one_page.
Qed.

Lemma send_slack_accepted (stats : AggregateStats) (since until : datetime) (w : World)
    (tok chan : string) (r : SlackResult) :
  environ w "SLACK_BOT_TOKEN" = Some tok -> environ w "SLACK_CHANNEL_ID" = Some chan ->
  utcoffset since = KST -> utcoffset until = KST ->
  slack (network w)
    (SlackRequest tok chan (slack_blocks stats (strftime_short since) (strftime_short until)))
  = HttpOk r ->
  sl_ok r = true ->
  send_slack slack stats since until w
  = Some (Returned tt,
          printed (sent w (SlackRequest tok chan
                             (slack_blocks stats (strftime_short since)
                                           (strftime_short until))))
                  slack_done).
Proof.
  intros Ht Hc Hs Hu Hans Hok. unfold send_slack.
  rewrite (bind_returned _ _ w w tok) by (unfold environ_subscript; now rewrite Ht).
  rewrite (bind_returned _ _ w w chan) by (unfold environ_subscript; now rewrite Hc).
  rewrite (astimezone_same since KST Hs), (astimezone_same until KST Hu).
  rewrite (bind_returned _ _ w w since eq_refl), (bind_returned _ _ w w until eq_refl).
  cbv zeta.
  rewrite (bind_returned _ _ w
             (sent w (SlackRequest tok chan
                        (slack_blocks stats (strftime_short since) (strftime_short until))))
             r) by (unfold urlopen; rewrite Hans; reflexivity).
  rewrite Hok. reflexivity.
Qed.

End CompleteRun.

Section Report.

Variable github_created : list Request -> Request -> http_result (graphql_body CreatedPR).
Variable github_updated : list Request -> Request -> http_result (graphql_body UpdatedPR).
Variable slack : list Request -> Request -> http_result SlackResult.

(** X15. The complete run. With the four settings present, a clock in KST
    later than the first days of year 1, one final page from each search and
    a chat service that accepts, [main] returns (status 0) after exactly three
    requests: the created-records query and the updated-records query, both
    over the window rendered in UTC, and then the message, whose blocks are
    built from [aggregate] of the two pages; it prints the four progress
    lines and the confirmation, and nothing on the error stream. *)
Theorem main_complete_run (w : World) (org tok stok chan : string)
    (pc : SearchPage CreatedPR) (pu : SearchPage UpdatedPR) :
  environ w "ORG_NAME" = Some org -> org <> "" ->
  environ w "GH_TOKEN" = Some tok ->
  environ w "SLACK_BOT_TOKEN" = Some stok -> environ w "SLACK_CHANNEL_ID" = Some chan ->
  valid_datetime (clock w) -> utcoffset (clock w) = KST -> 5 < toordinal (clock w) ->
  serves_at github_created (List.length (network w)) pc -> sp_hasNextPage pc = false ->
  serves_at github_updated (S (List.length (network w))) pu -> sp_hasNextPage pu = false ->
  (forall hist req, exists r, slack hist req = HttpOk r /\ sl_ok r = true) ->
  exists since until s u stats w',
    get_report_range (clock w) = Some (since, until) /\
    to_github_date since = Some s /\ to_github_date until = Some u /\
    aggregate (truthy_nodes (sp_nodes pc)) (truthy_nodes (sp_nodes pu)) since until
    = Some stats /\
    main github_created github_updated slack 1 w = Some (Returned tt, w') /\
    network w'
    = (network w
       ++ [ GraphqlRequest tok created_query (created_search org s u) None;
            GraphqlRequest tok reviews_query (updated_search org s u) None;
            SlackRequest stok chan
              (slack_blocks stats (strftime_short since) (strftime_short until)) ])%list /\
    stdout w'
    = (stdout w
       ++ report_lines org since until (List.length (truthy_nodes (sp_nodes pc)))
            (List.length (truthy_nodes (sp_nodes pu))) stats
       ++ [slack_done])%list /\
    stderr w' = stderr w.
Proof.
  intros Horg Hne Htok Hstok Hchan Hv Hkst H5 Hpc Hpcl Hpu Hpul Hslack.
  pose proof (end_ordinal_bounds (clock w) Hv) as [[He1 He2] _].
  assert (Hlt : 7 < end_ordinal (clock w)).
  { unfold end_ordinal, days_until_friday, weekday in *. euclid. }
  pose proof (get_report_range_eq (clock w) Hv) as Hrange.
  apply Z.ltb_lt in Hlt. rewrite Hlt, Hkst in Hrange. apply Z.ltb_lt in Hlt.
  set (since := at_ordinal (end_ordinal (clock w) - 7) REPORT_HOUR 0 0 0 KST) in *.
  set (until := at_ordinal (end_ordinal (clock w)) REPORT_HOUR 0 0 0 KST) in *.
  assert (Hs : to_github_date since = Some (date_text since ++ "T07:00:00Z"))
    by (apply to_github_date_report_hour; lia).
  assert (Hu : to_github_date until = Some (date_text until ++ "T07:00:00Z"))
    by (apply to_github_date_report_hour; lia).
  set (s := date_text since ++ "T07:00:00Z") in *.
  set (u := date_text until ++ "T07:00:00Z") in *.
  assert (Hso : utcoffset since = KST) by apply at_ordinal_fields.
  assert (Huo : utcoffset until = KST) by apply at_ordinal_fields.
  pose proof (aggregate_eq (truthy_nodes (sp_nodes pc)) (truthy_nodes (sp_nodes pu))
                since until s u Hs Hu) as Hagg.
  cbv zeta in Hagg.
  match type of Hagg with _ = Some ?st => set (stats := st) in * end.
  exists since, until, s, u, stats.
  set (blocks := slack_blocks stats (strftime_short since) (strftime_short until)).
  set (lines := report_lines org since until (List.length (truthy_nodes (sp_nodes pc)))
                  (List.length (truthy_nodes (sp_nodes pu))) stats).
  destruct (Hslack
              (network w
               ++ [ GraphqlRequest tok created_query (created_search org s u) None;
                    GraphqlRequest tok reviews_query (updated_search org s u) None ])%list
              (SlackRequest stok chan blocks)) as (r & Hans & Hok).
  eexists. split; [exact Hrange|]. split; [exact Hs|]. split; [exact Hu|].
  split; [exact Hagg|].
  split.
  - unfold main.
    rewrite (bind_returned _ _ w w (Some org)) by (unfold environ_get; now rewrite Horg).
    rewrite (falsy_some org Hne). cbn [str_of_optional].
    rewrite (bind_returned _ _ w w (clock w) eq_refl).
    rewrite Hrange.
    rewrite (bind_returned _ _ w w (since, until) eq_refl).
    rewrite (astimezone_same since KST Hso), (astimezone_same until KST Huo).
    rewrite (bind_returned _ _ w w since eq_refl), (bind_returned _ _ w w until eq_refl).
    rewrite (bind_returned _ _ _ _ tt (print_eq _ _)).
    erewrite bind_returned
      by (eapply search_prs_created_one_page;
          [exact Hs|exact Hu|rewrite environ_printed; exact Htok
          |rewrite network_printed; exact Hpc|exact Hpcl]).
    rewrite (bind_returned _ _ _ _ tt (print_eq _ _)).
    erewrite bind_returned
      by (eapply search_prs_with_reviews_one_page;
          [exact Hs|exact Hu
          |rewrite environ_printed, environ_sent, environ_printed; exact Htok
          | |exact Hpul];
          intros hist req Hlen; apply Hpu; rewrite Hlen;
          rewrite network_printed, network_sent, network_printed, length_app;
          cbn [List.length]; lia).
    rewrite (bind_returned _ _ _ _ tt (print_eq _ _)).
    rewrite Hagg.
    rewrite (bind_returned _ _ _ _ stats eq_refl).
    rewrite (bind_returned _ _ _ _ tt (print_eq _ _)).
    erewrite send_slack_accepted; [reflexivity| | |exact Hso|exact Huo| |exact Hok].
    + rewrite !environ_printed, !environ_sent, !environ_printed. exact Hstok.
    + rewrite !environ_printed, !environ_sent, !environ_printed. exact Hchan.
    + rewrite !network_printed, network_sent, network_printed, network_sent,
        network_printed, <- !app_assoc.
      exact Hans.
  - rewrite !network_printed, network_sent.
    rewrite !network_printed, network_sent, network_printed, network_sent, network_printed.
    rewrite !stdout_printed, stdout_sent, !stdout_printed, stdout_sent, !stdout_printed,
      stdout_sent, !stdout_printed.
    rewrite !stderr_printed, stderr_sent, !stderr_printed, stderr_sent, !stderr_printed,
      stderr_sent, !stderr_printed.
    rewrite <- !app_assoc. repeat split; reflexivity.
Qed.

End Report.

Lemma main_complete_run_witness :
  exists w',
    main no_results no_results slack_ok 1 (fresh_world full_env some_instant)
    = Some (Returned tt, w') /\
    List.length (network w') = 3%nat /\ List.length (stdout w') = 5%nat /\ stderr w' = [].
Proof.
  assert (Hv : valid_datetime some_instant)
    by (unfold valid_datetime; repeat split; vm_compute; congruence).
  assert (Hserves : forall (Node : Type) n,
            serves_at (@no_results Node) n (mk_page [] false None)).
  { intros Node n hist req _. unfold no_results, scripted. now destruct (List.length hist). }
  destruct (main_complete_run no_results no_results slack_ok
              (fresh_world full_env some_instant) "acme" "token" "xoxb" "C01"
              (mk_page [] false None) (mk_page [] false None))
    as (since & until & s & u & stats & w' & _ & _ & _ & _ & Hrun & Hnet & Hout & Herr);
    try reflexivity; try apply Hserves.
  - discriminate.
  - exact Hv.
  - intros hist req. eexists. split; reflexivity.
  - exists w'. split; [exact Hrun|]. rewrite Hnet, Hout, Herr.
    repeat split; reflexivity.
Defined.

Lemma bind_failed {A B : Type} (m : M A) (k : A -> M B) (w w1 : World) (o : outcome A) :
  m w = Some (o, w1) -> (forall a, o <> Returned a) ->
  bind m k w = Some (propagated o, w1).
Proof.
  intros H Hne. unfold bind. rewrite H.
  destruct o as [a|code|exn]; [now contradiction (Hne a)|reflexivity|reflexivity].
Qed.

Section FirstQuery.

Variable github_created : list Request -> Request -> http_result (graphql_body CreatedPR).
Variable github_updated : list Request -> Request -> http_result (graphql_body UpdatedPR).
Variable slack : list Request -> Request -> http_result SlackResult.

(** X16. A failure of the first query ends the run at once. With the
    organisation and the token present, when the service answers the first
    request with an [errors] member or the transport fails, [main] ends with
    status 1 after that single request: the second query is not sent, nothing
    is posted to Slack, and only the headline has been printed. *)
Theorem main_stops_at_failed_query (w : World) (org tok : string) (fuel : nat)
    (answer : http_result (graphql_body CreatedPR)) :
  environ w "ORG_NAME" = Some org -> org <> "" ->
  environ w "GH_TOKEN" = Some tok ->
  valid_datetime (clock w) -> utcoffset (clock w) = KST -> 5 < toordinal (clock w) ->
  (forall hist req,
     List.length hist = List.length (network w) -> github_created hist req = answer) ->
  (forall page, answer <> HttpOk (GraphqlData page)) ->
  exists out w' search_q headline,
    main github_created github_updated slack (S fuel) w = Some (out, w') /\
    exit_status out = 1 /\
    network w' = (network w ++ [GraphqlRequest tok created_query search_q None])%list /\
    stdout w' = (stdout w ++ [headline])%list /\
    stderr w' = (stderr w ++ search_complaint answer)%list.
Proof.
  intros Horg Hne Htok Hv Hkst H5 Hanswer Hbad.
  pose proof (end_ordinal_bounds (clock w) Hv) as [[He1 He2] _].
  assert (Hlt : 7 < end_ordinal (clock w)).
  { unfold end_ordinal, days_until_friday, weekday in *. euclid. }
  pose proof (get_report_range_eq (clock w) Hv) as Hrange.
  apply Z.ltb_lt in Hlt. rewrite Hlt, Hkst in Hrange. apply Z.ltb_lt in Hlt.
  set (since := at_ordinal (end_ordinal (clock w) - 7) REPORT_HOUR 0 0 0 KST) in *.
  set (until := at_ordinal (end_ordinal (clock w)) REPORT_HOUR 0 0 0 KST) in *.
  assert (Hs : to_github_date since = Some (date_text since ++ "T07:00:00Z"))
    by (apply to_github_date_report_hour; lia).
  assert (Hu : to_github_date until = Some (date_text until ++ "T07:00:00Z"))
    by (apply to_github_date_report_hour; lia).
  set (s := date_text since ++ "T07:00:00Z") in *.
  set (u := date_text until ++ "T07:00:00Z") in *.
  assert (Hso : utcoffset since = KST) by apply at_ordinal_fields.
  assert (Huo : utcoffset until = KST) by apply at_ordinal_fields.
  set (headline := "📊 " ++ org ++ " 주간 PR 리포트 (" ++ strftime_long since ++ " ~ "
                   ++ strftime_long until ++ ")").
  destruct (paginate_search_trace github_created created_query (created_search org s u)
              [] answer (printed w headline) tok (S fuel))
    as (w1 & Hrun & Hnet & Herr & Hout & _).
  - rewrite environ_printed. exact Htok.
  - exact I.
  - constructor.
  - exact I.
  - intros hist req Hlen. apply Hanswer. rewrite Hlen, network_printed.
    cbn [List.length]. lia.
  - destruct answer as [[detail|page]|exn]; cbn; auto. now contradiction (Hbad page).
  - cbn [List.length]. lia.
  - assert (Hfail : forall a, search_outcome [] answer <> Returned a).
    { intros a. destruct answer as [[detail|page]|exn]; cbn; try discriminate.
      now contradiction (Hbad page). }
    exists (propagated (search_outcome [] answer)), w1, (created_search org s u), headline.
    split; [|split].
    + unfold main.
      rewrite (bind_returned _ _ w w (Some org)) by (unfold environ_get; now rewrite Horg).
      rewrite (falsy_some org Hne). cbn [str_of_optional].
      rewrite (bind_returned _ _ w w (clock w) eq_refl).
      rewrite Hrange.
      rewrite (bind_returned _ _ w w (since, until) eq_refl).
      rewrite (astimezone_same since KST Hso), (astimezone_same until KST Huo).
      rewrite (bind_returned _ _ w w since eq_refl), (bind_returned _ _ w w until eq_refl).
      rewrite (bind_returned _ _ _ _ tt (print_eq _ _)).
      apply bind_failed; [|exact Hfail].
      unfold search_prs_created. rewrite Hs, Hu.
      rewrite (bind_returned _ _ _ _ s eq_refl), (bind_returned _ _ _ _ u eq_refl).
      exact Hrun.
    + destruct answer as [[detail|page]|exn]; reflexivity.
    + rewrite Hnet, Herr, Hout, network_printed, stdout_printed, stderr_printed.
      repeat split; reflexivity.
Qed.

End FirstQuery.

Lemma main_stops_at_failed_query_witness :
  exists out w',
    main (scripted_then [] (HttpFailure "URLError")) no_results slack_ok 3
      (fresh_world full_env some_instant)
    = Some (out, w') /\
    exit_status out = 1 /\ List.length (network w') = 1%nat /\ stderr w' = [].
Proof.
  assert (Hv : valid_datetime some_instant)
    by (unfold valid_datetime; repeat split; vm_compute; congruence).
  destruct (main_stops_at_failed_query (scripted_then [] (HttpFailure "URLError"))
              no_results slack_ok (fresh_world full_env some_instant) "acme" "token" 2
              (HttpFailure "URLError"))
    as (out & w' & q & headline & Hrun & Hs & Hnet & _ & Herr); try reflexivity.
  - discriminate.
  - exact Hv.
  - intros hist req Hlen. unfold scripted_then. rewrite Hlen. reflexivity.
  - discriminate.
  - exists out, w'. split; [exact Hrun|]. rewrite Hnet, Herr. repeat split; assumption.
Defined.

(** X17. [get_report_range] raises [OverflowError] exactly on the first five
    days of year 1, where the start of the window would precede the first
    representable date. It never fails at the other end of the calendar: the
    last representable day, 9999-12-31, is itself a Friday. *)
Theorem report_range_overflow (now : datetime) :
  valid_datetime now ->
  (get_report_range now = None <-> toordinal now <= 5) /\
  (toordinal now = _MAXORDINAL -> weekday now = 4).
Proof.
  intros Hv. pose proof (toordinal_valid now Hv) as Ho.
  rewrite (get_report_range_eq now Hv). split.
  - destruct (Z.ltb_spec 7 (end_ordinal now)) as [H|H].
    + split; [discriminate|]. intros H5. exfalso.
      unfold end_ordinal, days_until_friday, weekday in H. euclid.
    + split; [|reflexivity]. intros _.
      unfold end_ordinal, days_until_friday, weekday in H. euclid.
  - intros E. unfold weekday. rewrite E. reflexivity.
Qed.

Lemma report_range_overflow_witness :
  get_report_range (mk_datetime 1 1 5 12 0 0 0 KST) = None /\
  get_report_range (mk_datetime 1 1 6 12 0 0 0 KST) <> None /\
  weekday (mk_datetime 9999 12 31 0 0 0 0 KST) = 4.
Proof.
  assert (H5 : valid_datetime (mk_datetime 1 1 5 12 0 0 0 KST))
    by (unfold valid_datetime; repeat split; vm_compute; congruence).
  assert (H6 : valid_datetime (mk_datetime 1 1 6 12 0 0 0 KST))
    by (unfold valid_datetime; repeat split; vm_compute; congruence).
  assert (Hmax : valid_datetime (mk_datetime 9999 12 31 0 0 0 0 KST))
    by (unfold valid_datetime; repeat split; vm_compute; congruence).
  split; [|split].
  - apply (report_range_overflow _ H5). vm_compute. discriminate.
  - intros E. apply (report_range_overflow _ H6) in E. vm_compute in E. now apply E.
  - apply (report_range_overflow _ Hmax). reflexivity.
Defined.

Lemma labels_report_hour (n : Z) :
  let d := at_ordinal n REPORT_HOUR 0 0 0 KST in
  strftime_long d = date_text d ++ " 16:00" /\
  strftime_short d = zero_padded 2 (month d) ++ "/" ++ zero_padded 2 (day d) ++ " 16:00".
Proof.
  cbv zeta. unfold at_ordinal. destruct (_ord2ymd n) as [[y m] d].
  unfold strftime_long, strftime_short, date_text.
  cbn [year month day hour minute]. rewrite !str_append_assoc. split; reflexivity.
Qed.

(** X18. What the reader sees. From year 1000 on, for a clock in KST, the
    two ends of the window are already in KST when [main] and [send_slack]
    convert them for display, so the conversion changes nothing, and both the
    headline and the footer of the message show 16:00 on the two Fridays,
    while the queries carry 07:00:00Z. *)
Theorem window_labels (now since until : datetime) :
  valid_datetime now -> 1000 < year now -> utcoffset now = KST ->
  get_report_range now = Some (since, until) ->
  astimezone since KST = Some since /\ astimezone until KST = Some until /\
  strftime_long since = date_text since ++ " 16:00" /\
  strftime_long until = date_text until ++ " 16:00" /\
  strftime_short since
  = zero_padded 2 (month since) ++ "/" ++ zero_padded 2 (day since) ++ " 16:00" /\
  strftime_short until
  = zero_padded 2 (month until) ++ "/" ++ zero_padded 2 (day until) ++ " 16:00".
Proof.
  intros Hv _ Hoff H. rewrite (get_report_range_eq now Hv), Hoff in H.
  destruct (7 <? end_ordinal now); [|discriminate H]. injection H as <- <-.
  destruct (labels_report_hour (end_ordinal now - 7)) as [L1 S1].
  destruct (labels_report_hour (end_ordinal now)) as [L2 S2].
  cbv zeta in L1, S1, L2, S2.
  repeat split; try assumption; apply astimezone_same; apply at_ordinal_fields.
Qed.

Lemma window_labels_witness :
  strftime_long (mk_datetime 2024 5 3 16 0 0 0 KST) = "2024-05-03 16:00" /\
  strftime_short (mk_datetime 2024 4 26 16 0 0 0 KST) = "04/26 16:00".
Proof.
  assert (Hv : valid_datetime (mk_datetime 2024 5 1 10 30 15 123 KST))
    by (unfold valid_datetime; repeat split; vm_compute; congruence).
  destruct (window_labels (mk_datetime 2024 5 1 10 30 15 123 KST)
              (mk_datetime 2024 4 26 16 0 0 0 KST) (mk_datetime 2024 5 3 16 0 0 0 KST)
              Hv eq_refl eq_refl)
    as (_ & _ & _ & H1 & H2 & _); [vm_compute; reflexivity|].
  split; [exact H1|exact H2].
Defined.
